(** * Supro auxiliary tooling: the frame relay service and the dump utility

    A shallow embedding of
      - [src/python/mediapipe_service.py]   (class [MediaPipeService], [__main__]),
      - [src/python/mediapipe_processor.py] ([MediaPipeProcessor.process_frame]),
      - [src/combine.py]                    ([iter_files], [read_file_as_text],
                                             [write_combined_output], [main]),
    followed by the properties the specification states about them and by
    further properties of the same functions.

    Conventions of the embedding.
      - Python exceptions are values of [Py.exception]; a computation that may
        raise has type [Py.exc A]; code that also prints or mutates an object
        runs in the state-and-exception monad [Py.M S A].
      - Everything the repository delegates (the JSON parser, numpy's array
        constructor on irregular input, the two landmark detectors, float
        printing, text decoding, output buffering) is an operation of an
        interface record ([External], [Dump.Host]) and is never given a body
        here; properties hold for every implementation of the interface.
      - Standard input is the list of the lines [readline] returns before the
        end of the stream.  Writing to an already opened stream succeeds
        once the text is encoded; the output file and standard output of
        the dump utility encode strictly.
      - The file system is a tree without symbolic links, so [Path.resolve]
        only makes a path absolute and removes [..]. *)

From Stdlib Require Import ZArith String Ascii List Floats.PrimFloat DecimalString.
From stdpp Require Import base tactics option list strings sorting.

Set Warnings "-register-all,-inexact-float".
Local Open Scope Z_scope.

(** ** Python runtime: exceptions, and the monad of statements *)

Module Py.

(** The classes of [Exception] that the modelled operations raise.  The two
    [BaseException]s outside [Exception] ([KeyboardInterrupt], [SystemExit])
    are raised by none of them; [sys.exit] is modelled by the exit status. *)
Inductive exception : Type :=
| KeyError (key : string)
| TypeError (msg : string)
| ValueError (msg : string)
| OverflowError (msg : string)
| AttributeError (msg : string)
| JSONDecodeError (msg : string)
| UnicodeDecodeError (msg : string)
| UnicodeEncodeError (msg : string)
| OSError (msg : string)
| RuntimeError (msg : string).

(** [isinstance(e, json.JSONDecodeError)] *)
Definition is_JSONDecodeError (e : exception) : bool :=
  match e with JSONDecodeError _ => true | _ => false end.

(** [isinstance(e, UnicodeDecodeError)] *)
Definition is_UnicodeDecodeError (e : exception) : bool :=
  match e with UnicodeDecodeError _ => true | _ => false end.

(** [str(e)], used by the f-strings of the diagnostics. *)
Definition exception_str (e : exception) : string :=
  match e with
  | KeyError k => "'" +:+ k +:+ "'"
  | TypeError m | ValueError m | OverflowError m | AttributeError m
  | JSONDecodeError m | UnicodeDecodeError m | UnicodeEncodeError m | OSError m
  | RuntimeError m => m
  end.

Inductive exc (A : Type) : Type :=
| Return (a : A)
| Raise (e : exception).
Global Arguments Return {A} a.
Global Arguments Raise {A} e.

(** A statement: it runs in a state [S], ends normally with a value or
    raises, and leaves a state behind in both cases. *)
Definition M (S A : Type) : Type := S → exc A * S.

Definition ret {S A} (a : A) : M S A := λ s, (Return a, s).

Definition raise {S A} (e : exception) : M S A := λ s, (Raise e, s).

Definition bind {S A B} (c : M S A) (k : A → M S B) : M S B :=
  λ s, match c s with
       | (Return a, s') => k a s'
       | (Raise e, s') => (Raise e, s')
       end.

(** An expression that may raise and touches no state. *)
Definition lift {S A} (r : exc A) : M S A := λ s, (r, s).

Definition get {S} : M S S := λ s, (Return s, s).
Definition modify {S} (f : S → S) : M S unit := λ s, (Return tt, f s).

(** [try: body / except ...: handler].  [handler e] is [None] when no
    [except] clause matches [e]; an exception raised inside a handler is not
    caught by the sibling clauses. *)
Definition try_except {S A} (body : M S A) (handler : exception → option (M S A)) : M S A :=
  λ s, match body s with
       | (Return a, s') => (Return a, s')
       | (Raise e, s') =>
           match handler e with
           | Some h => h s'
           | None => (Raise e, s')
           end
       end.

(** [for x in xs: body], threading an accumulator. *)
Fixpoint for_each {S A B} (xs : list A) (acc : B) (body : B → A → M S B) : M S B :=
  match xs with
  | [] => ret acc
  | x :: xs' => bind (body acc x) (λ acc', for_each xs' acc' body)
  end.

End Py.

Import Py.

Notation "'let*' x ':=' c 'in' k" := (Py.bind c (λ x, k))
  (at level 10, x name, c at level 100, k at level 200).
Notation "c ';;' k" := (Py.bind c (λ _, k))
  (at level 100, k at level 200, right associativity).

(** The double quote, for the JSON text the service prints. *)
Definition dq : string := String (ascii_of_nat 34) EmptyString.

(** ** Python values the relay handles *)

(** What [json.loads] returns.  An object is a [dict]: its keys are pairwise
    distinct, kept in document order. *)
Inductive json : Type :=
| JNull
| JBool (b : bool)
| JInt (n : Z)
| JFloat (f : float)
| JString (s : string)
| JArray (items : list json)
| JObject (members : list (string * json)).

(** The values of a frame result: floats and lists. *)
Inductive pyval : Type :=
| PFloat (f : float)
| PList (items : list pyval).

(** A [dict] with [str] keys, in insertion order. *)
Definition pydict : Type := list (string * pyval).

Fixpoint assoc {V} (k : string) (d : list (string * V)) : option V :=
  match d with
  | [] => None
  | (k', v) :: d' => if String.eqb k k' then Some v else assoc k d'
  end.

(** [d[k] = v]: replaces in place when the key is there, appends otherwise. *)
Fixpoint dict_setitem (d : pydict) (k : string) (v : pyval) : pydict :=
  match d with
  | [] => [(k, v)]
  | (k', v') :: d' =>
      if String.eqb k k' then (k', v) :: d' else (k', v') :: dict_setitem d' k v
  end.

(** [d[k]] on a result dict. *)
Definition dict_getitem (d : pydict) (k : string) : exc pyval :=
  match assoc k d with
  | Some v => Return v
  | None => Raise (KeyError k)
  end.

(** [d.keys()], as a list. *)
Definition dict_keys (d : pydict) : list string := d.*1.

(** [v.append(x)] *)
Definition list_append (v : pyval) (x : pyval) : exc pyval :=
  match v with
  | PList items => Return (PList (items ++ [x]))
  | PFloat _ => Raise (AttributeError "'float' object has no attribute 'append'")
  end.

(** [frame_data[key]] for a parsed JSON value and a [str] key. *)
Definition getitem (frame_data : json) (key : string) : exc json :=
  match frame_data with
  | JObject members =>
      match assoc key members with
      | Some v => Return v
      | None => Raise (KeyError key)
      end
  | JArray _ => Raise (TypeError "list indices must be integers or slices, not str")
  | JString _ => Raise (TypeError "string indices must be integers, not 'str'")
  | JNull => Raise (TypeError "'NoneType' object is not subscriptable")
  | JBool _ => Raise (TypeError "'bool' object is not subscriptable")
  | JInt _ => Raise (TypeError "'int' object is not subscriptable")
  | JFloat _ => Raise (TypeError "'float' object is not subscriptable")
  end.

(** ** numpy arrays of dtype uint8 *)

(** A C-contiguous [uint8] array: its shape and its samples in row-major
    order. *)
Record ndarray : Type := { shape : list Z; buffer : list Z }.

(** [a.size] *)
Definition size (a : ndarray) : Z := Z.of_nat (length (buffer a)).

(** A flat JSON array of integers that all fit an unsigned byte. *)
Fixpoint flat_uint8 (items : list json) : option (list Z) :=
  match items with
  | [] => Some []
  | JInt n :: items' =>
      if (0 <=? n) && (n <? 256)
      then option_map (cons n) (flat_uint8 items')
      else None
  | _ => None
  end.

(** An entry of a shape tuple as numpy reads it: an integer that fits
    [npy_intp] (numpy turns the overflow of a larger one into a
    [ValueError]); a [bool] is refused like any non-integer. *)
Definition as_intp (v : json) : exc Z :=
  match v with
  | JInt n =>
      if (- 2 ^ 63 <=? n) && (n <? 2 ^ 63) then Return n
      else Raise (ValueError "Maximum allowed dimension exceeded")
  | _ => Raise (TypeError "an integer is required")
  end.

(** The [ValueError] of a reshape to a shape the size does not fit.  numpy's
    message goes on with the size and the shape; the class is what the
    callers see. *)
Definition size_mismatch : exception := ValueError "cannot reshape array into shape".

(** [a.reshape((d0, d1, d2))] on integers.  A negative entry stands for the
    one dimension numpy infers from the size ([-1] in the documentation). *)
Definition reshape3 (a : ndarray) (d0 d1 d2 : Z) : exc ndarray :=
  let unknown := List.filter (λ d, d <? 0) [d0; d1; d2] in
  let s_known := fold_right Z.mul 1 (List.filter (λ d, 0 <=? d) [d0; d1; d2]) in
  match unknown with
  | [] =>
      if size a =? s_known
      then Return {| shape := [d0; d1; d2]; buffer := buffer a |}
      else Raise size_mismatch
  | [_] =>
      if (s_known =? 0) || negb (size a mod s_known =? 0)
      then Raise size_mismatch
      else
        let fix_dim d := if d <? 0 then size a / s_known else d in
        Return {| shape := [fix_dim d0; fix_dim d1; fix_dim d2]; buffer := buffer a |}
  | _ => Raise (ValueError "can only specify one unknown dimension")
  end.

(** [cv2.cvtColor(frame, cv2.COLOR_BGR2RGB)] on the samples of a
    three-channel image: the first and third sample of every pixel swap. *)
Fixpoint bgr2rgb (samples : list Z) : list Z :=
  match samples with
  | b :: g :: r :: rest => r :: g :: b :: bgr2rgb rest
  | _ => samples
  end.

(** ** The external capabilities *)

(** One landmark of a detector's protobuf result ([lm.x], [lm.y], [lm.z]). *)
Record Landmark : Type := { x : float; y : float; z : float }.

(** [mp.solutions.pose.Pose(...)] keyword arguments. *)
Record PoseConfig : Type := {
  pose_static_image_mode : bool;
  pose_model_complexity : Z;
  smooth_landmarks : bool;
  enable_segmentation : bool;
  pose_min_detection_confidence : float;
  pose_min_tracking_confidence : float
}.

(** [mp.solutions.hands.Hands(...)] keyword arguments. *)
Record HandsConfig : Type := {
  hands_static_image_mode : bool;
  max_num_hands : Z;
  hands_model_complexity : Z;
  hands_min_detection_confidence : float;
  hands_min_tracking_confidence : float
}.

(** The libraries behind the relay.  The detectors track across frames
    ([static_image_mode=False]), so each call also advances their state. *)
Class External : Type := {
  (** the state of a [Pose] and of a [Hands] object *)
  PoseSt : Type;
  HandsSt : Type;
  (** the constructors *)
  Pose : PoseConfig → exc PoseSt;
  Hands : HandsConfig → exc HandsSt;
  (** [pose.process(frame).pose_landmarks]: [None], or the landmark list *)
  pose_process : PoseSt → ndarray → exc (option (list Landmark)) * PoseSt;
  (** [hands.process(frame).multi_hand_landmarks]: [None], or one landmark
      list per hand *)
  hands_process : HandsSt → ndarray → exc (option (list (list Landmark))) * HandsSt;
  (** [json.loads] *)
  json_loads : string → exc json;
  (** [np.array(v, dtype=np.uint8)] for everything but a flat list of bytes *)
  np_array_other : json → exc ndarray;
  (** [float.__repr__], as [json.dumps] prints a float *)
  float_repr : float → string
}.

(** ** What a relay process does to its streams *)

Inductive event : Type :=
| Readline (line : string)    (** [sys.stdin.readline()] returned [line] *)
| Stdout (line : string)      (** [print(line)] *)
| Flush                       (** [sys.stdout.flush()] *)
| Stderr (line : string)      (** [print(line, file=sys.stderr)] *)
| Traceback (e : exception).  (** [traceback.print_exc(file=sys.stderr)] *)

(** The lines written to standard output, in order. *)
Definition stdout_of (tr : list event) : list string :=
  omap (λ ev, match ev with Stdout l => Some l | _ => None end) tr.

(** The traffic on the two data streams (reads and result lines), in order. *)
Definition is_data_event (ev : event) : bool :=
  match ev with Readline _ | Stdout _ => true | _ => false end.

Definition data_events (tr : list event) : list event := List.filter is_data_event tr.

(** [{'pose_landmarks': [], 'hand_landmarks': []}] *)
Definition empty_result : pydict :=
  [("pose_landmarks", PList []); ("hand_landmarks", PList [])]%string.

(** [[lm.x, lm.y, lm.z]] *)
Definition xyz (lm : Landmark) : pyval := PList [PFloat (x lm); PFloat (y lm); PFloat (z lm)].

(** [", ".join(parts)] *)
Fixpoint join (sep : string) (parts : list string) : string :=
  match parts with
  | [] => ""
  | [p] => p
  | p :: rest => p +:+ sep +:+ join sep rest
  end.

Section relay.
Context `{Ext : External}.

(** [np.array(v, dtype=np.uint8)] *)
Definition np_array (v : json) : exc ndarray :=
  match v with
  | JArray items =>
      match flat_uint8 items with
      | Some samples => Return {| shape := [Z.of_nat (length samples)]; buffer := samples |}
      | None => np_array_other v
      end
  | _ => np_array_other v
  end.

(** [data.reshape((height, width, 3))] with the two sizes as parsed. *)
Definition reshape (data : ndarray) (height width : json) : exc ndarray :=
  match as_intp height with
  | Raise e => Raise e
  | Return h =>
      match as_intp width with
      | Raise e => Raise e
      | Return w => reshape3 data h w 3
      end
  end.

(** [json.dumps] of a frame result (keys need no escaping). *)
Fixpoint dumps_val (v : pyval) : string :=
  match v with
  | PFloat f => float_repr f
  | PList items => "[" +:+ join ", " (map dumps_val items) +:+ "]"
  end.

Definition json_dumps (d : pydict) : string :=
  "{" +:+ join ", " (map (λ kv, dq +:+ kv.1 +:+ dq +:+ ": " +:+ dumps_val kv.2) d) +:+ "}".

(** The part of both [process_frame]s after the detectors ran: the result
    dict is created empty and filled from what they returned. *)
Definition assemble {S} (pose_landmarks : option (list Landmark))
    (multi_hand_landmarks : option (list (list Landmark))) : M S pydict :=
  let result := empty_result in
  let* result :=
    match pose_landmarks with
    | Some landmark => ret (dict_setitem result "pose_landmarks" (PList (map xyz landmark)))
    | None => ret result
    end in
  let* result :=
    match multi_hand_landmarks with
    | Some ((_ :: _) as hands) =>
        for_each hands result (λ result hand_landmarks,
          let hand_data := PList (map xyz hand_landmarks) in
          let* l := lift (dict_getitem result "hand_landmarks") in
          let* l' := lift (list_append l hand_data) in
          ret (dict_setitem result "hand_landmarks" l'))
    | _ => ret result
    end in
  ret result.

End relay.

(** ** [mediapipe_service.py] *)

Module MediaPipeService.
Section service.
Context `{Ext : External}.

(** The service object ([self.pose], [self.hands]) and the process's
    streams. *)
Record state : Type := { pose : PoseSt; hands : HandsSt; trace : list event }.

Definition emit (ev : event) : M state unit :=
  modify (λ s, {| pose := pose s; hands := hands s; trace := trace s ++ [ev] |}).

(** [self.pose.process(frame)] *)
Definition self_pose_process (frame : ndarray) : M state (option (list Landmark)) :=
  λ s, let '(r, p) := pose_process (pose s) frame in
       (r, {| pose := p; hands := hands s; trace := trace s |}).

(** [self.hands.process(frame)] *)
Definition self_hands_process (frame : ndarray) : M state (option (list (list Landmark))) :=
  λ s, let '(r, h) := hands_process (hands s) frame in
       (r, {| pose := pose s; hands := h; trace := trace s |}).

Definition pose_config : PoseConfig :=
  {| pose_static_image_mode := false; pose_model_complexity := 1;
     smooth_landmarks := true; enable_segmentation := false;
     pose_min_detection_confidence := 0.5; pose_min_tracking_confidence := 0.5 |}.

Definition hands_config : HandsConfig :=
  {| hands_static_image_mode := false; max_num_hands := 2; hands_model_complexity := 1;
     hands_min_detection_confidence := 0.4; hands_min_tracking_confidence := 0.4 |}.

(** [MediaPipeService.__init__] *)
Definition __init__ : M (list event) (PoseSt * HandsSt) :=
  let* pose := lift (Pose pose_config) in
  let* hands := lift (Hands hands_config) in
  modify (λ tr, tr ++ [Stderr "MediaPipe service initialized with hands enabled"]);;
  ret (pose, hands).

(** [MediaPipeService.process_frame] *)
Definition process_frame (frame_data : json) : M state pydict :=
  try_except
    (let* width := lift (getitem frame_data "width") in
     let* height := lift (getitem frame_data "height") in
     let* data_list := lift (getitem frame_data "data") in
     let* data := lift (np_array data_list) in
     let* frame := lift (reshape data height width) in
     let* pose_results := self_pose_process frame in
     let* hands_results := self_hands_process frame in
     assemble pose_results hands_results)
    (λ e, Some (
       emit (Stderr ("Error processing frame: " +:+ exception_str e));;
       emit (Traceback e);;
       ret empty_result)).

(** One turn of the [while True] loop of [run], [line] being what
    [readline] returns; [false] is [break]. *)
Definition run_step (line : string) : M state bool :=
  try_except
    (emit (Readline line);;
     if String.eqb line "" then
       emit (Stderr "End of input stream");; ret false
     else
       let* frame_data := lift (json_loads line) in
       let* result := process_frame frame_data in
       emit (Stdout (json_dumps result));;
       emit Flush;;
       ret true)
    (λ e,
       if is_JSONDecodeError e then Some (
         emit (Stderr ("JSON decode error: " +:+ exception_str e));;
         emit (Stdout (json_dumps empty_result));;
         emit Flush;;
         ret true)
       else Some (
         emit (Stderr ("Service error: " +:+ exception_str e));;
         emit (Traceback e);;
         emit (Stdout (json_dumps empty_result));;
         emit Flush;;
         ret true)).

(** The loop over the lines still to come on standard input; at the end of
    the stream [readline] returns the empty string. *)
Fixpoint run_loop (stdin : list string) : M state unit :=
  match stdin with
  | [] => run_step "";; ret tt
  | line :: rest =>
      let* continue := run_step line in
      if continue : bool then run_loop rest else ret tt
  end.

(** [MediaPipeService.run] *)
Definition run (stdin : list string) : M state unit :=
  emit (Stdout "READY");;
  emit Flush;;
  emit (Stderr "MediaPipe service ready with hands tracking");;
  run_loop stdin.

(** The [if __name__ == '__main__'] block: the exit status of the process
    and everything it did to its streams. *)
Definition __main__ (stdin : list string) : Z * list event :=
  let failed e tr := (1, tr ++ [Stderr ("Failed to start service: " +:+ exception_str e)]) in
  match __init__ [] with
  | (Raise e, tr) => failed e tr
  | (Return (p, h), tr) =>
      match run stdin {| pose := p; hands := h; trace := tr |} with
      | (Return _, s) => (0, trace s)
      | (Raise e, s) => failed e (trace s)
      end
  end.

End service.
End MediaPipeService.

(** ** [mediapipe_processor.py] *)

Module MediaPipeProcessor.
Section processor.
Context `{Ext : External}.

(** The processor object ([self.pose], [self.hands]). *)
Record state : Type := { pose : PoseSt; hands : HandsSt }.

Definition self_pose_process (frame : ndarray) : M state (option (list Landmark)) :=
  λ s, let '(r, p) := pose_process (pose s) frame in (r, {| pose := p; hands := hands s |}).

Definition self_hands_process (frame : ndarray) : M state (option (list (list Landmark))) :=
  λ s, let '(r, h) := hands_process (hands s) frame in (r, {| pose := pose s; hands := h |}).

(** [np.frombuffer(frame_data, dtype=np.uint8)] on a [bytes] object. *)
Definition frombuffer (frame_data : list Byte.byte) : ndarray :=
  {| shape := [Z.of_nat (length frame_data)];
     buffer := map (λ b, Z.of_N (Byte.to_N b)) frame_data |}.

(** [cv2.cvtColor(frame, cv2.COLOR_BGR2RGB)] *)
Definition cvtColor (frame : ndarray) : ndarray :=
  {| shape := shape frame; buffer := bgr2rgb (buffer frame) |}.

(** [MediaPipeProcessor.process_frame] *)
Definition process_frame (frame_data : list Byte.byte) : M state string :=
  let frame := frombuffer frame_data in
  let* frame := lift (reshape3 frame 720 1280 3) in
  let rgb_frame := cvtColor frame in
  let* pose_results := self_pose_process rgb_frame in
  let* hands_results := self_hands_process rgb_frame in
  let* result := assemble pose_results hands_results in
  ret (json_dumps result).

End processor.
End MediaPipeProcessor.

(** ** [combine.py]: paths, the file system, and what the host provides *)

Module Dump.

(** The line feed. *)
Definition nl : string := String (ascii_of_nat 10) EmptyString.

(** [s * n] *)
Fixpoint str_repeat (s : string) (n : nat) : string :=
  match n with
  | O => ""
  | S n' => s +:+ str_repeat s n'
  end.

(** [str(n)] for a count. *)
Definition str_nat (n : nat) : string := NilZero.string_of_uint (Nat.to_uint n).

(** A [pathlib.Path] as the caller gives it. *)
Record Path : Type := { is_absolute : bool; parts : list string }.

(** A resolved path: the names from the root of the file system down. *)
Abbreviation abspath := (list string).

(** Lexical normalisation: [..] steps up (and stays at the root). *)
Definition normpath (names : list string) : abspath :=
  fold_left (λ acc c, if String.eqb c ".." then removelast acc else acc ++ [c]) names [].

(** [p.resolve()] in a file system without symbolic links, the process
    running in directory [cwd]. *)
Definition resolve (cwd : abspath) (p : Path) : abspath :=
  normpath ((if is_absolute p then [] else cwd) ++ parts p).

(** [str(p)] for a resolved path and for a relative one. *)
Definition str_abs (p : abspath) : string := "/" +:+ join "/" p.
Definition str_rel (p : list string) : string :=
  match p with [] => "." | _ => join "/" p end.

Definition path_eqb (p q : list string) : bool := bool_decide (p = q).

(** [q in p.parents]: [q] is a proper ancestor of [p]. *)
Fixpoint in_parents (q p : list string) : bool :=
  match q, p with
  | [], _ :: _ => true
  | c :: q', d :: p' => String.eqb c d && in_parents q' p'
  | _, [] => false
  end.

(** [p.relative_to(base)] *)
Fixpoint relative_to (p base : list string) : exc (list string) :=
  match base, p with
  | [], _ => Return p
  | c :: base', d :: p' =>
      if String.eqb c d then relative_to p' base'
      else Raise (ValueError "path is not in the subpath of the base")
  | _ :: _, [] => Raise (ValueError "path is not in the subpath of the base")
  end.

(** The order of paths that [sorted] uses: part by part, each part as a
    string, a proper prefix first. *)
Fixpoint parts_compare (p q : list string) : comparison :=
  match p, q with
  | [], [] => Eq
  | [], _ :: _ => Lt
  | _ :: _, [] => Gt
  | c :: p', d :: q' =>
      match String.compare c d with
      | Eq => parts_compare p' q'
      | o => o
      end
  end.

Definition path_le (p q : list string) : Prop := parts_compare p q ≠ Gt.

Global Instance path_le_dec : RelDecision path_le.
Proof. intros p q. unfold path_le. apply _. Defined.

(** [sorted(paths)]: the order is total and antisymmetric, so the sorted
    arrangement of a list is unique and any sorting algorithm computes it. *)
Definition sorted (paths : list abspath) : list abspath := merge_sort path_le paths.

(** What is behind a name: a file that opens (its bytes) or one whose
    [open] fails with an [OSError] (the message). *)
Inductive file : Type :=
| Regular (data : list Byte.byte)
| Denied (err : string).

(** A directory tree; the entries of a directory are in the order the
    operating system lists them. *)
Inductive node : Type :=
| File (f : file)
| Dir (entries : list (string * node)).

Definition is_dir (n : node) : bool :=
  match n with Dir _ => true | File _ => false end.

(** What a path names, starting at [n]. *)
Fixpoint lookup (n : node) (p : list string) : option node :=
  match p with
  | [] => Some n
  | c :: p' =>
      match n with
      | Dir entries =>
          match assoc c entries with
          | Some child => lookup child p'
          | None => None
          end
      | File _ => None
      end
  end.

(** No directory lists a name twice. *)
Fixpoint wf (n : node) : bool :=
  match n with
  | File _ => true
  | Dir entries =>
      bool_decide (NoDup entries.*1) && forallb (λ e, wf e.2) entries
  end.

(** ** Text as bytes *)

(** A [str] is represented by its UTF-8 encoding, the bytes it becomes in
    the output file.  A file name that is not valid UTF-8 reaches Python as
    a [str] with surrogate escapes; it is represented by the bytes of the
    name, and is what the strict encoder of the output stream refuses. *)

Definition in_range (lo hi : N) (b : Byte.byte) : bool :=
  ((lo <=? Byte.to_N b) && (Byte.to_N b <=? hi))%N.

(** Well-formed UTF-8 (the Unicode standard, table 3-7): no overlong form,
    no surrogate, nothing above U+10FFFF. *)
Fixpoint valid_utf8 (bs : list Byte.byte) : bool :=
  match bs with
  | [] => true
  | b0 :: bs1 =>
      if in_range 0x00 0x7f b0 then valid_utf8 bs1
      else
        match bs1 with
        | [] => false
        | b1 :: bs2 =>
            if in_range 0xc2 0xdf b0 then in_range 0x80 0xbf b1 && valid_utf8 bs2
            else
              match bs2 with
              | [] => false
              | b2 :: bs3 =>
                  if in_range 0xe0 0xef b0 then
                    in_range (if in_range 0xe0 0xe0 b0 then 0xa0 else 0x80)
                             (if in_range 0xed 0xed b0 then 0x9f else 0xbf) b1
                    && in_range 0x80 0xbf b2 && valid_utf8 bs3
                  else
                    match bs3 with
                    | [] => false
                    | b3 :: bs4 =>
                        in_range 0xf0 0xf4 b0
                        && in_range (if in_range 0xf0 0xf0 b0 then 0x90 else 0x80)
                                    (if in_range 0xf4 0xf4 b0 then 0x8f else 0xbf) b1
                        && in_range 0x80 0xbf b2 && in_range 0x80 0xbf b3
                        && valid_utf8 bs4
                    end
              end
        end
  end.

(** [s.encode("utf-8")] succeeds. *)
Definition encodable (s : string) : bool := valid_utf8 (list_byte_of_string s).

(** Text decoding and output buffering, which Python provides. *)
Class Host : Type := {
  (** [Path.read_text(encoding="utf-8")] on a file with these bytes; [None]
      is [UnicodeDecodeError] *)
  decode_text : list Byte.byte → option string;
  (** [data.decode("utf-8", errors="replace")] *)
  decode_replace : list Byte.byte → string;
  (** the bytes of the output file that are on disk once these strings have
      been written to it and it is still open *)
  on_disk : list string → list Byte.byte
}.

(** What decoding returns is a [str] without surrogates: it encodes. *)
Class HostLaws (Hst : Host) : Prop := {
  decode_text_encodable (data : list Byte.byte) (text : string) :
    decode_text data = Some text → encodable text = true;
  decode_replace_encodable (data : list Byte.byte) :
    encodable (decode_replace data) = true
}.

(** ** [combine.py]: the functions *)

Section combine.
Context `{Hst : Host}.

(** The file system when the run starts (its root directory). *)
Variable fs : node.

(** [iter_files] below one directory that [os.walk] visits: [dirpath] is
    the directory, [n] what is there.  The files of the directory come
    first, then the directories left in [dirnames], in listing order. *)
Fixpoint iter_files_from (exclude_dir : abspath) (dirpath : abspath) (n : node) : list abspath :=
  match n with
  | File _ => []
  | Dir entries =>
      let current := dirpath in
      let keep (d : string) : bool :=
        negb (path_eqb (dirpath ++ [d]) exclude_dir) && negb (String.prefix ".git" d) in
      let yielded :=
        if path_eqb current exclude_dir || in_parents exclude_dir current then []
        else
          flat_map (λ e, match e.2 with
                         | File _ => if String.eqb e.1 ".DS_Store" then [] else [current ++ [e.1]]
                         | Dir _ => []
                         end) entries in
      yielded ++
      flat_map (λ e, match e.2 with
                     | Dir _ => if keep e.1 then iter_files_from exclude_dir (dirpath ++ [e.1]) e.2 else []
                     | File _ => []
                     end) entries
  end.

(** [iter_files(root, exclude_dir)], both already resolved; [os.walk]
    yields nothing for a root that is no directory. *)
Definition iter_files (root exclude_dir : abspath) : list abspath :=
  match lookup fs root with
  | Some (Dir entries) => iter_files_from exclude_dir root (Dir entries)
  | _ => []
  end.

(** The state of a run: what has been written to the output file and to
    standard output. *)
Record run_state : Type := { out : list string; stdout : list string }.

Definition not_encodable : exception :=
  UnicodeEncodeError "'utf-8' codec can't encode characters: surrogates not allowed".

(** [out.write(s)] on the output file, opened with [encoding="utf-8"]: the
    text is encoded, strictly, when it is written. *)
Definition write (s : string) : M run_state unit :=
  if encodable s
  then modify (λ st, {| out := out st ++ [s]; stdout := stdout st |})
  else raise not_encodable.

(** [print(s)] on a standard output that encodes as UTF-8, strictly (the
    default of a UTF-8 locale). *)
Definition print (s : string) : M run_state unit :=
  if encodable s
  then modify (λ st, {| out := out st; stdout := stdout st ++ [s] |})
  else raise not_encodable.

(** [str(e)] of an [OSError] that names a file. *)
Definition errno_message (what : string) (path : abspath) : string :=
  what +:+ ": '" +:+ str_abs path +:+ "'".

(** [open(path, "rb").read()] while the output file [out_file] is open for
    writing: the output file holds what has reached the disk so far, every
    other path what the file system had at the start. *)
Definition read_bytes (out_file path : abspath) : M run_state (list Byte.byte) :=
  λ st,
    if path_eqb path out_file then (Return (on_disk (out st)), st)
    else
      match lookup fs path with
      | Some (File (Regular data)) => (Return data, st)
      | Some (File (Denied err)) => (Raise (OSError err), st)
      | Some (Dir _) => (Raise (OSError (errno_message "[Errno 21] Is a directory" path)), st)
      | None =>
          (Raise (OSError (errno_message "[Errno 2] No such file or directory" path)), st)
      end.

(** [path.read_text(encoding="utf-8")] *)
Definition read_text (out_file path : abspath) : M run_state string :=
  let* data := read_bytes out_file path in
  match decode_text data with
  | Some text => ret text
  | None => raise (UnicodeDecodeError "'utf-8' codec can't decode bytes")
  end.

(** [read_file_as_text] *)
Definition read_file_as_text (out_file path : abspath) : M run_state string :=
  try_except
    (read_text out_file path)
    (λ e,
       if is_UnicodeDecodeError e then Some (
         let* data := read_bytes out_file path in
         ret (decode_replace data))
       else Some (
         ret ("<<ERROR READING FILE: " +:+ exception_str e +:+ ">>"))).

(** [out_file.parent.mkdir(parents=True, exist_ok=True)] followed by
    [out_file.open("w")]: a name on the way that is a file, or an output
    path that is a directory or cannot be opened, raises. *)
Fixpoint open_output (n : node) (out_file : list string) : exc unit :=
  match out_file with
  | [] => Raise (OSError "Is a directory")
  | c :: rest =>
      match n with
      | File _ => Raise (OSError "Not a directory")
      | Dir entries =>
          match assoc c entries, rest with
          | None, _ => Return tt
          | Some (File (Regular _)), [] => Return tt
          | Some (File (Denied err)), [] => Raise (OSError err)
          | Some child, _ => open_output child rest
          end
      end
  end.

Definition rule (c : string) : string := str_repeat c 80 +:+ nl.

(** [write_combined_output]; [cwd] is the working directory of the
    process. *)
Definition write_combined_output (cwd : abspath) (src_dir exclude_dir out_file : Path)
    (extra_paths : option (list Path)) : M run_state unit :=
  let src_dir := resolve cwd src_dir in
  let exclude_dir := resolve cwd exclude_dir in
  let out_file := resolve cwd out_file in
  let files := sorted (iter_files src_dir exclude_dir) in
  let count := O in
  lift (open_output fs out_file);;
  write ("# Combined dump of " +:+ str_abs src_dir +:+ nl);;
  write ("# Excluding: " +:+ str_abs exclude_dir +:+ nl +:+ nl);;
  let* count :=
    for_each files count (λ count p,
      let* rel := lift (relative_to p src_dir) in
      write nl;;
      write (rule "=");;
      write ("FILE: " +:+ str_rel rel +:+ nl);;
      write (rule "=" +:+ nl);;
      let* text := read_file_as_text out_file p in
      write text;;
      write nl;;
      ret (S count)) in
  match extra_paths with
  | Some ((_ :: _) as extras) =>
      write nl;;
      write (rule "#");;
      write ("# EXTRA FILES (appended after source tree)" +:+ nl);;
      write (rule "#" +:+ nl);;
      for_each extras tt (λ _ xp,
        let xp := resolve cwd xp in
        write nl;;
        write (rule "=");;
        write ("EXTRA FILE: " +:+ str_abs xp +:+ nl);;
        write (rule "=" +:+ nl);;
        let* text := read_file_as_text out_file xp in
        write text;;
        write nl)
  | _ => ret tt
  end;;
  print ("Wrote " +:+ str_nat count +:+ " in-tree files + "
         +:+ str_nat (length (default [] extra_paths)) +:+ " extras into: "
         +:+ str_abs out_file).

End combine.
End Dump.

(** ** [combine.py]: the entry point *)

Module DumpMain.
Import Dump.

(** [p / name] for a single name. *)
Definition truediv (p : Path) (name : string) : Path :=
  {| is_absolute := is_absolute p; parts := parts p ++ [name] |}.

Definition project_dir : list string :=
  ["Users"; "JulioContreras"; "Desktop"; "School"; "Research"; "Baseball SuPro ";
   "SuPro Rewritten"]%string.

Definition DEFAULT_SRC_DIR : Path :=
  {| is_absolute := true; parts := project_dir ++ ["src"]%string |}.
Definition DEFAULT_EXCLUDE_DIR : Path := truediv DEFAULT_SRC_DIR "bin".
Definition DEFAULT_OUTPUT_FILE : Path := truediv DEFAULT_SRC_DIR "_all_source.txt".
Definition DEFAULT_EXTRA_PATHS : list Path :=
  [{| is_absolute := true; parts := project_dir ++ ["Cargo.toml"]%string |};
   {| is_absolute := true; parts := project_dir ++ ["build.sh"]%string |}].

Section main.
Context `{Hst : Host}.

(** The file system and the working directory when the process starts. *)
Variable fs : node.
Variable cwd : abspath.

(** [Path(arg)] for a command-line argument, which [pathlib] provides. *)
Variable path_of_str : string → Path.

(** The four values [main] passes on, for the arguments [sys.argv[1:]]. *)
Definition arguments (argv : list string) : Path * Path * Path * list Path :=
  match argv with
  | [] => (DEFAULT_SRC_DIR, DEFAULT_EXCLUDE_DIR, DEFAULT_OUTPUT_FILE, DEFAULT_EXTRA_PATHS)
  | arg0 :: _ =>
      let src_dir := path_of_str arg0 in
      let exclude_dir :=
        if bool_decide (2 ≤ length argv)%nat
        then path_of_str (default ""%string (argv !! 1%nat))
        else truediv src_dir "bin" in
      let out_file :=
        if bool_decide (3 ≤ length argv)%nat
        then path_of_str (default ""%string (argv !! 2%nat))
        else truediv src_dir "_all_source.txt" in
      let extra_paths :=
        if bool_decide (4 ≤ length argv)%nat
        then map path_of_str (drop 3 argv)
        else DEFAULT_EXTRA_PATHS in
      (src_dir, exclude_dir, out_file, extra_paths)
  end.

(** [main] *)
Definition main (argv : list string) : M run_state unit :=
  let '(src_dir, exclude_dir, out_file, extra_paths) := arguments argv in
  write_combined_output fs cwd src_dir exclude_dir out_file (Some extra_paths).

End main.
End DumpMain.

(** ** Vocabulary of the relay's properties *)

(** The keys of a frame result, in the order of the dict. *)
Definition result_keys : list string := ["pose_landmarks"; "hand_landmarks"]%string.

(** The frame result built from the two detector answers, [None] read as
    the empty list. *)
Definition assembled (pose_landmarks : option (list Landmark))
    (multi_hand_landmarks : option (list (list Landmark))) : pydict :=
  [("pose_landmarks", PList (map xyz (default [] pose_landmarks)));
   ("hand_landmarks", PList (map (λ hand, PList (map xyz hand)) (default [] multi_hand_landmarks)))]%string.

(** The line the service prints for a frame it could not process. *)
Definition empty_line : string :=
  "{" +:+ dq +:+ "pose_landmarks" +:+ dq +:+ ": [], "
      +:+ dq +:+ "hand_landmarks" +:+ dq +:+ ": []}".

(** Reads and result lines as they alternate over a run. *)
Definition interleave (lines results : list string) : list event :=
  flat_map (λ lr, [Readline lr.1; Stdout lr.2]) (zip lines results).

(** An unsigned 8-bit sample. *)
Definition is_sample (b : Z) : Prop := 0 ≤ b < 256.

(** The parsed form of a frame request
    [{"width": w, "height": h, "data": [...]}] with a flat sample list. *)
Definition frame_request (w h : Z) (samples : list Z) : json :=
  JObject [("width", JInt w); ("height", JInt h); ("data", JArray (map JInt samples))]%string.

(** The bytes of a sample list, as the processor receives a frame. *)
Definition to_bytes (samples : list Z) : list Byte.byte :=
  map (λ b, default Byte.x00 (Byte.of_N (Z.to_N b))) samples.

(** The image the processor hands to its detectors. *)
Definition rgb_frame (frame_data : list Byte.byte) : ndarray :=
  MediaPipeProcessor.cvtColor
    {| shape := [720; 1280; 3]; buffer := buffer (MediaPipeProcessor.frombuffer frame_data) |}.

(** A frame result holds a list under each of its keys. *)
Definition holds_lists (d : pydict) : Prop :=
  Forall (λ kv, ∃ items, kv.2 = PList items) d.

Section relay_vocabulary.
Context `{Ext : External}.

(** The answer the specification asks for one request line, the detectors
    being in the states [p] and [h]: the frame the line parses to is
    processed and the JSON text of its result is the answer; a line that
    does not parse is answered with the empty result and leaves the
    detectors as they are.  With the answer come the states the detectors
    are left in. *)
Definition response (line : string) (p : PoseSt) (h : HandsSt) : string * (PoseSt * HandsSt) :=
  match json_loads line with
  | Return frame_data =>
      match MediaPipeService.process_frame frame_data
              {| MediaPipeService.pose := p; MediaPipeService.hands := h;
                 MediaPipeService.trace := [] |} with
      | (Return result, s') =>
          (json_dumps result, (MediaPipeService.pose s', MediaPipeService.hands s'))
      | (Raise _, s') => (empty_line, (MediaPipeService.pose s', MediaPipeService.hands s'))
      end
  | Raise _ => (empty_line, (p, h))
  end.

(** The answers to a sequence of request lines, one after the other: each
    request is processed in the states the one before it left. *)
Fixpoint responses (lines : list string) (p : PoseSt) (h : HandsSt)
    : list string * (PoseSt * HandsSt) :=
  match lines with
  | [] => ([], (p, h))
  | line :: rest =>
      let '(r, (p', h')) := response line p h in
      let '(results, final) := responses rest p' h' in
      (r :: results, final)
  end.

End relay_vocabulary.

(** The first of the three keys [process_frame] reads, in the order it
    reads them, that a dict lacks. *)
Definition first_missing_key (members : list (string * json)) : option string :=
  List.find (λ key, negb (bool_decide (is_Some (assoc key members))))
    ["width"; "height"; "data"]%string.

(** Every line printed to standard output is flushed before anything else
    happens on the streams. *)
Fixpoint flushed (tr : list event) : bool :=
  match tr with
  | [] => true
  | Stdout _ :: Flush :: rest => flushed rest
  | Stdout _ :: _ => false
  | _ :: rest => flushed rest
  end.

(** ** Vocabulary of the dump's properties *)

Section dump_vocabulary.
Import Dump.
Context `{Hst : Host}.

(** The file system when the run starts. *)
Variable fs : node.

(** The files the specification lists for a run, in its words: the files
    under the source root that are not inside the excluded subtree and are
    not junk entries.  [rel] is the directory of the file below the root,
    [fn] its name. *)
Definition listed_by_spec (root exclude_dir p : abspath) : Prop :=
  ∃ rel fn f,
    p = root ++ rel ++ [fn] ∧ lookup fs p = Some (File f)
    ∧ ¬ exclude_dir `prefix_of` (root ++ rel)
    ∧ fn ≠ ".DS_Store".

(** The files the code lists: as above, and no directory on the way down
    from the root has a name that begins with [.git]. *)
Definition listed (root exclude_dir p : abspath) : Prop :=
  ∃ rel fn f,
    p = root ++ rel ++ [fn] ∧ lookup fs p = Some (File f)
    ∧ ¬ exclude_dir `prefix_of` (root ++ rel)
    ∧ fn ≠ ".DS_Store"
    ∧ Forall (λ d, String.prefix ".git" d = false) rel.

(** The walk from [dirpath] down the directories [rel] is not pruned. *)
Fixpoint descends (exclude_dir dirpath : abspath) (rel : list string) : bool :=
  match rel with
  | [] => true
  | d :: rel' =>
      negb (path_eqb (dirpath ++ [d]) exclude_dir) && negb (String.prefix ".git" d)
      && descends exclude_dir (dirpath ++ [d]) rel'
  end.

(** The files of the directory [current] are yielded. *)
Definition yields_at (exclude_dir current : abspath) : bool :=
  negb (path_eqb current exclude_dir || in_parents exclude_dir current).

(** The text of a file with these bytes: decoded strictly when they are
    valid, with replacement otherwise. *)
Definition text_of (data : list Byte.byte) : string :=
  match decode_text data with
  | Some text => text
  | None => decode_replace data
  end.

Definition error_marker (msg : string) : string := "<<ERROR READING FILE: " +:+ msg +:+ ">>".

(** The text [read_file_as_text] returns for [path] once [written] has gone
    to the output file [out_file]. *)
Definition file_text (out_file path : abspath) (written : list string) : string :=
  if path_eqb path out_file then text_of (on_disk written)
  else
    match lookup fs path with
    | Some (File (Regular data)) => text_of data
    | Some (File (Denied err)) => error_marker err
    | Some (Dir _) => error_marker (errno_message "[Errno 21] Is a directory" path)
    | None => error_marker (errno_message "[Errno 2] No such file or directory" path)
    end.

(** What a run writes about [path] can be encoded: its names, and the
    message when opening it fails (Python's messages always can). *)
Definition dumpable (path : abspath) : bool :=
  forallb encodable path
  && match lookup fs path with
     | Some (File (Denied err)) => encodable err
     | _ => true
     end.

(** Everything a run writes and prints can be encoded: the three paths of
    its configuration, the listed files and the extras. *)
Definition encodable_run (cwd : abspath) (src_dir exclude_dir out_file : Path)
    (extra_paths : option (list Path)) : bool :=
  forallb encodable (resolve cwd src_dir)
  && forallb encodable (resolve cwd exclude_dir)
  && forallb encodable (resolve cwd out_file)
  && forallb dumpable (iter_files fs (resolve cwd src_dir) (resolve cwd exclude_dir))
  && forallb dumpable (map (resolve cwd) (default [] extra_paths)).

(** The four writes that open a section. *)
Definition section_head (title : string) : list string :=
  [nl; rule "="; title +:+ nl; rule "=" +:+ nl].

(** The writes of one section: its head, the text, a line feed. *)
Definition section (out_file : abspath) (title : string) (path : abspath)
    (written : list string) : list string :=
  section_head title ++ [file_text out_file path (written ++ section_head title); nl].

(** The sections of a list of files, one after the other, each file under
    the title [title_of] gives it. *)
Fixpoint sections (out_file : abspath) (title_of : abspath → string) (paths : list abspath)
    (written : list string) : list string :=
  match paths with
  | [] => []
  | p :: paths' =>
      let sec := section out_file (title_of p) p written in
      sec ++ sections out_file title_of paths' (written ++ sec)
  end.

Definition file_title (src_dir p : abspath) : string :=
  "FILE: " +:+ str_rel (drop (length src_dir) p).

Definition extra_title (xp : abspath) : string := "EXTRA FILE: " +:+ str_abs xp.

Definition preamble (src_dir exclude_dir : abspath) : list string :=
  ["# Combined dump of " +:+ str_abs src_dir +:+ nl;
   "# Excluding: " +:+ str_abs exclude_dir +:+ nl +:+ nl].

Definition extras_banner : list string :=
  [nl; rule "#"; "# EXTRA FILES (appended after source tree)" +:+ nl; rule "#" +:+ nl].

(** Everything after the in-tree sections. *)
Definition extras_block (out_file : abspath) (extras : list abspath) (written : list string)
    : list string :=
  match extras with
  | [] => []
  | _ :: _ => extras_banner ++ sections out_file extra_title extras (written ++ extras_banner)
  end.

Definition summary (count extras : nat) (out_file : abspath) : string :=
  "Wrote " +:+ str_nat count +:+ " in-tree files + " +:+ str_nat extras
  +:+ " extras into: " +:+ str_abs out_file.

(** Everything a run writes to the output file, [written] being there
    already: the preamble, the sections of [files], the extras. *)
Definition dump_layout (src_dir exclude_dir out_file : abspath) (files extras : list abspath)
    (written : list string) : list string :=
  let pre := preamble src_dir exclude_dir in
  let tree := sections out_file (file_title src_dir) files (written ++ pre) in
  pre ++ tree ++ extras_block out_file extras ((written ++ pre) ++ tree).

(** What a path names, as far as a run can tell: nothing, a file (and
    which), or a directory. *)
Definition kind (n : option node) : option (option file) :=
  match n with
  | None => None
  | Some (File f) => Some (Some f)
  | Some (Dir _) => Some None
  end.

End dump_vocabulary.

(** Two file systems with the same files, the same contents and the same
    directories, whatever the order in which directories list them. *)
Definition same_files (fs1 fs2 : Dump.node) : Prop :=
  ∀ p, kind (Dump.lookup fs1 p) = kind (Dump.lookup fs2 p).

(** ** Test doubles for the external capabilities *)

Module Stub.

Definition lm0 : Landmark := {| x := 0.5; y := 0.5; z := 0.5 |}.

Definition line (w h : string) (data : string) : string :=
  "{" +:+ dq +:+ "width" +:+ dq +:+ ": " +:+ w +:+ ", "
      +:+ dq +:+ "height" +:+ dq +:+ ": " +:+ h +:+ ", "
      +:+ dq +:+ "data" +:+ dq +:+ ": [" +:+ data +:+ "]}".

(** A 1x1 frame, a frame one sample short, and a frame whose height is -1. *)
Definition line_1x1 : string := line "1" "1" "0, 0, 0".
Definition line_short : string := line "1" "1" "0, 0".
Definition line_minus : string := line "1" "-1" "0, 0, 0".

(** A parser that knows these three lines and refuses every other. *)
Definition loads (l : string) : exc json :=
  if String.eqb l line_1x1 then Return (frame_request 1 1 [0; 0; 0])
  else if String.eqb l line_short then Return (frame_request 1 1 [0; 0])
  else if String.eqb l line_minus then Return (frame_request 1 (-1) [0; 0; 0])
  else Raise (JSONDecodeError "Expecting value").

(** Detectors that count the frames they saw; the pose detector finds one
    landmark in every frame, the hand detector nothing. *)
Definition ext : External := {|
  PoseSt := nat;
  HandsSt := nat;
  Pose := λ _, Return O;
  Hands := λ _, Return O;
  pose_process := λ n _, (Return (Some [lm0]), S n);
  hands_process := λ n _, (Return None, S n);
  json_loads := loads;
  np_array_other := λ _, Raise (ValueError "setting an array element with a sequence");
  float_repr := λ _, "0.5"
|}.


(** A service and a processor that have seen no frame, a black
    1280 x 720 frame, and three lines of input. *)
Definition service0 : @MediaPipeService.state ext :=
  @MediaPipeService.Build_state ext O O [].

Definition processor0 : @MediaPipeProcessor.state ext :=
  @MediaPipeProcessor.Build_state ext O O.

Definition black_frame : list Byte.byte := replicate (Z.to_nat 2764800) Byte.x00.

Definition stdin0 : list string := [line_1x1; "not json"; line_short]%string.

(** Detectors that find nothing, and detectors of which one raises. *)
Definition blind : External := {|
  PoseSt := nat;
  HandsSt := nat;
  Pose := λ _, Return O;
  Hands := λ _, Return O;
  pose_process := λ n _, (Return None, S n);
  hands_process := λ n _, (Return (Some []), S n);
  json_loads := loads;
  np_array_other := λ _, Raise (ValueError "setting an array element with a sequence");
  float_repr := λ _, "0.5"
|}.

Definition graph_error : exception := RuntimeError "graph has errors".

Definition pose_fails : External := {|
  PoseSt := nat;
  HandsSt := nat;
  Pose := λ _, Return O;
  Hands := λ _, Return O;
  pose_process := λ n _, (Raise graph_error, S n);
  hands_process := λ n _, (Return None, S n);
  json_loads := loads;
  np_array_other := λ _, Raise (ValueError "setting an array element with a sequence");
  float_repr := λ _, "0.5"
|}.

Definition hands_fail : External := {|
  PoseSt := nat;
  HandsSt := nat;
  Pose := λ _, Return O;
  Hands := λ _, Return O;
  pose_process := λ n _, (Return (Some [lm0]), S n);
  hands_process := λ n _, (Raise graph_error, S n);
  json_loads := loads;
  np_array_other := λ _, Raise (ValueError "setting an array element with a sequence");
  float_repr := λ _, "0.5"
|}.

End Stub.

(** ** Test doubles for the host, and sample trees *)

Module Sample.
Import Dump.

Definition seven_bit (b : Byte.byte) : bool := (Byte.to_N b <? 128)%N.

(** A host whose text encoding is 7-bit: a byte from 128 on is invalid and
    is replaced by a question mark; output reaches the disk unbuffered. *)
Definition host : Host := {|
  decode_text := λ data,
    if forallb seven_bit data then Some (string_of_list_byte data) else None;
  decode_replace := λ data,
    string_of_list_byte (map (λ b, if seven_bit b then b else Byte.x3f) data);
  on_disk := λ written, list_byte_of_string (String.concat "" written)
|}.

(** The same host with output that stays in the buffer until the file is
    closed. *)
Definition buffered : Host := {|
  decode_text := @decode_text host;
  decode_replace := @decode_replace host;
  on_disk := λ _, []
|}.

Definition text (s : string) : node := File (Regular (list_byte_of_string s)).

(** The tree of the specification's example, below [/src], beside a
    directory [/etc] with one file. *)
Definition tree : node :=
  Dir [("src", Dir [("sub", Dir [("b.txt", text "beta")]);
                    ("bin", Dir [("c.txt", text "gamma")]);
                    ("a.txt", text "alpha")]);
       ("etc", Dir [("Cargo.toml", text "[package]")])]%string.

(** The same files, listed in another order. *)
Definition tree_reordered : node :=
  Dir [("etc", Dir [("Cargo.toml", text "[package]")]);
       ("src", Dir [("a.txt", text "alpha");
                    ("bin", Dir [("c.txt", text "gamma")]);
                    ("sub", Dir [("b.txt", text "beta")])])]%string.

(** A tree with a [.github] directory, a [.DS_Store] file, a file that is
    not valid text and a file that cannot be opened. *)
Definition tree_dotfiles : node :=
  Dir [("src", Dir [(".github", Dir [("ci.yml", text "on: push")]);
                    (".DS_Store", text "junk");
                    (".gitignore", text "target");
                    ("blob", File (Regular [Byte.x41; Byte.xff; Byte.x42]));
                    ("locked", File (Denied "Permission denied"));
                    ("bin", Dir [("c.txt", text "gamma")])])]%string.

Definition cwd : abspath := ["home"]%string.
Definition src_dir : Path := {| is_absolute := true; parts := ["src"]%string |}.
Definition exclude_dir : Path := {| is_absolute := true; parts := ["src"; "bin"]%string |}.
Definition other_dir : Path := {| is_absolute := true; parts := ["src"; "target"]%string |}.
Definition out_file : Path := {| is_absolute := false; parts := ["dump.txt"]%string |}.
Definition extra_paths : list Path :=
  [{| is_absolute := true; parts := ["etc"; "Cargo.toml"]%string |};
   {| is_absolute := true; parts := ["etc"; "build.sh"]%string |}].

Definition start : run_state := {| out := []; stdout := [] |}.

(** The example tree after a run that left its output in [/src]. *)
Definition tree_rerun : node :=
  Dir [("src", Dir [("sub", Dir [("b.txt", text "beta")]);
                    ("bin", Dir [("c.txt", text "gamma")]);
                    ("a.txt", text "alpha");
                    ("_all_source.txt", text "# Combined dump of /src")]);
       ("etc", Dir [("Cargo.toml", text "[package]")])]%string.

(** A tree with a file whose name is the byte 255 followed by [.txt]: no
    valid UTF-8. *)
Definition latin1_name : string := String (ascii_of_nat 255) ".txt".

Definition tree_latin1 : node :=
  Dir [("src", Dir [("a.txt", text "alpha"); (latin1_name, text "omega")])]%string.

(** The output of that run, a path that names nothing, and the extra that
    is not there. *)
Definition out_in_tree : Path :=
  {| is_absolute := true; parts := ["src"; "_all_source.txt"]%string |}.
Definition nowhere : Path := {| is_absolute := true; parts := ["nowhere"]%string |}.
Definition build_sh : Path := {| is_absolute := true; parts := ["etc"; "build.sh"]%string |}.

(** [Path(arg)] for the arguments of the examples: [/src] and the like are
    absolute with the names between the slashes, every other argument is
    one relative name. *)
Definition path_of_str (arg : string) : Path :=
  if String.eqb arg "/src" then src_dir
  else if String.eqb arg "/src/bin" then exclude_dir
  else if String.eqb arg "/etc/Cargo.toml"
       then {| is_absolute := true; parts := ["etc"; "Cargo.toml"]%string |}
  else {| is_absolute := false; parts := [arg] |}.

End Sample.

(** * Properties of the frame relay *)

(** Unfolds the statement monad in the goal. *)
Ltac unfold_M :=
  unfold Py.bind, Py.ret, Py.raise, Py.lift, Py.modify, Py.get, Py.try_except in *.

Lemma bind_Return {S A B} (c : M S A) (k : A → M S B) s a s' :
  c s = (Return a, s') → Py.bind c k s = k a s'.
Proof. intros Hc. unfold Py.bind. by rewrite Hc. Qed.

Lemma bind_Raise {S A B} (c : M S A) (k : A → M S B) s e s' :
  c s = (Raise e, s') → Py.bind c k s = (Raise e, s').
Proof. intros Hc. unfold Py.bind. by rewrite Hc. Qed.

Lemma try_Return {S A} (body : M S A) handler s a s' :
  body s = (Return a, s') → Py.try_except body handler s = (Return a, s').
Proof. intros Hb. unfold Py.try_except. by rewrite Hb. Qed.

Lemma try_Raise {S A} (body : M S A) handler s e s' h :
  body s = (Raise e, s') → handler e = Some h → Py.try_except body handler s = h s'.
Proof. intros Hb Hh. unfold Py.try_except. by rewrite Hb, Hh. Qed.

(** Statements that agree step by step agree. *)
Lemma bind_ext {S A B} (c1 c2 : M S A) (k1 k2 : A → M S B) s :
  c1 s = c2 s → (∀ a s', k1 a s' = k2 a s') → Py.bind c1 k1 s = Py.bind c2 k2 s.
Proof.
  intros Hc Hk. unfold Py.bind. rewrite Hc. destruct (c2 s) as [[a|e] s']; [apply Hk|done].
Qed.

Lemma for_each_ext {S A B} (xs : list A) (body1 body2 : B → A → M S B) acc s :
  (∀ x, x ∈ xs → ∀ acc' s', body1 acc' x s' = body2 acc' x s') →
  for_each xs acc body1 s = for_each xs acc body2 s.
Proof.
  revert acc s. induction xs as [|x xs IH]; intros acc s Hbody; simpl; [done|].
  apply bind_ext; [apply Hbody; left|].
  intros acc' s'. apply IH. intros y Hy. apply Hbody. by right.
Qed.

Section relay_facts.
Context `{Ext : External}.

Lemma append_hands {S} (hands : list (list Landmark)) (v : pyval) (acc : list pyval) (s : S) :
  for_each hands [("pose_landmarks", v); ("hand_landmarks", PList acc)]%string
    (λ result hand_landmarks,
       let hand_data := PList (map xyz hand_landmarks) in
       let* l := lift (dict_getitem result "hand_landmarks") in
       let* l' := lift (list_append l hand_data) in
       ret (dict_setitem result "hand_landmarks" l')) s
  = (Return [("pose_landmarks", v);
             ("hand_landmarks", PList (acc ++ map (λ hand, PList (map xyz hand)) hands))]%string, s).
Proof.
  revert acc. induction hands as [|hand hands IH]; intros acc; simpl.
  - by rewrite app_nil_r.
  - erewrite bind_Return; [|reflexivity]. rewrite IH. by rewrite <- app_assoc.
Qed.

Lemma assemble_assembled {S} pose_landmarks multi_hand_landmarks (s : S) :
  assemble pose_landmarks multi_hand_landmarks s
  = (Return (assembled pose_landmarks multi_hand_landmarks), s).
Proof.
  unfold assemble, assembled.
  destruct pose_landmarks as [lms|], multi_hand_landmarks as [[|hand hands]|];
    (erewrite bind_Return; [|reflexivity]); try done.
  all: erewrite bind_Return; [done|apply append_hands].
Qed.

Lemma assembled_keys pose_landmarks multi_hand_landmarks :
  dict_keys (assembled pose_landmarks multi_hand_landmarks) = result_keys.
Proof. done. Qed.

End relay_facts.

Section service_facts.
Context `{Ext : External}.
Import MediaPipeService.

Lemma data_events_app tr1 tr2 :
  data_events (tr1 ++ tr2) = data_events tr1 ++ data_events tr2.
Proof. apply List.filter_app. Qed.

Lemma stdout_of_app tr1 tr2 : stdout_of (tr1 ++ tr2) = stdout_of tr1 ++ stdout_of tr2.
Proof. apply omap_app. Qed.

(** The body of the [try] in [process_frame] leaves the streams alone, and
    what it returns is assembled from the detectors' answers. *)
Lemma process_frame_cases frame_data s :
  ∃ d s', process_frame frame_data s = (Return d, s')
    ∧ (dict_keys d = result_keys ∧ holds_lists d)
    ∧ data_events (trace s') = data_events (trace s)
    ∧ stdout_of (trace s') = stdout_of (trace s).
Proof.
  unfold process_frame, self_pose_process, self_hands_process, emit. unfold_M.
  repeat case_match;
    repeat match goal with
           | Hx : assemble _ _ _ = _ |- _ => rewrite assemble_assembled in Hx
           end;
    simplify_eq/=.
  all: eexists _, _; split; [reflexivity|].
  all: split; [split; [done|repeat constructor; by eexists]|].
  all: simpl; rewrite ?data_events_app, ?stdout_of_app; simpl; by rewrite ?app_nil_r.
Qed.

Lemma dumps_empty_result : json_dumps empty_result = empty_line.
Proof. reflexivity. Qed.

Lemma eqb_empty_false line : line ≠ "" → String.eqb line "" = false.
Proof. intros Hne. by apply String.eqb_neq. Qed.




Lemma flat_uint8_samples (samples : list Z) :
  Forall (λ b, 0 ≤ b < 256) samples → flat_uint8 (map JInt samples) = Some samples.
Proof.
  induction 1 as [|b samples Hb _ IH]; simpl; [done|].
  rewrite IH. simpl.
  destruct (Z.leb_spec 0 b), (Z.ltb_spec b 256); simpl; try lia. done.
Qed.

Lemma np_array_samples (samples : list Z) :
  Forall (λ b, 0 ≤ b < 256) samples →
  np_array (JArray (map JInt samples))
  = Return {| shape := [Z.of_nat (length samples)]; buffer := samples |}.
Proof. intros Hb. unfold np_array. by rewrite flat_uint8_samples. Qed.

(** With two sizes that are not negative numpy infers nothing: a sample
    count other than [height * width * 3] is refused. *)
Lemma reshape_mismatch (data : ndarray) (w h : Z) :
  0 ≤ w → 0 ≤ h → size data ≠ w * h * 3 →
  ∃ e, reshape data (JInt h) (JInt w) = Raise e.
Proof.
  intros Hw Hh Hsize. unfold reshape, as_intp.
  destruct ((- 2 ^ 63 <=? h) && (h <? 2 ^ 63)); [|by eexists].
  destruct ((- 2 ^ 63 <=? w) && (w <? 2 ^ 63)); [|by eexists].
  unfold reshape3. simpl.
  destruct (Z.ltb_spec h 0), (Z.ltb_spec w 0); try lia. simpl.
  destruct (Z.leb_spec 0 h), (Z.leb_spec 0 w); try lia. simpl.
  destruct (Z.eqb_spec (size data) (h * (w * (3 * 1)))); [lia|]. by eexists.
Qed.

(** A valid frame reaches both detectors as the [height x width x 3] array
    of its samples, and what they answer is what [process_frame] returns. *)
Lemma process_frame_on_valid_frame (w h : Z) (samples : list Z) (s : state) pr p' hr h' :
  Forall is_sample samples →
  0 ≤ w < 2 ^ 63 → 0 ≤ h < 2 ^ 63 →
  Z.of_nat (length samples) = w * h * 3 →
  pose_process (pose s) {| shape := [h; w; 3]; buffer := samples |} = (Return pr, p') →
  hands_process (hands s) {| shape := [h; w; 3]; buffer := samples |} = (Return hr, h') →
  process_frame (frame_request w h samples) s
  = (Return (assembled pr hr), {| pose := p'; hands := h'; trace := trace s |}).
Proof.
  intros Hs Hw Hh Hlen Hpose Hhands.
  assert (reshape {| shape := [Z.of_nat (length samples)]; buffer := samples |}
            (JInt h) (JInt w)
          = Return {| shape := [h; w; 3]; buffer := samples |}) as Hreshape.
  { unfold reshape, as_intp, reshape3, size. simpl.
    destruct (Z.leb_spec (- 2 ^ 63) h), (Z.ltb_spec h (2 ^ 63)); try lia.
    destruct (Z.leb_spec (- 2 ^ 63) w), (Z.ltb_spec w (2 ^ 63)); try lia. simpl.
    destruct (Z.ltb_spec h 0), (Z.ltb_spec w 0); try lia. simpl.
    destruct (Z.leb_spec 0 h), (Z.leb_spec 0 w); try lia. simpl.
    destruct (Z.eqb_spec (Z.of_nat (length samples)) (h * (w * (3 * 1)))); [done|lia]. }
  unfold process_frame, self_pose_process, self_hands_process. unfold_M. simpl.
  rewrite flat_uint8_samples, Hreshape, Hpose by done. simpl. rewrite Hhands.
  by rewrite assemble_assembled.
Qed.

(** What [process_frame] returns and does to the detectors does not
    depend on what the streams have seen; it only adds to the trace. *)
Lemma process_frame_trace_free frame_data s :
  process_frame frame_data s
  = let '(r, s0) := process_frame frame_data
                      {| pose := pose s; hands := hands s; trace := [] |} in
    (r, {| pose := pose s0; hands := hands s0; trace := trace s ++ trace s0 |}).
Proof.
  unfold process_frame, self_pose_process, self_hands_process, emit. unfold_M. simpl.
  repeat (case_match; simplify_eq/=);
    repeat match goal with
           | Hx : assemble _ _ _ = _ |- _ => rewrite assemble_assembled in Hx
           end;
    simplify_eq/=; rewrite ?app_nil_r, <- ?app_assoc; done.
Qed.

(** One turn on a line that is there answers the line: what is printed is
    the [response] to it in the states the detectors were in, and the
    detectors are left as the response leaves them. *)
Lemma run_step_response line s :
  line ≠ "" →
  ∃ r s', run_step line s = (Return true, s')
    ∧ data_events (trace s') = data_events (trace s) ++ [Readline line; Stdout r]
    ∧ stdout_of (trace s') = stdout_of (trace s) ++ [r]
    ∧ response line (pose s) (hands s) = (r, (pose s', hands s')).
Proof.
  intros Hne%eqb_empty_false. unfold run_step, response, emit. unfold_M. simpl. rewrite Hne.
  destruct (json_loads line) as [fd|e] eqn:Hloads.
  - match goal with |- context [process_frame fd ?st] =>
      rewrite (process_frame_trace_free fd st)
    end.
    cbn [pose hands trace].
    destruct (process_frame_cases fd {| pose := pose s; hands := hands s; trace := [] |})
      as (d & s0 & -> & _ & Hdata & Hout).
    cbn [trace] in Hdata, Hout. simpl.
    eexists _, _. split; [reflexivity|]. simpl.
    rewrite !data_events_app, !stdout_of_app, Hdata, Hout. simpl.
    rewrite !app_nil_r, <- !app_assoc. done.
  - destruct (is_JSONDecodeError e); eexists _, _; (split; [reflexivity|]); simpl;
      rewrite !data_events_app, !stdout_of_app; simpl;
      rewrite !app_nil_r, <- !app_assoc; done.
Qed.

Lemma run_loop_responses stdin s :
  Forall (λ line, line ≠ "") stdin →
  ∃ results s', run_loop stdin s = (Return tt, s')
    ∧ length results = length stdin
    ∧ data_events (trace s') = data_events (trace s) ++ interleave stdin results ++ [Readline ""]
    ∧ stdout_of (trace s') = stdout_of (trace s) ++ results
    ∧ responses stdin (pose s) (hands s) = (results, (pose s', hands s')).
Proof.
  intros Hlines. revert s. induction Hlines as [|line rest Hne _ IH]; intros s; simpl.
  - unfold run_step, emit. unfold_M. simpl. eexists [], _. split; [reflexivity|]. simpl.
    rewrite !data_events_app, !stdout_of_app. simpl. by rewrite !app_nil_r.
  - destruct (run_step_response line s Hne) as (r & s1 & Hstep & Hdata & Hout & ->).
    erewrite bind_Return by done.
    destruct (IH s1) as (results & s' & -> & Hlen & Hdata' & Hout' & ->).
    exists (r :: results), s'. split_and!; [done|by simpl; f_equal|..|done].
    + rewrite Hdata', Hdata. unfold interleave. simpl. by rewrite <- !app_assoc.
    + rewrite Hout', Hout. by rewrite <- app_assoc.
Qed.

(** C9. [MediaPipeService.process_frame] is total over parsed input: for
    every JSON value (not a dict, a dict without [width], [height] or [data],
    sizes the samples cannot be reshaped to, ...) and in every state it
    returns a dict whose keys are exactly [pose_landmarks] and
    [hand_landmarks], and no exception reaches the caller. *)
Theorem process_frame_total (frame_data : json) (s : state) :
  ∃ result s',
    process_frame frame_data s = (Return result, s')
    ∧ dict_keys result = ["pose_landmarks"; "hand_landmarks"]%string.
Proof.
  destruct (process_frame_cases frame_data s) as (d & s' & Hrun & [Hkeys _] & _).
  by exists d, s'.
Qed.

(** C3. For the lines of a finite input stream the service ends normally
    and prints, after the readiness token, exactly one result line per input
    line; on the data streams each line read is followed by its result line
    before the next line is read, so results come in request order and none
    is produced out of turn.  Each result line is the answer to its own
    request ([responses]): the JSON text of what [process_frame] returns for
    the frame the line parses to, the detectors being in the states in which
    the request before it left them, or the empty result when the line does
    not parse.  As the answer to a line is on standard output before the
    next line is read, its frame is processed to the end before that read;
    the detectors end in the states the last request left. *)
Theorem run_one_result_per_line (stdin : list string) (s : state) :
  Forall (λ line, line ≠ "") stdin →
  ∃ results s',
    run stdin s = (Return tt, s')
    ∧ length results = length stdin
    ∧ stdout_of (trace s') = stdout_of (trace s) ++ "READY" :: results
    ∧ data_events (trace s')
      = data_events (trace s) ++ Stdout "READY" :: interleave stdin results ++ [Readline ""]
    ∧ responses stdin (pose s) (hands s) = (results, (pose s', hands s')).
Proof.
  intros Hlines. unfold run, emit. unfold_M. simpl.
  match goal with |- context [run_loop stdin ?st] =>
    destruct (run_loop_responses stdin st Hlines)
      as (results & s' & -> & Hlen & Hdata & Hout & Hresp)
  end.
  exists results, s'. split_and!; [done..| | |done].
  - rewrite Hout. simpl. rewrite !stdout_of_app. simpl. by rewrite !app_nil_r, <- app_assoc.
  - rewrite Hdata. simpl. rewrite !data_events_app. simpl.
    by rewrite !app_nil_r, <- !app_assoc.
Qed.


End service_facts.

Section variant_facts.
Context `{Ext : External}.

Lemma assembled_holds_lists pose_landmarks multi_hand_landmarks :
  holds_lists (assembled pose_landmarks multi_hand_landmarks).
Proof. repeat constructor; by eexists. Qed.

Lemma frombuffer_size (frame_data : list Byte.byte) :
  size (MediaPipeProcessor.frombuffer frame_data) = Z.of_nat (length frame_data).
Proof. unfold size, MediaPipeProcessor.frombuffer. simpl. by rewrite length_map. Qed.

(** The processor reshapes to the fixed 720 x 1280 x 3 and has no handler:
    a buffer of that many bytes goes to the detectors, any other raises. *)
Lemma processor_reshape (frame_data : list Byte.byte) :
  reshape3 (MediaPipeProcessor.frombuffer frame_data) 720 1280 3
  = if Z.of_nat (length frame_data) =? 2764800
    then Return {| shape := [720; 1280; 3];
                   buffer := buffer (MediaPipeProcessor.frombuffer frame_data) |}
    else Raise size_mismatch.
Proof. unfold reshape3. simpl. by rewrite frombuffer_size. Qed.

(** C1, as the code has it.  For every valid frame request (width [w],
    height [h], a flat list of [w * h * 3] byte samples)
    [MediaPipeService.process_frame] returns exactly one result dict, with
    the keys [pose_landmarks] and [hand_landmarks] each holding a (possibly
    empty) list, and raises nothing.  [MediaPipeProcessor.process_frame] has
    a fixed 720 x 1280 x 3 shape and no exception handler: it returns the
    JSON text of such a dict when the buffer has exactly 720 * 1280 * 3 bytes
    and neither detector raises, and raises [ValueError] for a buffer of any
    other length. *)
Theorem frame_processing_by_variant :
  (∀ (w h : Z) (samples : list Z) (s : MediaPipeService.state),
     Forall is_sample samples →
     Z.of_nat (length samples) = w * h * 3 →
     ∃ result s',
       MediaPipeService.process_frame (frame_request w h samples) s = (Return result, s')
       ∧ dict_keys result = result_keys ∧ holds_lists result)
  ∧ (∀ (frame_data : list Byte.byte) (s : MediaPipeProcessor.state) pr p' hr h',
       Z.of_nat (length frame_data) = 720 * 1280 * 3 →
       pose_process (MediaPipeProcessor.pose s) (rgb_frame frame_data) = (Return pr, p') →
       hands_process (MediaPipeProcessor.hands s) (rgb_frame frame_data) = (Return hr, h') →
       ∃ result,
         MediaPipeProcessor.process_frame frame_data s
         = (Return (json_dumps result), {| MediaPipeProcessor.pose := p'; MediaPipeProcessor.hands := h' |})
         ∧ dict_keys result = result_keys ∧ holds_lists result)
  ∧ (∀ (frame_data : list Byte.byte) (s : MediaPipeProcessor.state),
       Z.of_nat (length frame_data) ≠ 720 * 1280 * 3 →
       MediaPipeProcessor.process_frame frame_data s = (Raise size_mismatch, s)).
Proof.
  split_and!.
  - intros w h samples s _ _.
    destruct (process_frame_cases (frame_request w h samples) s)
      as (d & s' & Hrun & [Hkeys Hlists] & _).
    by exists d, s'.
  - intros frame_data s pr p' hr h' Hlen Hpose Hhands.
    exists (assembled pr hr). split; [|split; [done|apply assembled_holds_lists]].
    unfold MediaPipeProcessor.process_frame.
    erewrite bind_Return; cycle 1.
    { unfold Py.lift. rewrite processor_reshape, Hlen. reflexivity. }
    fold (rgb_frame frame_data).
    erewrite bind_Return; cycle 1.
    { unfold MediaPipeProcessor.self_pose_process. rewrite Hpose. reflexivity. }
    erewrite bind_Return; cycle 1.
    { unfold MediaPipeProcessor.self_hands_process. simpl. rewrite Hhands. reflexivity. }
    erewrite bind_Return; [|apply assemble_assembled]. done.
  - intros frame_data s Hlen. unfold MediaPipeProcessor.process_frame.
    erewrite bind_Raise; [done|].
    unfold Py.lift. rewrite processor_reshape.
    destruct (Z.eqb_spec (Z.of_nat (length frame_data)) 2764800); [lia|done].
Qed.

(** C2, as the code has it.  A line that [json.loads] refuses, and a line
    that parses to a frame request with sizes that are not negative and a
    flat sample list whose length is not [width * height * 3], each make the
    service print exactly one line, the empty result
    [{"pose_landmarks": [], "hand_landmarks": []}], directly after the read;
    the detectors are not run and the loop goes on to the next line. *)
Theorem invalid_line_gets_empty_result (line : string) (s : MediaPipeService.state) :
  line ≠ "" →
  (∃ e, json_loads line = Raise e)
  ∨ (∃ frame_data w h samples,
       json_loads line = Return frame_data
       ∧ getitem frame_data "width" = Return (JInt w)
       ∧ getitem frame_data "height" = Return (JInt h)
       ∧ getitem frame_data "data" = Return (JArray (map JInt samples))
       ∧ Forall is_sample samples
       ∧ 0 ≤ w ∧ 0 ≤ h
       ∧ Z.of_nat (length samples) ≠ w * h * 3) →
  ∃ s',
    MediaPipeService.run_step line s = (Return true, s')
    ∧ stdout_of (MediaPipeService.trace s') = stdout_of (MediaPipeService.trace s) ++ [empty_line]
    ∧ data_events (MediaPipeService.trace s')
      = data_events (MediaPipeService.trace s) ++ [Readline line; Stdout empty_line]
    ∧ MediaPipeService.pose s' = MediaPipeService.pose s
    ∧ MediaPipeService.hands s' = MediaPipeService.hands s.
Proof.
  intros Hne%eqb_empty_false Hbad.
  unfold MediaPipeService.run_step, MediaPipeService.emit. unfold_M. simpl. rewrite Hne.
  destruct Hbad as [[e ->]|(fd & w & h & samples & -> & Hw & Hh & Hd & Hs & ? & ? & Hlen)].
  - destruct (is_JSONDecodeError e); eexists; (split; [reflexivity|]); simpl;
      rewrite !data_events_app, !stdout_of_app; simpl;
      rewrite !app_nil_r, <- !app_assoc; done.
  - destruct (reshape_mismatch
                {| shape := [Z.of_nat (length samples)]; buffer := samples |} w h)
      as [e He]; [done..|].
    unfold MediaPipeService.process_frame. unfold_M.
    rewrite Hw, Hh, Hd, np_array_samples, He by done. simpl.
    eexists. split; [reflexivity|]. simpl.
    repeat (rewrite ?data_events_app, ?stdout_of_app; simpl).
    rewrite ?app_nil_r, <- ?app_assoc. done.
Qed.

End variant_facts.

(** ** The relay's properties at concrete inputs *)

Lemma stdin0_lines : Forall (λ line : string, line ≠ "") Stub.stdin0.
Proof. repeat constructor; by vm_compute. Qed.

Lemma black_frame_length : Z.of_nat (length Stub.black_frame) = 720 * 1280 * 3.
Proof. unfold Stub.black_frame. rewrite length_replicate. lia. Qed.

(** What the stub service prints for the three lines of [Stub.stdin0]: the
    readiness token, the result of the 1 x 1 frame, and an empty result for
    the line that is no JSON and for the frame that is one sample short. *)
Example stdout_of_three_lines :
  stdout_of (MediaPipeService.trace (MediaPipeService.run Stub.stdin0 Stub.service0).2)
  = ["READY";
     "{" +:+ dq +:+ "pose_landmarks" +:+ dq +:+ ": [[0.5, 0.5, 0.5]], "
         +:+ dq +:+ "hand_landmarks" +:+ dq +:+ ": []}";
     empty_line;
     empty_line]%string.
Proof. by vm_compute. Qed.

(** C3 on the three lines of [Stub.stdin0]. *)
Lemma run_one_result_per_line_witness :
  Forall (λ line : string, line ≠ "") Stub.stdin0
  ∧ ∃ results s',
      MediaPipeService.run Stub.stdin0 Stub.service0 = (Return tt, s')
      ∧ length results = length Stub.stdin0
      ∧ stdout_of (MediaPipeService.trace s')
        = stdout_of (MediaPipeService.trace Stub.service0) ++ "READY" :: results
      ∧ data_events (MediaPipeService.trace s')
        = data_events (MediaPipeService.trace Stub.service0)
          ++ Stdout "READY" :: interleave Stub.stdin0 results ++ [Readline ""]
      ∧ responses (Ext:=Stub.ext) Stub.stdin0 O O
        = (results, (MediaPipeService.pose s', MediaPipeService.hands s')).
Proof.
  split; [exact stdin0_lines|].
  exact (run_one_result_per_line (Ext:=Stub.ext) Stub.stdin0 Stub.service0 stdin0_lines).
Defined.


(** C1 as amended on a 1 x 1 frame (service), on a black 1280 x 720 frame
    and on the three bytes of the 1 x 1 frame (processor). *)
Lemma frame_processing_by_variant_witness :
  (Forall is_sample [0; 0; 0] ∧ Z.of_nat (length [0; 0; 0]) = 1 * 1 * 3
   ∧ ∃ result s',
       MediaPipeService.process_frame (frame_request 1 1 [0; 0; 0]) Stub.service0 = (Return result, s')
       ∧ dict_keys result = result_keys ∧ holds_lists result)
  ∧ (Z.of_nat (length Stub.black_frame) = 720 * 1280 * 3
     ∧ ∃ result,
         MediaPipeProcessor.process_frame Stub.black_frame Stub.processor0
         = (Return (json_dumps (Ext:=Stub.ext) result),
            @MediaPipeProcessor.Build_state Stub.ext 1%nat 1%nat)
         ∧ dict_keys result = result_keys ∧ holds_lists result)
  ∧ (Z.of_nat (length (to_bytes [0; 0; 0])) ≠ 720 * 1280 * 3
     ∧ MediaPipeProcessor.process_frame (to_bytes [0; 0; 0]) Stub.processor0
       = (Raise size_mismatch, Stub.processor0)).
Proof.
  assert (Forall is_sample [0; 0; 0]) as Hs by (repeat constructor; unfold is_sample; lia).
  assert (Z.of_nat (length (to_bytes [0; 0; 0])) ≠ 720 * 1280 * 3) as Hne by (simpl; lia).
  split_and!; [exact Hs|reflexivity| |exact black_frame_length| |exact Hne|].
  - exact (proj1 (frame_processing_by_variant (Ext:=Stub.ext)) 1 1 [0; 0; 0] Stub.service0 Hs eq_refl).
  - exact (proj1 (proj2 (frame_processing_by_variant (Ext:=Stub.ext)))
             Stub.black_frame Stub.processor0 (Some [Stub.lm0]) 1%nat None 1%nat
             black_frame_length eq_refl eq_refl).
  - exact (proj2 (proj2 (frame_processing_by_variant (Ext:=Stub.ext)))
             (to_bytes [0; 0; 0]) Stub.processor0 Hne).
Defined.

(** C1 as stated fails for the processor variant: the 1 x 1 frame with the
    three samples 0, 0, 0 is a valid frame request, and
    [MediaPipeProcessor.process_frame] raises on its three bytes. *)
Lemma processor_rejects_valid_frame :
  Forall is_sample [0; 0; 0]
  ∧ Z.of_nat (length [0; 0; 0]) = 1 * 1 * 3
  ∧ (MediaPipeProcessor.process_frame (to_bytes [0; 0; 0]) Stub.processor0).1
    = Raise (ValueError "cannot reshape array into shape").
Proof.
  split_and!; [repeat constructor; unfold is_sample; lia|reflexivity|by vm_compute].
Qed.

(** C2 as amended on the 1 x 1 frame that has two samples. *)
Lemma invalid_line_gets_empty_result_witness :
  Stub.line_short ≠ ""
  ∧ (∃ s',
       MediaPipeService.run_step Stub.line_short Stub.service0 = (Return true, s')
       ∧ stdout_of (MediaPipeService.trace s')
         = stdout_of (MediaPipeService.trace Stub.service0) ++ [empty_line]
       ∧ data_events (MediaPipeService.trace s')
         = data_events (MediaPipeService.trace Stub.service0)
           ++ [Readline Stub.line_short; Stdout empty_line]
       ∧ MediaPipeService.pose s' = MediaPipeService.pose Stub.service0
       ∧ MediaPipeService.hands s' = MediaPipeService.hands Stub.service0).
Proof.
  assert (Stub.line_short ≠ "") as Hne by (by vm_compute).
  split; [exact Hne|].
  refine (invalid_line_gets_empty_result (Ext:=Stub.ext) Stub.line_short Stub.service0 Hne _).
  right. exists (frame_request 1 1 [0; 0]), 1, 1, [0; 0].
  split_and!; try reflexivity; try lia.
  - repeat constructor; unfold is_sample; lia.
  - simpl. lia.
Defined.

(** C2 as stated fails when a size is negative: the line
    [{"width": 1, "height": -1, "data": [0, 0, 0]}] parses, its three samples
    are not [1 * -1 * 3] many, numpy infers the height 1 from them, and the
    service prints what the detectors found, not the empty result. *)
Lemma negative_height_is_processed :
  @json_loads Stub.ext Stub.line_minus = Return (frame_request 1 (-1) [0; 0; 0])
  ∧ Z.of_nat (length [0; 0; 0]) ≠ 1 * -1 * 3
  ∧ stdout_of (MediaPipeService.trace (MediaPipeService.run_step Stub.line_minus Stub.service0).2)
    = [json_dumps (Ext:=Stub.ext) (assembled (Some [Stub.lm0]) None)]
  ∧ json_dumps (Ext:=Stub.ext) (assembled (Some [Stub.lm0]) None) ≠ empty_line.
Proof.
  split_and!; [reflexivity|simpl; lia|by vm_compute|by vm_compute].
Qed.

(** * Properties of the dump utility *)

(** ** The order of paths *)

Section path_order.
Import Dump.

Lemma string_compare_refl (s : string) : String.compare s s = Eq.
Proof.
  induction s as [|a s IH]; simpl; [done|].
  unfold Ascii.compare. by rewrite N.compare_refl.
Qed.

Lemma string_compare_lt_trans (a b c : string) :
  String.compare a b = Lt → String.compare b c = Lt → String.compare a c = Lt.
Proof.
  intros Hab Hbc.
  assert (String.le a c) as Hac.
  { transitivity b; unfold String.le, String.leb; [by rewrite Hab|by rewrite Hbc]. }
  unfold String.le, String.leb in Hac.
  destruct (String.compare a c) eqn:Hcmp; [|done|done].
  apply String.compare_eq_iff in Hcmp as ->.
  rewrite String.compare_antisym, Hbc in Hab. done.
Qed.

Lemma parts_compare_refl (p : list string) : parts_compare p p = Eq.
Proof. induction p as [|c p IH]; simpl; [done|]. by rewrite string_compare_refl. Qed.

Lemma parts_compare_eq (p q : list string) : parts_compare p q = Eq → p = q.
Proof.
  revert q. induction p as [|c p IH]; intros [|d q]; simpl; try done.
  destruct (String.compare c d) eqn:Hcd; try done.
  intros ->%IH. by apply String.compare_eq_iff in Hcd as ->.
Qed.

Lemma parts_compare_antisym (p q : list string) :
  parts_compare q p = CompOpp (parts_compare p q).
Proof.
  revert q. induction p as [|c p IH]; intros [|d q]; simpl; try done.
  rewrite (String.compare_antisym d c).
  destruct (String.compare c d); simpl; auto.
Qed.

Lemma parts_compare_lt_trans (p q r : list string) :
  parts_compare p q = Lt → parts_compare q r = Lt → parts_compare p r = Lt.
Proof.
  revert q r. induction p as [|c p IH]; intros [|d q] [|e r]; simpl; try done.
  destruct (String.compare c d) eqn:Hcd; try done.
  - apply String.compare_eq_iff in Hcd as ->.
    destruct (String.compare d e); try done. apply IH.
  - destruct (String.compare d e) eqn:Hde; try done.
    + apply String.compare_eq_iff in Hde as ->. by rewrite Hcd.
    + by rewrite (string_compare_lt_trans c d e).
Qed.

Global Instance path_le_trans : Transitive path_le.
Proof.
  intros p q r. unfold path_le.
  destruct (parts_compare p q) eqn:Hpq; [|intros _|done].
  - by apply parts_compare_eq in Hpq as ->.
  - destruct (parts_compare q r) eqn:Hqr; [|intros _|done].
    + apply parts_compare_eq in Hqr as ->. by rewrite Hpq.
    + by rewrite (parts_compare_lt_trans p q r).
Qed.

Global Instance path_le_antisym : AntiSymm (=) path_le.
Proof.
  intros p q. unfold path_le. rewrite (parts_compare_antisym p q).
  destruct (parts_compare p q) eqn:Hpq; simpl; try done.
  intros _ _. by apply parts_compare_eq.
Qed.

Global Instance path_le_total : Total path_le.
Proof.
  intros p q. unfold path_le. rewrite (parts_compare_antisym p q).
  destruct (parts_compare p q); simpl; auto.
Qed.

(** Two lists with the same elements sort to the same list. *)
Lemma sorted_Permutation (l1 l2 : list abspath) : l1 ≡ₚ l2 → sorted l1 = sorted l2.
Proof.
  intros Hperm. unfold sorted. apply (Sorted_unique path_le).
  - apply Sorted_merge_sort, _.
  - apply Sorted_merge_sort, _.
  - by rewrite !merge_sort_Permutation.
Qed.

Lemma sorted_Sorted (l : list abspath) : Sorted path_le (sorted l).
Proof. apply Sorted_merge_sort, _. Qed.

Lemma elem_of_sorted (l : list abspath) (p : abspath) : p ∈ sorted l ↔ p ∈ l.
Proof. unfold sorted. by rewrite merge_sort_Permutation. Qed.

Lemma length_sorted (l : list abspath) : length (sorted l) = length l.
Proof. unfold sorted. by rewrite merge_sort_Permutation. Qed.

End path_order.

(** ** The walk *)

Section walk_facts.
Import Dump.

(** Induction over a tree, with the hypothesis for every entry of a
    directory. *)
Lemma node_entries_ind (P : node → Prop) :
  (∀ f, P (File f)) →
  (∀ entries, Forall (λ e, P e.2) entries → P (Dir entries)) →
  ∀ n, P n.
Proof.
  intros Hfile Hdir. fix IH 1. intros [f|entries]; [apply Hfile|].
  apply Hdir. induction entries as [|e entries IHe]; constructor; [apply IH|apply IHe].
Qed.

Lemma elem_of_flat_map {A B} (f : A → list B) (l : list A) (y : B) :
  y ∈ flat_map f l ↔ ∃ x, x ∈ l ∧ y ∈ f x.
Proof.
  rewrite list_elem_of_In, in_flat_map. split.
  - intros (x & Hx & Hy). exists x. by rewrite !list_elem_of_In.
  - intros (x & Hx & Hy). exists x. by rewrite <- !list_elem_of_In.
Qed.

Lemma assoc_Some_elem_of {V} (k : string) (v : V) (d : list (string * V)) :
  assoc k d = Some v → (k, v) ∈ d.
Proof.
  induction d as [|[k' v'] d IH]; simpl; [done|].
  destruct (String.eqb_spec k k') as [->|Hne].
  - intros [= ->]. left.
  - intros Hd. right. by apply IH.
Qed.

Lemma elem_of_assoc {V} (k : string) (v : V) (d : list (string * V)) :
  NoDup d.*1 → (k, v) ∈ d → assoc k d = Some v.
Proof.
  induction d as [|[k' v'] d IH]; simpl; [by intros _ ?%elem_of_nil|].
  intros [Hk' Hd]%NoDup_cons [[= -> ->]|Hin]%elem_of_cons.
  - by rewrite String.eqb_refl.
  - destruct (String.eqb_spec k k') as [->|Hne]; [|by apply IH].
    destruct Hk'. apply list_elem_of_fmap. by exists (k', v).
Qed.

Lemma wf_Dir (entries : list (string * node)) :
  wf (Dir entries) = true ↔ NoDup entries.*1 ∧ ∀ e, e ∈ entries → wf e.2 = true.
Proof.
  simpl. rewrite andb_true_iff, bool_decide_eq_true, forallb_forall.
  by setoid_rewrite list_elem_of_In.
Qed.

Lemma lookup_app (n : node) (p q : list string) :
  lookup n (p ++ q) = lookup n p ≫= λ m, lookup m q.
Proof.
  revert n. induction p as [|c p IH]; intros n; simpl; [done|].
  destruct n as [f|entries]; [done|]. destruct (assoc c entries); [apply IH|done].
Qed.

Lemma lookup_File_nonempty (f f' : file) (p : list string) :
  lookup (File f) p = Some (File f') → p = [].
Proof. by destruct p. Qed.

(** Where the walk yields a path, in the terms of the walk. *)
Lemma elem_of_iter_files_from (exclude_dir : abspath) (n : node) :
  ∀ (dirpath p : abspath),
    wf n = true →
    p ∈ iter_files_from exclude_dir dirpath n ↔
    ∃ rel fn f,
      p = dirpath ++ rel ++ [fn]
      ∧ lookup n (rel ++ [fn]) = Some (File f)
      ∧ String.eqb fn ".DS_Store" = false
      ∧ descends exclude_dir dirpath rel = true
      ∧ yields_at exclude_dir (dirpath ++ rel) = true.
Proof.
  induction n as [f|entries IH] using node_entries_ind; intros dirpath p Hwf.
  { simpl. split; [by intros ?%elem_of_nil|].
    intros (rel & fn & f' & _ & Hl & _). by destruct rel. }
  apply wf_Dir in Hwf as [Hnames Hwf]. rewrite Forall_forall in IH.
  cbn [iter_files_from]. rewrite elem_of_app, !elem_of_flat_map. split.
  - intros [Hy|(e & He & Hp)].
    + fold (yields_at exclude_dir dirpath) in Hy.
      unfold yields_at in *.
      destruct (path_eqb dirpath exclude_dir || in_parents exclude_dir dirpath) eqn:Hex;
        [by apply elem_of_nil in Hy|].
      apply elem_of_flat_map in Hy as ([fn [f|?]] & He & Hp); simpl in Hp;
        [|by apply elem_of_nil in Hp].
      destruct (String.eqb fn ".DS_Store") eqn:Hfn; [by apply elem_of_nil in Hp|].
      apply list_elem_of_singleton in Hp as ->.
      exists [], fn, f. simpl. rewrite (elem_of_assoc fn (File f)) by done.
      by rewrite app_nil_r, Hex.
    + destruct e as [d [?|sub]]; simpl in Hp; [by apply elem_of_nil in Hp|].
      destruct (negb (path_eqb (dirpath ++ [d]) exclude_dir) && negb (String.prefix ".git" d))
        eqn:Hkeep; [|by apply elem_of_nil in Hp].
      apply (IH (d, Dir sub)) in Hp as (rel & fn & f & -> & Hl & Hfn & Hdesc & Hy);
        [|done|by apply (Hwf (d, Dir sub))].
      exists (d :: rel), fn, f. simpl.
      rewrite (elem_of_assoc d (Dir sub)) by done.
      rewrite Hkeep, Hdesc. simpl. rewrite <- !app_assoc in *. done.
  - intros (rel & fn & f & -> & Hl & Hfn & Hdesc & Hy).
    destruct rel as [|d rel]; simpl in Hl.
    + left. rewrite app_nil_r in Hy. unfold yields_at in Hy.
      apply negb_true_iff in Hy. rewrite Hy.
      destruct (assoc fn entries) as [child|] eqn:Hfnl; [|done]. simpl in Hl.
      injection Hl as ->. apply assoc_Some_elem_of in Hfnl.
      apply elem_of_flat_map. exists (fn, File f). split; [done|]. simpl.
      rewrite Hfn. apply list_elem_of_singleton. done.
    + right. destruct (assoc d entries) as [child|] eqn:Hd; [|done].
      apply assoc_Some_elem_of in Hd. exists (d, child). split; [done|]. simpl.
      destruct child as [f'|sub]; [by destruct rel|].
      simpl in Hdesc. apply andb_true_iff in Hdesc as [Hkeep Hdesc]. rewrite Hkeep.
      apply (IH (d, Dir sub)); [done|by apply (Hwf (d, Dir sub))|].
      exists rel, fn, f. rewrite <- !app_assoc in *. done.
Qed.

Lemma path_eqb_true (p q : list string) : path_eqb p q = true ↔ p = q.
Proof. unfold path_eqb. apply bool_decide_eq_true. Qed.

Lemma in_parents_spec (q p : list string) :
  in_parents q p = true ↔ q `prefix_of` p ∧ q ≠ p.
Proof.
  revert p. induction q as [|c q IH]; intros [|d p]; simpl.
  - split; [done|]. by intros [_ []].
  - split; [|done]. intros _. split; [apply prefix_nil|done].
  - split; [done|]. by intros [?%prefix_nil_inv _].
  - rewrite andb_true_iff, IH, String.eqb_eq. split.
    + intros [-> [Hpre Hne]]. split; [by apply prefix_cons|congruence].
    + intros [Hpre Hne]. pose proof (prefix_cons_inv_1 _ _ _ _ Hpre) as ->.
      apply prefix_cons_inv_2 in Hpre. split_and!; [done..|congruence].
Qed.

Lemma yields_at_spec (exclude_dir current : abspath) :
  yields_at exclude_dir current = true ↔ ¬ exclude_dir `prefix_of` current.
Proof.
  unfold yields_at. rewrite negb_true_iff, orb_false_iff, <- !not_true_iff_false.
  rewrite path_eqb_true, in_parents_spec. split.
  - intros [Hne Hpar] Hpre. destruct (decide (exclude_dir = current)); naive_solver.
  - intros Hpre. split; [intros ->; by apply Hpre|]. by intros [? _].
Qed.

(** Outside the excluded subtree only the [.git] prefix prunes. *)
Lemma descends_spec (exclude_dir dirpath : abspath) (rel : list string) :
  ¬ exclude_dir `prefix_of` (dirpath ++ rel) →
  descends exclude_dir dirpath rel = true ↔ Forall (λ d, String.prefix ".git" d = false) rel.
Proof.
  revert dirpath. induction rel as [|d rel IH]; intros dirpath Hpre; simpl.
  - split; [by constructor|done].
  - rewrite Forall_cons, !andb_true_iff, !negb_true_iff, <- (IH (dirpath ++ [d])).
    + assert (path_eqb (dirpath ++ [d]) exclude_dir = false) as ->; [|tauto].
      apply not_true_iff_false. rewrite path_eqb_true. intros <-.
      apply Hpre. exists rel. by rewrite <- app_assoc.
    + by rewrite <- app_assoc.
Qed.

Lemma wf_lookup (n m : node) (p : list string) :
  wf n = true → lookup n p = Some m → wf m = true.
Proof.
  revert n. induction p as [|c p IH]; intros n Hwf; simpl; [by intros [= <-]|].
  destruct n as [f|entries]; [done|].
  destruct (assoc c entries) as [child|] eqn:Hc; [|done].
  apply IH. apply wf_Dir in Hwf as [_ Hwf].
  by apply (Hwf (c, child)), assoc_Some_elem_of.
Qed.

(** The files [iter_files] yields are the files that [listed] describes. *)
Lemma elem_of_iter_files (fs : node) (root exclude_dir p : abspath) :
  wf fs = true →
  p ∈ iter_files fs root exclude_dir ↔ listed fs root exclude_dir p.
Proof.
  intros Hwf. unfold iter_files, listed. split.
  - destruct (lookup fs root) as [[f|entries]|] eqn:Hroot; try by intros ?%elem_of_nil.
    intros (rel & fn & f & -> & Hl & Hfn & Hdesc & Hy)%elem_of_iter_files_from;
      [|by eapply wf_lookup].
    apply yields_at_spec in Hy. apply descends_spec in Hdesc; [|done].
    exists rel, fn, f. rewrite lookup_app, Hroot. simpl.
    split_and!; try done. by apply String.eqb_neq.
  - intros (rel & fn & f & -> & Hl & Hex & Hfn & Hgit).
    rewrite lookup_app in Hl.
    destruct (lookup fs root) as [[f'|entries]|] eqn:Hroot; simpl in Hl;
      [by destruct rel|..|done].
    apply elem_of_iter_files_from; [by eapply wf_lookup|].
    exists rel, fn, f. split_and!; try done.
    + by apply String.eqb_neq.
    + by apply descends_spec.
    + by apply yields_at_spec.
Qed.

Lemma NoDup_flat_map_keyed {A B K} (key : A → K) (tag : B → K) (f : A → list B) (l : list A) :
  NoDup (key <$> l) →
  (∀ a, a ∈ l → NoDup (f a)) →
  (∀ a b, a ∈ l → b ∈ f a → tag b = key a) →
  NoDup (flat_map f l).
Proof.
  induction l as [|a l IH]; simpl; [constructor|].
  intros [Ha Hl]%NoDup_cons Hf Htag. apply NoDup_app. split_and!.
  - apply Hf. left.
  - intros b Hb (a' & Ha' & Hb')%elem_of_flat_map. apply Ha.
    apply list_elem_of_fmap. exists a'. split; [|done].
    rewrite <- (Htag a b), <- (Htag a' b); [done|by right|done|left|done].
  - apply IH; [done|..]; intros; [apply Hf|apply Htag]; try done; by right.
Qed.

(** Every path of the walk below [dirpath] continues [dirpath] with the
    name of an entry. *)
Lemma iter_files_from_tag (exclude_dir dirpath p : abspath) (n : node) :
  wf n = true → p ∈ iter_files_from exclude_dir dirpath n →
  ∃ c rest, p = dirpath ++ c :: rest.
Proof.
  intros Hwf (rel & fn & f & -> & _)%elem_of_iter_files_from; [|done].
  destruct rel as [|d rel]; simpl; eauto.
Qed.

Lemma NoDup_iter_files_from (exclude_dir : abspath) (n : node) :
  ∀ dirpath, wf n = true → NoDup (iter_files_from exclude_dir dirpath n).
Proof.
  induction n as [f|entries IH] using node_entries_ind; intros dirpath Hwf; [constructor|].
  pose proof Hwf as [Hnames Hwfe]%wf_Dir. rewrite Forall_forall in IH.
  cbn [iter_files_from].
  set (tag := λ p : abspath, p !! length dirpath).
  assert (∀ e p, e ∈ entries →
            p ∈ match e.2 with
                | File _ => if String.eqb e.1 ".DS_Store" then [] else [dirpath ++ [e.1]]
                | Dir _ => []
                end → tag p = Some e.1 ∧ is_dir e.2 = false) as Hfiles.
  { intros [fn [f|sub]] p _ Hp; simpl in *; [|by apply elem_of_nil in Hp].
    destruct (String.eqb fn ".DS_Store"); [by apply elem_of_nil in Hp|].
    apply list_elem_of_singleton in Hp as ->. unfold tag. cbv beta.
    by rewrite lookup_app_r, Nat.sub_diag by done. }
  assert (∀ e p, e ∈ entries →
            p ∈ match e.2 with
                | Dir _ =>
                    if negb (path_eqb (dirpath ++ [e.1]) exclude_dir)
                       && negb (String.prefix ".git" e.1)
                    then iter_files_from exclude_dir (dirpath ++ [e.1]) e.2 else []
                | File _ => []
                end → tag p = Some e.1 ∧ is_dir e.2 = true) as Hdirs.
  { intros [d [f|sub]] p He Hp; cbn [fst snd] in *; [by apply elem_of_nil in Hp|].
    destruct (_ && _); [|by apply elem_of_nil in Hp].
    apply iter_files_from_tag in Hp as (c & rest & ->); [|by apply (Hwfe (d, Dir sub))].
    unfold tag. cbv beta. rewrite <- app_assoc.
    by rewrite lookup_app_r, Nat.sub_diag by done. }
  apply NoDup_app. split_and!.
  - destruct (_ || _); [constructor|].
    apply (NoDup_flat_map_keyed (λ e, Some e.1) tag).
    + change (NoDup ((Some ∘ fst) <$> entries)).
      rewrite (list_fmap_compose fst Some). by apply (NoDup_fmap_2 _).
    + intros [fn [f|sub]] _; simpl; [|constructor].
      destruct (String.eqb fn ".DS_Store"); [constructor|apply NoDup_singleton].
    + intros e p He Hp. by apply Hfiles.
  - intros p Hp (e' & He' & Hp')%elem_of_flat_map.
    destruct (_ || _); [by apply elem_of_nil in Hp|].
    apply elem_of_flat_map in Hp as (e & He & Hp).
    apply Hfiles in Hp as [Htag Hfile]; [|done].
    apply Hdirs in Hp' as [Htag' Hdir]; [|done].
    destruct e as [k v], e' as [k' v']. cbn [fst snd] in *.
    assert (k = k') as -> by congruence.
    assert (v = v') as ->; [|congruence].
    apply (elem_of_assoc k' v) in He; [|done].
    apply (elem_of_assoc k' v') in He'; [|done]. congruence.
  - apply (NoDup_flat_map_keyed (λ e, Some e.1) tag).
    + change (NoDup ((Some ∘ fst) <$> entries)).
      rewrite (list_fmap_compose fst Some). by apply (NoDup_fmap_2 _).
    + intros [d [f|sub]] He; simpl; [constructor|].
      destruct (_ && _); [|constructor].
      apply (IH (d, Dir sub)); [done|]. by apply (Hwfe (d, Dir sub)).
    + intros e p He Hp. by apply Hdirs.
Qed.

Lemma NoDup_iter_files (fs : node) (root exclude_dir : abspath) :
  wf fs = true → NoDup (iter_files fs root exclude_dir).
Proof.
  intros Hwf. unfold iter_files.
  destruct (lookup fs root) as [[f|entries]|] eqn:Hroot; try constructor.
  apply NoDup_iter_files_from. by eapply wf_lookup.
Qed.

End walk_facts.

(** ** Text that encodes *)

Section encoding_facts.
Import Dump.

(** The validator on the usual cases: two, three and four byte forms; an
    overlong form, a surrogate, a code point above U+10FFFF, a stray
    continuation byte and a form cut short. *)
Example valid_utf8_samples :
  valid_utf8 [Byte.xc3; Byte.xa9] = true
  ∧ valid_utf8 [Byte.xe2; Byte.x82; Byte.xac] = true
  ∧ valid_utf8 [Byte.xf0; Byte.x9f; Byte.x98; Byte.x80] = true
  ∧ valid_utf8 [Byte.xc0; Byte.x80] = false
  ∧ valid_utf8 [Byte.xed; Byte.xa0; Byte.x80] = false
  ∧ valid_utf8 [Byte.xf4; Byte.x90; Byte.x80; Byte.x80] = false
  ∧ valid_utf8 [Byte.x80] = false
  ∧ valid_utf8 [Byte.xe2; Byte.x82] = false.
Proof. by vm_compute. Qed.

Lemma valid_utf8_app_le (n : nat) (l2 : list Byte.byte) :
  ∀ l1, (length l1 ≤ n)%nat → valid_utf8 l1 = true → valid_utf8 (l1 ++ l2) = valid_utf8 l2.
Proof.
  induction n as [|n IH]; intros l1 Hlen.
  { destruct l1; [done|simpl in Hlen; lia]. }
  destruct l1 as [|b0 l1]; [done|]. cbn [valid_utf8 app]. cbn [length] in Hlen.
  destruct (in_range 0 127 b0); [apply IH; lia|].
  destruct l1 as [|b1 l1]; [done|]. cbn [app]. cbn [length] in Hlen.
  destruct (in_range 194 223 b0).
  { intros [-> Hrest]%andb_true_iff. apply IH; [lia|done]. }
  destruct l1 as [|b2 l1]; [done|]. cbn [app]. cbn [length] in Hlen.
  destruct (in_range 224 239 b0).
  { intros [-> Hrest]%andb_true_iff. apply IH; [lia|done]. }
  destruct l1 as [|b3 l1]; [done|]. cbn [app]. cbn [length] in Hlen.
  intros [-> Hrest]%andb_true_iff. apply IH; [lia|done].
Qed.

Lemma valid_utf8_app (l1 l2 : list Byte.byte) :
  valid_utf8 l1 = true → valid_utf8 l2 = true → valid_utf8 (l1 ++ l2) = true.
Proof. intros H1 H2. by rewrite (valid_utf8_app_le (length l1)). Qed.

(** ASCII is well-formed UTF-8. *)
Lemma valid_utf8_ascii (l : list Byte.byte) :
  forallb (in_range 0 127) l = true → valid_utf8 l = true.
Proof.
  induction l as [|b l IH]; [done|]. cbn [forallb valid_utf8].
  intros [-> Hl]%andb_true_iff. by apply IH.
Qed.

Lemma list_byte_of_string_app (s1 s2 : string) :
  list_byte_of_string (s1 +:+ s2) = list_byte_of_string s1 ++ list_byte_of_string s2.
Proof.
  unfold list_byte_of_string. induction s1 as [|a s1 IH]; [done|].
  simpl. by rewrite IH.
Qed.

Lemma encodable_app (s1 s2 : string) :
  encodable s1 = true → encodable s2 = true → encodable (s1 +:+ s2) = true.
Proof. unfold encodable. rewrite list_byte_of_string_app. apply valid_utf8_app. Qed.

Lemma encodable_join (sep : string) (parts : list string) :
  encodable sep = true → forallb encodable parts = true → encodable (join sep parts) = true.
Proof.
  intros Hsep. induction parts as [|c parts IH]; [done|].
  cbn [forallb]. intros [Hc Hparts]%andb_true_iff.
  destruct parts as [|d parts]; [done|].
  change (join sep (c :: d :: parts)) with (c +:+ sep +:+ join sep (d :: parts)).
  auto using encodable_app.
Qed.

Lemma encodable_str_abs (p : abspath) :
  forallb encodable p = true → encodable (str_abs p) = true.
Proof. intros Hp. unfold str_abs. apply encodable_app; [done|by apply encodable_join]. Qed.

Lemma encodable_str_rel (p : list string) :
  forallb encodable p = true → encodable (str_rel p) = true.
Proof. intros Hp. destruct p; [done|]. by apply encodable_join. Qed.

Lemma encodable_digits (d : Decimal.uint) : encodable (NilEmpty.string_of_uint d) = true.
Proof. induction d; simpl; try done; exact IHd. Qed.

Lemma encodable_str_nat (n : nat) : encodable (str_nat n) = true.
Proof.
  unfold str_nat, NilZero.string_of_uint.
  destruct (Nat.to_uint n) eqn:Hn; try done; rewrite <- Hn; apply encodable_digits.
Qed.

Lemma forallb_drop {A} (f : A → bool) (n : nat) (l : list A) :
  forallb f l = true → forallb f (drop n l) = true.
Proof.
  revert l. induction n as [|n IH]; intros [|a l]; simpl; try done.
  intros [_ Hl]%andb_true_iff. by apply IH.
Qed.

Lemma write_ok (s : string) (st : run_state) :
  encodable s = true →
  write s st = (Return tt, {| out := out st ++ [s]; stdout := stdout st |}).
Proof. intros Hs. unfold write. by rewrite Hs. Qed.

Lemma write_then {A} (s : string) (k : M run_state A) (st : run_state) :
  encodable s = true →
  (write s;; k) st = k {| out := out st ++ [s]; stdout := stdout st |}.
Proof. intros Hs. erewrite bind_Return; [done|by apply write_ok]. Qed.

Lemma print_ok (s : string) (st : run_state) :
  encodable s = true →
  print s st = (Return tt, {| out := out st; stdout := stdout st ++ [s] |}).
Proof. intros Hs. unfold print. by rewrite Hs. Qed.

End encoding_facts.

(** ** The run *)

Section run_facts.
Import Dump.
Context `{Hst : Host} `{!HostLaws Hst}.
Variable fs : node.

Lemma read_file_as_text_run (out_file path : abspath) (st : run_state) :
  read_file_as_text fs out_file path st
  = (Return (file_text fs out_file path (out st)), st).
Proof.
  unfold read_file_as_text, read_text, read_bytes, file_text, text_of. unfold_M.
  destruct (path_eqb path out_file).
  - by destruct (decode_text (on_disk (out st))).
  - destruct (lookup fs path) as [[[data|err]|entries]|]; try done.
    by destruct (decode_text data).
Qed.

Lemma relative_to_drop (p base : list string) :
  base `prefix_of` p → relative_to p base = Return (drop (length base) p).
Proof.
  intros [rest ->]. induction base as [|c base IH]; simpl; [by destruct rest|].
  by rewrite String.eqb_refl.
Qed.

Lemma iter_files_prefix (root exclude_dir p : abspath) :
  wf fs = true → p ∈ iter_files fs root exclude_dir → root `prefix_of` p.
Proof.
  intros Hwf (rel & fn & f & -> & _)%elem_of_iter_files; [|done]. by eexists.
Qed.

Lemma encodable_text_of (data : list Byte.byte) : encodable (text_of data) = true.
Proof.
  unfold text_of. destruct (decode_text data) as [text|] eqn:Hdata.
  - by eapply decode_text_encodable.
  - apply decode_replace_encodable.
Qed.

Lemma encodable_error_marker (msg : string) :
  encodable msg = true → encodable (error_marker msg) = true.
Proof. intros Hmsg. unfold error_marker. by repeat apply encodable_app. Qed.

(** What is dumped of a path whose names and message encode, encodes. *)
Lemma encodable_file_text (out_file path : abspath) (written : list string) :
  dumpable fs path = true → encodable (file_text fs out_file path written) = true.
Proof.
  unfold dumpable, file_text. intros [Hpath Hmsg]%andb_true_iff.
  destruct (path_eqb path out_file); [apply encodable_text_of|].
  destruct (lookup fs path) as [[[data|err]|entries]|].
  - apply encodable_text_of.
  - by apply encodable_error_marker.
  - apply encodable_error_marker. unfold errno_message.
    repeat apply encodable_app; try done. by apply encodable_str_abs.
  - apply encodable_error_marker. unfold errno_message.
    repeat apply encodable_app; try done. by apply encodable_str_abs.
Qed.

Lemma encodable_file_title (src_dir p : abspath) :
  forallb encodable p = true → encodable (file_title src_dir p) = true.
Proof.
  intros Hp. unfold file_title. apply encodable_app; [done|].
  by apply encodable_str_rel, forallb_drop.
Qed.

Lemma encodable_extra_title (xp : abspath) :
  forallb encodable xp = true → encodable (extra_title xp) = true.
Proof.
  intros Hp. unfold extra_title. apply encodable_app; [done|]. by apply encodable_str_abs.
Qed.

Lemma dumpable_names (path : abspath) : dumpable fs path = true → forallb encodable path = true.
Proof. unfold dumpable. by intros [? _]%andb_true_iff. Qed.

(** One section: the four writes of its head, the read, the two writes
    after it; then whatever follows. *)
Lemma write_section_then {A} (out_file path : abspath) (title : string)
    (k : M run_state A) (st : run_state) :
  encodable title = true →
  dumpable fs path = true →
  (write nl;;
   write (rule "=");;
   write (title +:+ nl);;
   write (rule "=" +:+ nl);;
   let* text := read_file_as_text fs out_file path in
   write text;;
   write nl;;
   k) st
  = k {| out := out st ++ section fs out_file title path (out st); stdout := stdout st |}.
Proof.
  intros Htitle Hpath.
  rewrite write_then by done. rewrite write_then by done.
  rewrite write_then by (by apply encodable_app).
  rewrite write_then by done.
  erewrite bind_Return; [|apply read_file_as_text_run]. cbn [out stdout].
  rewrite write_then by (by apply encodable_file_text).
  rewrite write_then by done. cbn [out stdout].
  unfold section, section_head. by rewrite <- !app_assoc.
Qed.

Lemma write_section (out_file path : abspath) (title : string) (st : run_state) :
  encodable title = true →
  dumpable fs path = true →
  (write nl;;
   write (rule "=");;
   write (title +:+ nl);;
   write (rule "=" +:+ nl);;
   let* text := read_file_as_text fs out_file path in
   write text;;
   write nl) st
  = (Return tt, {| out := out st ++ section fs out_file title path (out st);
                   stdout := stdout st |}).
Proof.
  intros Htitle Hpath.
  rewrite write_then by done. rewrite write_then by done.
  rewrite write_then by (by apply encodable_app).
  rewrite write_then by done.
  erewrite bind_Return; [|apply read_file_as_text_run]. cbn [out stdout].
  rewrite write_then by (by apply encodable_file_text).
  rewrite write_ok by done. cbn [out stdout].
  unfold section, section_head. by rewrite <- !app_assoc.
Qed.

(** The loop over the in-tree files. *)
Lemma tree_loop (src_dir out_file : abspath) (files : list abspath) (count : nat)
    (st : run_state) :
  Forall (λ p, src_dir `prefix_of` p ∧ dumpable fs p = true) files →
  for_each files count (λ count p,
      let* rel := lift (relative_to p src_dir) in
      write nl;;
      write (rule "=");;
      write ("FILE: " +:+ str_rel rel +:+ nl);;
      write (rule "=" +:+ nl);;
      let* text := read_file_as_text fs out_file p in
      write text;;
      write nl;;
      ret (S count)) st
  = (Return (length files + count)%nat,
     {| out := out st ++ sections fs out_file (file_title src_dir) files (out st);
        stdout := stdout st |}).
Proof.
  intros Hfiles. revert count st.
  induction Hfiles as [|p files [Hp Hdump] _ IH]; intros count st; simpl.
  - rewrite app_nil_r. by destruct st.
  - erewrite bind_Return; cycle 1.
    { erewrite bind_Return; [|unfold Py.lift; by rewrite relative_to_drop].
      apply (write_section_then out_file p (file_title src_dir p));
        [by apply encodable_file_title, dumpable_names|done]. }
    unfold Py.ret. rewrite IH. simpl. rewrite <- app_assoc. do 2 f_equal. lia.
Qed.

(** The loop over the extra files. *)
Lemma extras_loop (cwd out_file : abspath) (extras : list Path) (st : run_state) :
  Forall (λ xp, dumpable fs (resolve cwd xp) = true) extras →
  for_each extras tt (λ _ xp,
      write nl;;
      write (rule "=");;
      write ("EXTRA FILE: " +:+ str_abs (resolve cwd xp) +:+ nl);;
      write (rule "=" +:+ nl);;
      let* text := read_file_as_text fs out_file (resolve cwd xp) in
      write text;;
      write nl) st
  = (Return tt,
     {| out := out st ++ sections fs out_file extra_title (map (resolve cwd) extras) (out st);
        stdout := stdout st |}).
Proof.
  intros Hextras. revert st.
  induction Hextras as [|xp extras Hxp _ IH]; intros st; simpl.
  - rewrite app_nil_r. by destruct st.
  - erewrite bind_Return; cycle 1.
    { apply (write_section out_file (resolve cwd xp) (extra_title (resolve cwd xp)));
        [by apply encodable_extra_title, dumpable_names|done]. }
    rewrite IH. simpl. by rewrite <- app_assoc.
Qed.

Lemma encodable_summary (count extras : nat) (out_file : abspath) :
  forallb encodable out_file = true → encodable (summary count extras out_file) = true.
Proof.
  intros Hout. unfold summary.
  repeat apply encodable_app; try done; try apply encodable_str_nat.
  by apply encodable_str_abs.
Qed.

(** What [encodable_run] says, part by part. *)
Lemma encodable_run_parts (cwd : abspath) (src_dir exclude_dir out_file : Path)
    (extra_paths : option (list Path)) :
  encodable_run fs cwd src_dir exclude_dir out_file extra_paths = true →
  forallb encodable (resolve cwd src_dir) = true
  ∧ forallb encodable (resolve cwd exclude_dir) = true
  ∧ forallb encodable (resolve cwd out_file) = true
  ∧ Forall (λ p, dumpable fs p = true)
      (iter_files fs (resolve cwd src_dir) (resolve cwd exclude_dir))
  ∧ Forall (λ xp, dumpable fs (resolve cwd xp) = true) (default [] extra_paths).
Proof.
  unfold encodable_run. rewrite !andb_true_iff. intros [[[[Hsrc Hexcl] Hout] Hfiles] Hextras].
  split_and!; try done.
  - apply Forall_forall. intros p Hp. rewrite forallb_forall in Hfiles.
    by apply Hfiles, list_elem_of_In.
  - apply Forall_forall. intros xp Hxp. rewrite forallb_forall in Hextras.
    apply Hextras, list_elem_of_In, list_elem_of_fmap. by exists xp.
Qed.

(** The whole run over a listing whose paths are all below the source
    root, once the output file is open. *)
Lemma write_combined_output_run_below (cwd : abspath)
    (src_dir exclude_dir out_file : Path) (extra_paths : option (list Path))
    (st : run_state) :
  Forall (λ p, resolve cwd src_dir `prefix_of` p)
    (iter_files fs (resolve cwd src_dir) (resolve cwd exclude_dir)) →
  open_output fs (resolve cwd out_file) = Return tt →
  encodable_run fs cwd src_dir exclude_dir out_file extra_paths = true →
  write_combined_output fs cwd src_dir exclude_dir out_file extra_paths st
  = (Return tt,
     {| out := out st ++
               dump_layout fs (resolve cwd src_dir) (resolve cwd exclude_dir)
                 (resolve cwd out_file)
                 (sorted (iter_files fs (resolve cwd src_dir) (resolve cwd exclude_dir)))
                 (map (resolve cwd) (default [] extra_paths)) (out st);
        stdout := stdout st ++
                  [summary
                     (length (iter_files fs (resolve cwd src_dir) (resolve cwd exclude_dir)))
                     (length (default [] extra_paths)) (resolve cwd out_file)] |}).
Proof.
  intros Hbelow Hopen (Hsrc & Hexcl & Hout & Hfiles & Hextras)%encodable_run_parts.
  unfold write_combined_output, dump_layout.
  erewrite bind_Return; [|unfold Py.lift; by rewrite Hopen].
  rewrite write_then
    by (repeat apply encodable_app; try done; by apply encodable_str_abs).
  rewrite write_then
    by (repeat apply encodable_app; try done; by apply encodable_str_abs).
  cbn [out stdout].
  erewrite bind_Return; cycle 1.
  { apply tree_loop. apply Forall_forall. intros p Hp.
    apply (proj1 (elem_of_sorted _ _)) in Hp.
    rewrite Forall_forall in Hbelow, Hfiles. auto. }
  rewrite Nat.add_0_r, length_sorted. cbn [out stdout].
  pose proof (encodable_summary
                (length (iter_files fs (resolve cwd src_dir) (resolve cwd exclude_dir)))
                (length (default [] extra_paths)) (resolve cwd out_file) Hout) as Hsum.
  unfold summary in Hsum.
  destruct extra_paths as [[|xp extras]|].
  - erewrite bind_Return; [|reflexivity]. rewrite print_ok by exact Hsum.
    cbn [out stdout default map length]. unfold preamble, extras_block, summary.
    rewrite !app_nil_r, <- !app_assoc. done.
  - cbn [default] in *.
    match goal with
    | |- context [for_each (xp :: extras) tt ?b] =>
        assert (∀ st',
                  for_each (xp :: extras) tt b st'
                  = (Return tt,
                     {| out := out st' ++
                               sections fs (resolve cwd out_file) extra_title
                                 (map (resolve cwd) (xp :: extras)) (out st');
                        stdout := stdout st' |})) as Hloop
          by (intros; by apply (extras_loop cwd (resolve cwd out_file) (xp :: extras)));
        set (loop := for_each (xp :: extras) tt b) in *
    end.
    erewrite bind_Return; cycle 1.
    { rewrite write_then by done. rewrite write_then by done.
      rewrite write_then by done. rewrite write_then by done. apply Hloop. }
    rewrite print_ok by exact Hsum. cbn [out stdout].
    unfold preamble, extras_block, extras_banner, summary. cbn [map].
    repeat (rewrite <- ?app_assoc; cbn [app]). done.
  - erewrite bind_Return; [|reflexivity]. rewrite print_ok by exact Hsum.
    cbn [out stdout default map length]. unfold preamble, extras_block, summary.
    rewrite !app_nil_r, <- !app_assoc. done.
Qed.

(** The whole run, once the output file is open. *)
Lemma write_combined_output_run (cwd : abspath) (src_dir exclude_dir out_file : Path)
    (extra_paths : option (list Path)) (st : run_state) :
  wf fs = true →
  open_output fs (resolve cwd out_file) = Return tt →
  encodable_run fs cwd src_dir exclude_dir out_file extra_paths = true →
  write_combined_output fs cwd src_dir exclude_dir out_file extra_paths st
  = (Return tt,
     {| out := out st ++
               dump_layout fs (resolve cwd src_dir) (resolve cwd exclude_dir)
                 (resolve cwd out_file)
                 (sorted (iter_files fs (resolve cwd src_dir) (resolve cwd exclude_dir)))
                 (map (resolve cwd) (default [] extra_paths)) (out st);
        stdout := stdout st ++
                  [summary
                     (length (iter_files fs (resolve cwd src_dir) (resolve cwd exclude_dir)))
                     (length (default [] extra_paths)) (resolve cwd out_file)] |}).
Proof.
  intros Hwf Hopen Henc. apply write_combined_output_run_below; [|done..].
  apply Forall_forall. intros p Hp. by eapply iter_files_prefix.
Qed.

Lemma parts_compare_app (r p q : list string) :
  parts_compare (r ++ p) (r ++ q) = parts_compare p q.
Proof. induction r as [|c r IH]; simpl; [done|]. by rewrite string_compare_refl. Qed.

(** Paths below one root are in order exactly when the paths relative to
    the root are. *)
Lemma Sorted_relative (root : abspath) (rels : list (list string)) :
  Sorted path_le ((root ++.) <$> rels) → Sorted path_le rels.
Proof.
  induction rels as [|r rels IH]; simpl; [constructor|].
  intros [Hs Hhd]%Sorted_inv. constructor; [by apply IH|].
  destruct rels as [|r' rels]; simpl in *; constructor.
  apply HdRel_inv in Hhd. unfold path_le in *. by rewrite parts_compare_app in Hhd.
Qed.

Lemma prefix_fmap_drop (root : abspath) (files : list abspath) :
  Forall (λ p, root `prefix_of` p) files →
  files = (root ++.) <$> (drop (length root) <$> files).
Proof.
  induction 1 as [|p files [rest ->] _ IH]; [done|].
  rewrite !fmap_cons, drop_app_length. by f_equal.
Qed.

(** Every path of a list has its section among the sections of the list. *)
Lemma section_in_sections (out_file : abspath) (title_of : abspath → string)
    (paths : list abspath) (p : abspath) (written : list string) :
  p ∈ paths →
  ∃ before after,
    sections fs out_file title_of paths written
    = before ++ section fs out_file (title_of p) p (written ++ before) ++ after.
Proof.
  intros Hp. revert written. induction Hp as [p paths|p q paths _ IH]; intros written; simpl.
  - exists [], (sections fs out_file title_of paths
                  (written ++ section fs out_file (title_of p) p written)).
    simpl. by rewrite app_nil_r.
  - destruct (IH (written ++ section fs out_file (title_of q) q written))
      as (before & after & ->).
    exists (section fs out_file (title_of q) q written ++ before), after.
    unfold section. repeat (rewrite <- ?app_assoc; simpl). done.
Qed.

End run_facts.

(** ** Two file systems with the same files *)

Section same_files_facts.
Import Dump.
Context `{Hst : Host}.

Lemma same_files_lookup_File (fs1 fs2 : node) (p : abspath) (f : file) :
  same_files fs1 fs2 → lookup fs1 p = Some (File f) → lookup fs2 p = Some (File f).
Proof.
  intros Hsame Hl. specialize (Hsame p). rewrite Hl in Hsame.
  destruct (lookup fs2 p) as [[f'|es]|]; simpl in Hsame; congruence.
Qed.

Lemma same_files_sym (fs1 fs2 : node) : same_files fs1 fs2 → same_files fs2 fs1.
Proof. intros Hsame p. by rewrite Hsame. Qed.

Lemma same_files_child (es1 es2 : list (string * node)) (c : string) (n1 n2 : node) :
  same_files (Dir es1) (Dir es2) → assoc c es1 = Some n1 → assoc c es2 = Some n2 →
  same_files n1 n2.
Proof. intros Hsame H1 H2 p. specialize (Hsame (c :: p)). simpl in Hsame. by rewrite H1, H2 in Hsame. Qed.

Lemma listed_same (fs1 fs2 : node) (root exclude_dir p : abspath) :
  same_files fs1 fs2 → listed fs1 root exclude_dir p → listed fs2 root exclude_dir p.
Proof.
  intros Hsame (rel & fn & f & -> & Hl & ?). exists rel, fn, f.
  split; [done|]. split; [by eapply same_files_lookup_File|done].
Qed.

(** The walks of two such file systems yield the same paths, possibly in
    another order. *)
Lemma iter_files_same (fs1 fs2 : node) (root exclude_dir : abspath) :
  wf fs1 = true → wf fs2 = true → same_files fs1 fs2 →
  iter_files fs1 root exclude_dir ≡ₚ iter_files fs2 root exclude_dir.
Proof.
  intros Hwf1 Hwf2 Hsame. apply NoDup_Permutation; [by apply NoDup_iter_files..|].
  intros p. rewrite !elem_of_iter_files by done.
  split; apply listed_same; [done|by apply same_files_sym].
Qed.

Lemma file_text_same (fs1 fs2 : node) (out_file path : abspath) (written : list string) :
  same_files fs1 fs2 → file_text fs1 out_file path written = file_text fs2 out_file path written.
Proof.
  intros Hsame. unfold file_text. destruct (path_eqb path out_file); [done|].
  specialize (Hsame path).
  destruct (lookup fs1 path) as [[f1|es1]|], (lookup fs2 path) as [[f2|es2]|];
    by simplify_eq/=.
Qed.

Lemma open_output_same (out_file : abspath) :
  ∀ fs1 fs2, same_files fs1 fs2 → open_output fs1 out_file = open_output fs2 out_file.
Proof.
  induction out_file as [|c rest IH]; intros fs1 fs2 Hsame; simpl; [done|].
  pose proof (Hsame []) as Hroot. pose proof (Hsame [c]) as Hc. simpl in Hroot, Hc.
  destruct fs1 as [f1|es1], fs2 as [f2|es2]; simpl in *; try congruence.
  destruct (assoc c es1) as [n1|] eqn:H1, (assoc c es2) as [n2|] eqn:H2;
    simpl in Hc; try done.
  - pose proof (same_files_child es1 es2 c n1 n2 Hsame H1 H2) as Hchild.
    destruct n1 as [[d1|e1]|s1], n2 as [[d2|e2]|s2]; simplify_eq/=;
      destruct rest; try done; by apply IH.
  - by destruct n1.
  - by destruct n2.
Qed.

End same_files_facts.

(** ** The claims about the dump utility *)

Section dump_claims.
Import Dump.
Context `{Hst : Host} `{!HostLaws Hst}.

(** C5, as the code has it.  For every source tree and excluded subtree
    whose names the output can encode (they are valid UTF-8) a
    run writes, after the preamble, one section (header, text) for each
    file below the source root that is not inside the excluded subtree, is
    not named [.DS_Store] and has no directory between the root and itself
    whose name begins with [.git], and for no other file; the sections
    stand in sorted order of the relative paths, so no section names a file
    inside the excluded subtree. *)
Theorem dump_sections_of_listed_files (fs : node) (cwd : abspath)
    (src_dir exclude_dir out_file : Path) (extra_paths : option (list Path))
    (st : run_state) :
  wf fs = true →
  open_output fs (resolve cwd out_file) = Return tt →
  encodable_run fs cwd src_dir exclude_dir out_file extra_paths = true →
  ∃ rels st',
    write_combined_output fs cwd src_dir exclude_dir out_file extra_paths st = (Return tt, st')
    ∧ (∀ rel, rel ∈ rels ↔
         listed fs (resolve cwd src_dir) (resolve cwd exclude_dir) (resolve cwd src_dir ++ rel))
    ∧ NoDup rels
    ∧ Sorted path_le rels
    ∧ out st' = out st ++
        dump_layout fs (resolve cwd src_dir) (resolve cwd exclude_dir) (resolve cwd out_file)
          ((resolve cwd src_dir ++.) <$> rels)
          (map (resolve cwd) (default [] extra_paths)) (out st).
Proof.
  intros Hwf Hopen Henc.
  set (src := resolve cwd src_dir). set (excl := resolve cwd exclude_dir).
  set (files := sorted (iter_files fs src excl)).
  assert (Forall (λ p, src `prefix_of` p) files) as Hpre.
  { apply Forall_forall. intros p Hp. apply (proj1 (elem_of_sorted _ _)) in Hp.
    by eapply iter_files_prefix. }
  pose proof (prefix_fmap_drop src files Hpre) as Hfiles.
  exists (drop (length src) <$> files). eexists.
  split; [by apply write_combined_output_run|]. simpl. rewrite <- Hfiles.
  split_and!; [|..|done].
  - intros rel. rewrite <- (elem_of_iter_files fs src excl) by done.
    rewrite <- (elem_of_sorted (iter_files fs src excl)). fold files.
    rewrite Hfiles at 2. rewrite (list_elem_of_fmap_inj (src ++.)). done.
  - apply (NoDup_fmap (src ++.)). rewrite <- Hfiles. unfold files, sorted.
    rewrite merge_sort_Permutation. by apply NoDup_iter_files.
  - apply (Sorted_relative src). rewrite <- Hfiles. apply sorted_Sorted.
Qed.

(** C10.  The walk leaves out every directory whose name begins with
    [.git] ([.git], [.github], ...): no file with such a directory between
    the source root and itself has a section in the output or is counted in
    the summary.  Of the files in the directories that are walked only those
    named exactly [.DS_Store] are skipped.  (The run is one whose names
    the output can encode, so that it writes its output and its summary.) *)
Theorem git_prefixed_directories_are_pruned (fs : node) (cwd : abspath)
    (src_dir exclude_dir out_file : Path) (extra_paths : option (list Path))
    (st : run_state) :
  wf fs = true →
  open_output fs (resolve cwd out_file) = Return tt →
  encodable_run fs cwd src_dir exclude_dir out_file extra_paths = true →
  ∃ files st',
    write_combined_output fs cwd src_dir exclude_dir out_file extra_paths st = (Return tt, st')
    ∧ out st' = out st ++
        dump_layout fs (resolve cwd src_dir) (resolve cwd exclude_dir) (resolve cwd out_file)
          files (map (resolve cwd) (default [] extra_paths)) (out st)
    ∧ stdout st' = stdout st ++
        [summary (length files) (length (default [] extra_paths)) (resolve cwd out_file)]
    ∧ (∀ rel fn, resolve cwd src_dir ++ rel ++ [fn] ∈ files →
         Forall (λ d, String.prefix ".git" d = false) rel)
    ∧ (∀ rel fn f,
         lookup fs (resolve cwd src_dir ++ rel ++ [fn]) = Some (File f) →
         ¬ resolve cwd exclude_dir `prefix_of` (resolve cwd src_dir ++ rel) →
         Forall (λ d, String.prefix ".git" d = false) rel →
         resolve cwd src_dir ++ rel ++ [fn] ∈ files ↔ fn ≠ ".DS_Store").
Proof.
  intros Hwf Hopen Henc.
  exists (sorted (iter_files fs (resolve cwd src_dir) (resolve cwd exclude_dir))). eexists.
  split; [by apply write_combined_output_run|]. simpl. rewrite length_sorted.
  split_and!; [done..| |].
  - intros rel fn Hin. apply (proj1 (elem_of_sorted _ _)) in Hin.
    apply elem_of_iter_files in Hin as (rel' & fn' & f & Heq & _ & _ & _ & Hgit); [|done].
    apply app_inv_head in Heq. by apply app_inj_tail in Heq as [-> _].
  - intros rel fn f Hl Hex Hgit. rewrite elem_of_sorted, elem_of_iter_files by done. split.
    + intros (rel' & fn' & f' & Heq & _ & _ & Hfn & _).
      apply app_inv_head in Heq. by apply app_inj_tail in Heq as [_ ->].
    + intros Hfn. by exists rel, fn, f.
Qed.

(** C6.  Two runs with the same configuration over trees that hold the
    same files with the same contents, whatever the order in which the
    directories list their entries, write the same chunks to the output file
    and print the same summary: the walks may yield the paths in different
    orders, and sorting brings both to one list. *)
Theorem dump_is_deterministic (fs1 fs2 : node) (cwd : abspath)
    (src_dir exclude_dir out_file : Path) (extra_paths : option (list Path))
    (st : run_state) :
  wf fs1 = true → wf fs2 = true → same_files fs1 fs2 →
  iter_files fs1 (resolve cwd src_dir) (resolve cwd exclude_dir)
    ≡ₚ iter_files fs2 (resolve cwd src_dir) (resolve cwd exclude_dir)
  ∧ sorted (iter_files fs1 (resolve cwd src_dir) (resolve cwd exclude_dir))
    = sorted (iter_files fs2 (resolve cwd src_dir) (resolve cwd exclude_dir))
  ∧ write_combined_output fs1 cwd src_dir exclude_dir out_file extra_paths st
    = write_combined_output fs2 cwd src_dir exclude_dir out_file extra_paths st.
Proof.
  intros Hwf1 Hwf2 Hsame.
  pose proof (iter_files_same fs1 fs2 (resolve cwd src_dir) (resolve cwd exclude_dir)
                Hwf1 Hwf2 Hsame) as Hperm.
  pose proof (sorted_Permutation _ _ Hperm) as Hsorted.
  split_and!; [done..|].
  assert (∀ path st', read_file_as_text fs1 (resolve cwd out_file) path st'
                      = read_file_as_text fs2 (resolve cwd out_file) path st') as Hread.
  { intros path st'. rewrite !read_file_as_text_run. by rewrite (file_text_same fs1 fs2). }
  unfold write_combined_output.
  rewrite Hsorted, (open_output_same (resolve cwd out_file) fs1 fs2 Hsame).
  do 3 (apply bind_ext; [done|intros]).
  apply bind_ext.
  { apply for_each_ext. intros p _ count s0.
    do 5 (apply bind_ext; [done|intros]). apply bind_ext; [apply Hread|done]. }
  intros count s0. apply bind_ext; [|done].
  destruct extra_paths as [[|xp extras]|]; try done.
  do 4 (apply bind_ext; [done|intros]).
  apply for_each_ext. intros xp' _ [] s1.
  do 4 (apply bind_ext; [done|intros]). apply bind_ext; [apply Hread|done].
Qed.

(** C7.  In a run whose names the output can encode, a listed file other
    than the output file has its section whatever
    reading it gives: when its bytes are not valid text the section holds
    them decoded with the replacement character, when it cannot be opened
    the section holds the marker [<<ERROR READING FILE: ...>>]; in both
    cases the run ends normally and the summary counts all listed files,
    this one among them. *)
Theorem unreadable_files_do_not_abort (fs : node) (cwd : abspath)
    (src_dir exclude_dir out_file : Path) (extra_paths : option (list Path))
    (st : run_state) (p : abspath) :
  wf fs = true →
  open_output fs (resolve cwd out_file) = Return tt →
  encodable_run fs cwd src_dir exclude_dir out_file extra_paths = true →
  p ∈ iter_files fs (resolve cwd src_dir) (resolve cwd exclude_dir) →
  p ≠ resolve cwd out_file →
  ∃ st' before after content,
    write_combined_output fs cwd src_dir exclude_dir out_file extra_paths st = (Return tt, st')
    ∧ out st' = before ++ section_head (file_title (resolve cwd src_dir) p)
                  ++ [content; nl] ++ after
    ∧ (∀ data, lookup fs p = Some (File (Regular data)) → decode_text data = None →
         content = decode_replace data)
    ∧ (∀ data text, lookup fs p = Some (File (Regular data)) → decode_text data = Some text →
         content = text)
    ∧ (∀ err, lookup fs p = Some (File (Denied err)) →
         content = "<<ERROR READING FILE: " +:+ err +:+ ">>")
    ∧ stdout st' = stdout st ++
        [summary (length (iter_files fs (resolve cwd src_dir) (resolve cwd exclude_dir)))
           (length (default [] extra_paths)) (resolve cwd out_file)].
Proof.
  intros Hwf Hopen Henc Hp Hout.
  rewrite write_combined_output_run by done.
  apply (proj2 (elem_of_sorted _ _)) in Hp.
  unfold dump_layout.
  destruct (section_in_sections fs (resolve cwd out_file)
              (file_title (resolve cwd src_dir)) _ p
              (out st ++ preamble (resolve cwd src_dir) (resolve cwd exclude_dir)) Hp)
    as (before & after & ->).
  unfold section at 1.
  eexists _, (out st ++ preamble _ _ ++ before), _, _.
  split; [done|]. simpl. split; [by rewrite <- !app_assoc|].
  unfold file_text, text_of.
  assert (path_eqb p (resolve cwd out_file) = false) as ->
    by (by apply not_true_iff_false; rewrite path_eqb_true).
  split_and!; [intros data -> ->|intros data text -> ->|intros err ->|]; done.
Qed.

(** C8.  With a list of extra paths, and names that the output can
    encode, a run writes the preamble, the in-tree
    sections, the banner of the extras and then one section per extra path,
    in the order of the list, each headed by [EXTRA FILE:] and the resolved
    (absolute) path; it then prints one line that gives the number of
    in-tree files and the number of extras. *)
Theorem extras_follow_the_tree (fs : node) (cwd : abspath)
    (src_dir exclude_dir out_file : Path) (extras : list Path) (st : run_state) :
  wf fs = true →
  open_output fs (resolve cwd out_file) = Return tt →
  encodable_run fs cwd src_dir exclude_dir out_file (Some extras) = true →
  ∃ tree st',
    write_combined_output fs cwd src_dir exclude_dir out_file (Some extras) st
    = (Return tt, st')
    ∧ tree = sections fs (resolve cwd out_file) (file_title (resolve cwd src_dir))
               (sorted (iter_files fs (resolve cwd src_dir) (resolve cwd exclude_dir)))
               (out st ++ preamble (resolve cwd src_dir) (resolve cwd exclude_dir))
    ∧ out st' = out st ++ preamble (resolve cwd src_dir) (resolve cwd exclude_dir) ++ tree
        ++ match extras with
           | [] => []
           | _ :: _ =>
               extras_banner
               ++ sections fs (resolve cwd out_file)
                    (λ xp, "EXTRA FILE: " +:+ "/" +:+ join "/" xp)
                    (map (resolve cwd) extras)
                    (((out st ++ preamble (resolve cwd src_dir) (resolve cwd exclude_dir))
                      ++ tree) ++ extras_banner)
           end
    ∧ stdout st' = stdout st ++
        ["Wrote "
         +:+ str_nat (length (iter_files fs (resolve cwd src_dir) (resolve cwd exclude_dir)))
         +:+ " in-tree files + " +:+ str_nat (length extras)
         +:+ " extras into: " +:+ str_abs (resolve cwd out_file)].
Proof.
  intros Hwf Hopen Henc. eexists _, _.
  split; [by apply write_combined_output_run|]. split; [reflexivity|]. simpl.
  split; [|done]. unfold dump_layout, extras_block. by destruct extras.
Qed.

End dump_claims.

(** ** The sample hosts keep the laws *)

Lemma seven_bit_valid (data : list Byte.byte) :
  forallb Sample.seven_bit data = true → Dump.valid_utf8 data = true.
Proof.
  intros Hdata. apply valid_utf8_ascii.
  rewrite forallb_forall in *. intros b Hb. specialize (Hdata b Hb).
  unfold Sample.seven_bit in Hdata. apply N.ltb_lt in Hdata.
  unfold Dump.in_range. apply andb_true_iff. split; apply N.leb_le; lia.
Qed.

Lemma seven_bit_replaced (data : list Byte.byte) :
  forallb Sample.seven_bit
    (map (λ b, if Sample.seven_bit b then b else Byte.x3f) data) = true.
Proof.
  induction data as [|b data IH]; [done|]. cbn [map forallb]. rewrite IH.
  by destruct (Sample.seven_bit b) eqn:Hb; [rewrite Hb|].
Qed.

Global Instance host_laws : Dump.HostLaws Sample.host.
Proof.
  split.
  - intros data text. simpl. destruct (forallb Sample.seven_bit data) eqn:Hdata; [|done].
    intros [= <-]. unfold Dump.encodable. rewrite list_byte_of_string_of_list_byte.
    by apply seven_bit_valid.
  - intros data. simpl. unfold Dump.encodable. rewrite list_byte_of_string_of_list_byte.
    apply seven_bit_valid, seven_bit_replaced.
Qed.

Global Instance buffered_laws : Dump.HostLaws Sample.buffered.
Proof.
  split.
  - intros data text. apply (Dump.decode_text_encodable (Hst:=Sample.host)).
  - intros data. apply (Dump.decode_replace_encodable (Hst:=Sample.host)).
Qed.

(** ** The dump utility at concrete inputs *)

Section dump_samples.
Import Dump Sample.

(** Decides a closed decidable proposition by evaluation. *)
Ltac by_compute := apply (bool_decide_unpack _); vm_compute; exact I.

Lemma tree_wf : wf tree = true.
Proof. reflexivity. Qed.

Lemma tree_reordered_wf : wf tree_reordered = true.
Proof. reflexivity. Qed.

Lemma tree_dotfiles_wf : wf tree_dotfiles = true.
Proof. reflexivity. Qed.

Lemma tree_same_files : same_files tree tree_reordered.
Proof.
  intros p. unfold tree, tree_reordered.
  repeat (destruct p as [|? p]; simpl; [done|];
          repeat match goal with
                 | |- context [String.eqb ?c ?k] =>
                     destruct (String.eqb_spec c k) as [->|?]; simpl; try done
                 end).
Qed.

Lemma tree_encodable :
  encodable_run tree cwd src_dir exclude_dir out_file (Some extra_paths) = true.
Proof. by vm_compute. Qed.

Lemma tree_dotfiles_encodable :
  encodable_run tree_dotfiles cwd src_dir exclude_dir out_file (Some extra_paths) = true.
Proof. by vm_compute. Qed.

(** The example of the specification: [a.txt], [sub/b.txt] and [bin/c.txt]
    with [bin] excluded give the sections of [a.txt] and [sub/b.txt], in
    this order, and nothing of [c.txt]. *)
Example dump_of_the_example_tree :
  write_combined_output (Hst:=host) tree cwd src_dir exclude_dir out_file None start
  = (Return tt,
     {| out := ["# Combined dump of /src" +:+ nl;
                "# Excluding: /src/bin" +:+ nl +:+ nl;
                nl; rule "="; "FILE: a.txt" +:+ nl; rule "=" +:+ nl; "alpha"; nl;
                nl; rule "="; "FILE: sub/b.txt" +:+ nl; rule "=" +:+ nl; "beta"; nl];
        stdout := ["Wrote 2 in-tree files + 0 extras into: /home/dump.txt"] |}).
Proof. by vm_compute. Qed.

(** C5 as amended on the example tree. *)
Lemma dump_sections_of_listed_files_witness :
  wf tree = true
  ∧ open_output tree (resolve cwd out_file) = Return tt
  ∧ encodable_run tree cwd src_dir exclude_dir out_file (Some extra_paths) = true
  ∧ ∃ rels st',
      write_combined_output (Hst:=host) tree cwd src_dir exclude_dir out_file
        (Some extra_paths) start = (Return tt, st')
      ∧ (∀ rel, rel ∈ rels ↔
           listed tree (resolve cwd src_dir) (resolve cwd exclude_dir)
             (resolve cwd src_dir ++ rel))
      ∧ NoDup rels
      ∧ Sorted path_le rels
      ∧ out st' = out start ++
          dump_layout (Hst:=host) tree (resolve cwd src_dir) (resolve cwd exclude_dir)
            (resolve cwd out_file) ((resolve cwd src_dir ++.) <$> rels)
            (map (resolve cwd) (default [] (Some extra_paths))) (out start).
Proof.
  split; [exact tree_wf|]. split; [reflexivity|]. split; [exact tree_encodable|].
  exact (dump_sections_of_listed_files (Hst:=host) tree cwd src_dir exclude_dir out_file
           (Some extra_paths) start tree_wf eq_refl tree_encodable).
Defined.

(** C5 as stated fails where a directory name begins with [.git]: in
    [tree_dotfiles] the file [.github/ci.yml] is under the source root,
    outside the excluded [bin] and not named [.DS_Store], and the run
    neither lists it nor writes a header for it. *)
Lemma github_workflow_is_left_out :
  listed_by_spec tree_dotfiles ["src"] ["src"; "bin"] ["src"; ".github"; "ci.yml"]
  ∧ (["src"; ".github"; "ci.yml"]%string
       ∉ sorted (iter_files tree_dotfiles (resolve cwd src_dir) (resolve cwd exclude_dir)))
  ∧ (("FILE: .github/ci.yml" +:+ nl)
       ∉ out (write_combined_output (Hst:=host) tree_dotfiles cwd src_dir exclude_dir
                out_file None start).2).
Proof.
  split_and!.
  - exists [".github"]%string, "ci.yml"%string, (Regular (list_byte_of_string "on: push")).
    split_and!; [reflexivity..| |done]. by_compute.
  - by_compute.
  - by_compute.
Qed.

(** C10 on the tree with [.github], [.gitignore] and [.DS_Store]. *)
Lemma git_prefixed_directories_are_pruned_witness :
  wf tree_dotfiles = true
  ∧ open_output tree_dotfiles (resolve cwd out_file) = Return tt
  ∧ encodable_run tree_dotfiles cwd src_dir exclude_dir out_file (Some extra_paths) = true
  ∧ ∃ files st',
      write_combined_output (Hst:=host) tree_dotfiles cwd src_dir exclude_dir out_file
        (Some extra_paths) start = (Return tt, st')
      ∧ out st' = out start ++
          dump_layout (Hst:=host) tree_dotfiles (resolve cwd src_dir)
            (resolve cwd exclude_dir) (resolve cwd out_file)
            files (map (resolve cwd) (default [] (Some extra_paths))) (out start)
      ∧ stdout st' = stdout start ++
          [summary (length files) (length (default [] (Some extra_paths)))
             (resolve cwd out_file)]
      ∧ (∀ rel fn, resolve cwd src_dir ++ rel ++ [fn] ∈ files →
           Forall (λ d, String.prefix ".git" d = false) rel)
      ∧ (∀ rel fn f,
           lookup tree_dotfiles (resolve cwd src_dir ++ rel ++ [fn]) = Some (File f) →
           ¬ resolve cwd exclude_dir `prefix_of` (resolve cwd src_dir ++ rel) →
           Forall (λ d, String.prefix ".git" d = false) rel →
           resolve cwd src_dir ++ rel ++ [fn] ∈ files ↔ fn ≠ ".DS_Store").
Proof.
  split; [exact tree_dotfiles_wf|]. split; [reflexivity|].
  split; [exact tree_dotfiles_encodable|].
  exact (git_prefixed_directories_are_pruned (Hst:=host) tree_dotfiles cwd src_dir
           exclude_dir out_file (Some extra_paths) start tree_dotfiles_wf eq_refl
           tree_dotfiles_encodable).
Defined.

(** C6 on the example tree and its reordering, nothing excluded: the two
    walks differ, the two runs do not. *)
Lemma dump_is_deterministic_witness :
  wf tree = true ∧ wf tree_reordered = true ∧ same_files tree tree_reordered
  ∧ iter_files tree (resolve cwd src_dir) (resolve cwd other_dir)
      ≠ iter_files tree_reordered (resolve cwd src_dir) (resolve cwd other_dir)
  ∧ iter_files tree (resolve cwd src_dir) (resolve cwd other_dir)
      ≡ₚ iter_files tree_reordered (resolve cwd src_dir) (resolve cwd other_dir)
  ∧ sorted (iter_files tree (resolve cwd src_dir) (resolve cwd other_dir))
    = sorted (iter_files tree_reordered (resolve cwd src_dir) (resolve cwd other_dir))
  ∧ write_combined_output (Hst:=host) tree cwd src_dir other_dir out_file
      (Some extra_paths) start
    = write_combined_output (Hst:=host) tree_reordered cwd src_dir other_dir out_file
        (Some extra_paths) start.
Proof.
  split; [exact tree_wf|]. split; [exact tree_reordered_wf|].
  split; [exact tree_same_files|]. split; [by vm_compute|].
  exact (dump_is_deterministic (Hst:=host) tree tree_reordered cwd src_dir other_dir
           out_file (Some extra_paths) start tree_wf tree_reordered_wf tree_same_files).
Defined.

Lemma blob_in_tree_dotfiles :
  ["src"; "blob"]%string
    ∈ iter_files tree_dotfiles (resolve cwd src_dir) (resolve cwd exclude_dir).
Proof. by_compute. Qed.

(** C7 on the file [blob], whose second byte is not valid text. *)
Lemma unreadable_files_do_not_abort_witness :
  wf tree_dotfiles = true
  ∧ open_output tree_dotfiles (resolve cwd out_file) = Return tt
  ∧ encodable_run tree_dotfiles cwd src_dir exclude_dir out_file (Some extra_paths) = true
  ∧ ["src"; "blob"]%string
      ∈ iter_files tree_dotfiles (resolve cwd src_dir) (resolve cwd exclude_dir)
  ∧ ["src"; "blob"]%string ≠ resolve cwd out_file
  ∧ ∃ st' before after content,
      write_combined_output (Hst:=host) tree_dotfiles cwd src_dir exclude_dir out_file
        (Some extra_paths) start = (Return tt, st')
      ∧ out st' = before ++ section_head (file_title (resolve cwd src_dir) ["src"; "blob"])
                    ++ [content; nl] ++ after
      ∧ (∀ data, lookup tree_dotfiles ["src"; "blob"] = Some (File (Regular data)) →
           decode_text (Host:=host) data = None →
           content = decode_replace (Host:=host) data)
      ∧ (∀ data text, lookup tree_dotfiles ["src"; "blob"] = Some (File (Regular data)) →
           decode_text (Host:=host) data = Some text →
           content = text)
      ∧ (∀ err, lookup tree_dotfiles ["src"; "blob"] = Some (File (Denied err)) →
           content = "<<ERROR READING FILE: " +:+ err +:+ ">>")
      ∧ stdout st' = stdout start ++
          [summary
             (length (iter_files tree_dotfiles (resolve cwd src_dir) (resolve cwd exclude_dir)))
             (length (default [] (Some extra_paths))) (resolve cwd out_file)].
Proof.
  assert (["src"; "blob"]%string ≠ resolve cwd out_file) as Hne by (by vm_compute).
  split; [exact tree_dotfiles_wf|]. split; [reflexivity|].
  split; [exact tree_dotfiles_encodable|].
  split; [exact blob_in_tree_dotfiles|]. split; [exact Hne|].
  exact (unreadable_files_do_not_abort (Hst:=host) tree_dotfiles cwd src_dir exclude_dir
           out_file (Some extra_paths) start ["src"; "blob"]%string
           tree_dotfiles_wf eq_refl tree_dotfiles_encodable blob_in_tree_dotfiles Hne).
Defined.

(** What C7 says, on [tree_dotfiles]: the undecodable [blob] is dumped with
    a placeholder for its invalid byte, the file that cannot be opened with
    the marker, and both are among the four files the summary counts. *)
Example dump_of_tree_dotfiles :
  write_combined_output (Hst:=host) tree_dotfiles cwd src_dir exclude_dir out_file None start
  = (Return tt,
     {| out := ["# Combined dump of /src" +:+ nl;
                "# Excluding: /src/bin" +:+ nl +:+ nl;
                nl; rule "="; "FILE: .gitignore" +:+ nl; rule "=" +:+ nl; "target"; nl;
                nl; rule "="; "FILE: blob" +:+ nl; rule "=" +:+ nl; "A?B"; nl;
                nl; rule "="; "FILE: locked" +:+ nl; rule "=" +:+ nl;
                "<<ERROR READING FILE: Permission denied>>"; nl];
        stdout := ["Wrote 3 in-tree files + 0 extras into: /home/dump.txt"] |}).
Proof. by vm_compute. Qed.

(** C8 on the example tree with the two extra paths. *)
Lemma extras_follow_the_tree_witness :
  wf tree = true
  ∧ open_output tree (resolve cwd out_file) = Return tt
  ∧ encodable_run tree cwd src_dir exclude_dir out_file (Some extra_paths) = true
  ∧ ∃ tree_part st',
      write_combined_output (Hst:=host) tree cwd src_dir exclude_dir out_file
        (Some extra_paths) start = (Return tt, st')
      ∧ tree_part
        = sections (Hst:=host) tree (resolve cwd out_file) (file_title (resolve cwd src_dir))
            (sorted (iter_files tree (resolve cwd src_dir) (resolve cwd exclude_dir)))
            (out start ++ preamble (resolve cwd src_dir) (resolve cwd exclude_dir))
      ∧ out st' = out start ++ preamble (resolve cwd src_dir) (resolve cwd exclude_dir)
          ++ tree_part
          ++ match extra_paths with
             | [] => []
             | _ :: _ =>
                 extras_banner
                 ++ sections (Hst:=host) tree (resolve cwd out_file)
                      (λ xp, "EXTRA FILE: " +:+ "/" +:+ join "/" xp)
                      (map (resolve cwd) extra_paths)
                      (((out start ++ preamble (resolve cwd src_dir) (resolve cwd exclude_dir))
                        ++ tree_part) ++ extras_banner)
             end
      ∧ stdout st' = stdout start ++
          ["Wrote "
           +:+ str_nat (length (iter_files tree (resolve cwd src_dir) (resolve cwd exclude_dir)))
           +:+ " in-tree files + " +:+ str_nat (length extra_paths)
           +:+ " extras into: " +:+ str_abs (resolve cwd out_file)].
Proof.
  split; [exact tree_wf|]. split; [reflexivity|]. split; [exact tree_encodable|].
  exact (extras_follow_the_tree (Hst:=host) tree cwd src_dir exclude_dir out_file
           extra_paths start tree_wf eq_refl tree_encodable).
Defined.

(** What C8 says, on the example tree with two extras, the second of which
    does not exist. *)
Example dump_with_extras :
  write_combined_output (Hst:=host) tree cwd src_dir exclude_dir out_file
    (Some extra_paths) start
  = (Return tt,
     {| out := ["# Combined dump of /src" +:+ nl;
                "# Excluding: /src/bin" +:+ nl +:+ nl;
                nl; rule "="; "FILE: a.txt" +:+ nl; rule "=" +:+ nl; "alpha"; nl;
                nl; rule "="; "FILE: sub/b.txt" +:+ nl; rule "=" +:+ nl; "beta"; nl;
                nl; rule "#"; "# EXTRA FILES (appended after source tree)" +:+ nl;
                rule "#" +:+ nl;
                nl; rule "="; "EXTRA FILE: /etc/Cargo.toml" +:+ nl; rule "=" +:+ nl;
                "[package]"; nl;
                nl; rule "="; "EXTRA FILE: /etc/build.sh" +:+ nl; rule "=" +:+ nl;
                "<<ERROR READING FILE: [Errno 2] No such file or directory: '/etc/build.sh'>>";
                nl];
        stdout := ["Wrote 2 in-tree files + 2 extras into: /home/dump.txt"] |}).
Proof. by vm_compute. Qed.

End dump_samples.

(** * Further properties of the frame relay *)

Section service_more.
Context `{Ext : External}.
Import MediaPipeService.

Lemma flushed_app (tr1 tr2 : list event) :
  flushed tr1 = true → flushed (tr1 ++ tr2) = flushed tr2.
Proof.
  revert tr1. fix IH 1. intros [|ev tr1]; [done|].
  destruct ev; simpl; try apply IH.
  destruct tr1 as [|[] tr1]; simpl; try done. apply IH.
Qed.

(** What [process_frame] adds to the trace: nothing, or the two
    diagnostics of its handler. *)
Lemma process_frame_trace frame_data s :
  ∃ d s' errs, process_frame frame_data s = (Return d, s')
    ∧ trace s' = trace s ++ errs
    ∧ flushed errs = true.
Proof.
  unfold process_frame, self_pose_process, self_hands_process, emit. unfold_M.
  repeat case_match;
    repeat match goal with
           | Hx : assemble _ _ _ = _ |- _ => rewrite assemble_assembled in Hx
           end;
    simplify_eq/=.
  all: try (eexists _, _, []; split; [reflexivity|]; simpl; by rewrite app_nil_r).
  all: eexists _, _, [_; _]; split; [reflexivity|]; simpl; by rewrite <- app_assoc.
Qed.

Lemma run_step_flushed line s :
  flushed (trace s) = true →
  ∃ b s', run_step line s = (b, s') ∧ flushed (trace s') = true.
Proof.
  intros Hfl. unfold run_step, emit. unfold_M. simpl.
  destruct (String.eqb line "").
  { eexists _, _. split; [reflexivity|]. simpl. rewrite <- app_assoc. by rewrite flushed_app. }
  destruct (json_loads line) as [fd|e].
  - match goal with |- context [process_frame fd ?st] =>
      destruct (process_frame_trace fd st) as (d & s1 & errs & -> & Htr & Herrs)
    end.
    eexists _, _. split; [reflexivity|]. simpl. rewrite Htr. simpl.
    rewrite <- !app_assoc. rewrite flushed_app by done. simpl.
    rewrite flushed_app by done. done.
  - destruct (is_JSONDecodeError e); eexists _, _; (split; [reflexivity|]); simpl;
      rewrite <- !app_assoc; by rewrite flushed_app.
Qed.

Lemma run_loop_flushed stdin s :
  flushed (trace s) = true →
  ∃ r s', run_loop stdin s = (r, s') ∧ flushed (trace s') = true.
Proof.
  revert s. induction stdin as [|line rest IH]; intros s Hfl; simpl.
  - destruct (run_step_flushed "" s Hfl) as (b & s' & Hstep & Hfl').
    unfold Py.bind. rewrite Hstep. destruct b; eexists _, _; (split; [reflexivity|done]).
  - destruct (run_step_flushed line s Hfl) as (b & s' & Hstep & Hfl').
    unfold Py.bind. rewrite Hstep. destruct b as [[|]|e].
    + by apply IH.
    + eexists _, _. split; [reflexivity|done].
    + eexists _, _. split; [reflexivity|done].
Qed.

(** X1.  One turn of the loop on a line that parses to a valid frame
    request: the [height x width x 3] array of the samples goes to the pose
    detector and then to the hand detector, the JSON text of exactly what
    they found is printed and flushed, nothing is written to standard error,
    and the loop goes on. *)
Theorem valid_frame_line_prints_detections (line : string) (w h : Z) (samples : list Z)
    (s : state) pr p' hr h' :
  line ≠ "" →
  json_loads line = Return (frame_request w h samples) →
  Forall is_sample samples →
  0 ≤ w < 2 ^ 63 → 0 ≤ h < 2 ^ 63 →
  Z.of_nat (length samples) = w * h * 3 →
  pose_process (pose s) {| shape := [h; w; 3]; buffer := samples |} = (Return pr, p') →
  hands_process (hands s) {| shape := [h; w; 3]; buffer := samples |} = (Return hr, h') →
  run_step line s
  = (Return true,
     {| pose := p'; hands := h';
        trace := trace s ++ [Readline line; Stdout (json_dumps (assembled pr hr)); Flush] |}).
Proof.
  intros Hne%eqb_empty_false Hloads Hs Hw Hh Hlen Hpose Hhands.
  unfold run_step. erewrite try_Return; [reflexivity|].
  unfold emit. unfold Py.bind at 1. unfold Py.modify at 1. rewrite Hne.
  erewrite bind_Return; [|unfold Py.lift; by rewrite Hloads].
  erewrite bind_Return; [|by apply process_frame_on_valid_frame].
  unfold_M. simpl. by rewrite <- !app_assoc.
Qed.

(** X2.  A valid frame in which neither detector finds anything is
    answered with the very line that answers a frame that could not be
    processed: on standard output the two cases cannot be told apart. *)
Theorem no_detection_prints_the_empty_result (line : string) (w h : Z) (samples : list Z)
    (s : state) pr p' hr h' :
  line ≠ "" →
  json_loads line = Return (frame_request w h samples) →
  Forall is_sample samples →
  0 ≤ w < 2 ^ 63 → 0 ≤ h < 2 ^ 63 →
  Z.of_nat (length samples) = w * h * 3 →
  pose_process (pose s) {| shape := [h; w; 3]; buffer := samples |} = (Return pr, p') →
  hands_process (hands s) {| shape := [h; w; 3]; buffer := samples |} = (Return hr, h') →
  default [] pr = [] → default [] hr = [] →
  ∃ s',
    run_step line s = (Return true, s')
    ∧ stdout_of (trace s') = stdout_of (trace s) ++ [empty_line]
    ∧ pose s' = p' ∧ hands s' = h'.
Proof.
  intros Hne%eqb_empty_false Hloads Hs Hw Hh Hlen Hpose Hhands Hpr Hhr.
  assert (assembled pr hr = empty_result) as Hempty.
  { unfold assembled. by rewrite Hpr, Hhr. }
  unfold run_step. erewrite try_Return; cycle 1.
  { unfold emit. unfold Py.bind at 1. unfold Py.modify at 1. rewrite Hne.
    erewrite bind_Return; [|unfold Py.lift; by rewrite Hloads].
    erewrite bind_Return; [|by apply process_frame_on_valid_frame].
    unfold_M. simpl. reflexivity. }
  eexists. split; [reflexivity|]. simpl.
  rewrite !stdout_of_app, Hempty. simpl. by rewrite !app_nil_r.
Qed.

(** X3.  When a detector raises on a frame, [process_frame] returns the
    empty result and writes the message and the traceback to standard error.
    After a failure of the pose detector the hand detector is not run; after
    a failure of the hand detector the landmarks the pose detector had found
    are dropped, while both detectors keep the state the calls left. *)
Theorem detector_failure_gives_the_empty_result (w h : Z) (samples : list Z) (s : state) :
  Forall is_sample samples →
  0 ≤ w < 2 ^ 63 → 0 ≤ h < 2 ^ 63 →
  Z.of_nat (length samples) = w * h * 3 →
  (∀ e p',
     pose_process (pose s) {| shape := [h; w; 3]; buffer := samples |} = (Raise e, p') →
     process_frame (frame_request w h samples) s
     = (Return empty_result,
        {| pose := p'; hands := hands s;
           trace := trace s ++ [Stderr ("Error processing frame: " +:+ exception_str e);
                                Traceback e] |}))
  ∧ (∀ pr p' e h',
       pose_process (pose s) {| shape := [h; w; 3]; buffer := samples |} = (Return pr, p') →
       hands_process (hands s) {| shape := [h; w; 3]; buffer := samples |} = (Raise e, h') →
       process_frame (frame_request w h samples) s
       = (Return empty_result,
          {| pose := p'; hands := h';
             trace := trace s ++ [Stderr ("Error processing frame: " +:+ exception_str e);
                                  Traceback e] |})).
Proof.
  intros Hs Hw Hh Hlen.
  assert (reshape {| shape := [Z.of_nat (length samples)]; buffer := samples |}
            (JInt h) (JInt w)
          = Return {| shape := [h; w; 3]; buffer := samples |}) as Hreshape.
  { unfold reshape, as_intp, reshape3, size. simpl.
    destruct (Z.leb_spec (- 2 ^ 63) h), (Z.ltb_spec h (2 ^ 63)); try lia.
    destruct (Z.leb_spec (- 2 ^ 63) w), (Z.ltb_spec w (2 ^ 63)); try lia. simpl.
    destruct (Z.ltb_spec h 0), (Z.ltb_spec w 0); try lia. simpl.
    destruct (Z.leb_spec 0 h), (Z.leb_spec 0 w); try lia. simpl.
    destruct (Z.eqb_spec (Z.of_nat (length samples)) (h * (w * (3 * 1)))); [done|lia]. }
  split.
  - intros e p' Hpose.
    unfold process_frame, self_pose_process, self_hands_process, emit. unfold_M. simpl.
    rewrite flat_uint8_samples, Hreshape, Hpose by done. simpl. by rewrite <- app_assoc.
  - intros pr p' e h' Hpose Hhands.
    unfold process_frame, self_pose_process, self_hands_process, emit. unfold_M. simpl.
    rewrite flat_uint8_samples, Hreshape, Hpose by done. simpl. rewrite Hhands.
    simpl. by rewrite <- app_assoc.
Qed.

(** X4.  A request that is a dict without one of the keys [width],
    [height], [data] never reaches numpy or the detectors: [process_frame]
    returns the empty result, and the diagnostic on standard error names the
    first missing key in that order. *)
Theorem missing_key_is_reported (members : list (string * json)) (key : string) (s : state) :
  first_missing_key members = Some key →
  process_frame (JObject members) s
  = (Return empty_result,
     {| pose := pose s; hands := hands s;
        trace := trace s ++ [Stderr ("Error processing frame: '" +:+ key +:+ "'");
                             Traceback (KeyError key)] |}).
Proof.
  unfold first_missing_key. simpl.
  unfold process_frame, emit, getitem. unfold_M.
  destruct (assoc "width" members) as [wv|]; simpl;
    [|intros [= <-]; simpl; by rewrite <- app_assoc].
  destruct (assoc "height" members) as [hv|]; simpl;
    [|intros [= <-]; simpl; by rewrite <- app_assoc].
  destruct (assoc "data" members) as [dv|]; simpl;
    [done|intros [= <-]; simpl; by rewrite <- app_assoc].
Qed.

(** X5.  A request that is valid JSON and no object (a list, a string, a
    number, [true], [null]) never reaches numpy or the detectors:
    [process_frame] returns the empty result, and the [TypeError] of the
    subscript goes to standard error with its traceback. *)
Theorem request_that_is_no_object_is_rejected (frame_data : json) (s : state) :
  (∀ members, frame_data ≠ JObject members) →
  ∃ msg,
    process_frame frame_data s
    = (Return empty_result,
       {| pose := pose s; hands := hands s;
          trace := trace s ++ [Stderr ("Error processing frame: " +:+ msg);
                               Traceback (TypeError msg)] |}).
Proof.
  intros Hno. unfold process_frame, emit, getitem. unfold_M.
  destruct frame_data as [|b|n|f|str|items|members];
    try (eexists; simpl; by rewrite <- app_assoc).
  by destruct (Hno members).
Qed.

(** X6.  Whatever the input and whatever the libraries do, every line the
    process prints to standard output (the readiness token and each result)
    is followed by a flush before the process reads, prints or reports
    anything else. *)
Theorem stdout_is_flushed_after_every_line (stdin : list string) :
  flushed (__main__ stdin).2 = true.
Proof.
  unfold __main__.
  destruct (__init__ []) as [[[p h]|e] tr0] eqn:Hinit.
  - assert (flushed tr0 = true) as Htr0.
    { revert Hinit. unfold __init__. unfold_M.
      repeat case_match; intros; simplify_eq/=; done. }
    unfold run, emit. unfold_M. simpl.
    match goal with |- context [run_loop stdin ?st] =>
      destruct (run_loop_flushed stdin st) as (r & s' & -> & Hfl)
    end.
    { simpl. rewrite <- !app_assoc. by rewrite flushed_app. }
    destruct r; simpl; [done|]. by rewrite flushed_app.
  - simpl. revert Hinit. unfold __init__. unfold_M.
    repeat case_match; intros; simplify_eq/=; done.
Qed.

End service_more.

Section processor_more.
Context `{Ext : External}.

Lemma bgr2rgb_ind (P : list Z → Prop) :
  P [] → (∀ a, P [a]) → (∀ a b, P [a; b]) →
  (∀ b g r rest, P rest → P (b :: g :: r :: rest)) →
  ∀ samples, P samples.
Proof.
  intros H0 H1 H2 H3. fix IH 1.
  intros [|a [|b [|c rest]]]; [apply H0|apply H1|apply H2|apply H3, IH].
Qed.

Lemma length_bgr2rgb (samples : list Z) : length (bgr2rgb samples) = length samples.
Proof. induction samples using bgr2rgb_ind; simpl; auto. Qed.

Lemma processor_reshape_ok (frame_data : list Byte.byte) (s : MediaPipeProcessor.state) :
  Z.of_nat (length frame_data) = 720 * 1280 * 3 →
  Py.lift (reshape3 (MediaPipeProcessor.frombuffer frame_data) 720 1280 3) s
  = (Return {| shape := [720; 1280; 3];
               buffer := buffer (MediaPipeProcessor.frombuffer frame_data) |}, s).
Proof. intros Hlen. unfold Py.lift. by rewrite processor_reshape, Hlen. Qed.

(** The conversion exchanges the first and the third sample of every
    pixel and keeps the second. *)
Lemma bgr2rgb_pixel (samples : list Z) :
  ∀ i : nat, (3 * i + 2 < length samples)%nat →
    bgr2rgb samples !! (3 * i)%nat = samples !! (3 * i + 2)%nat
    ∧ bgr2rgb samples !! (3 * i + 1)%nat = samples !! (3 * i + 1)%nat
    ∧ bgr2rgb samples !! (3 * i + 2)%nat = samples !! (3 * i)%nat.
Proof.
  induction samples as [| | |b g r rest IH] using bgr2rgb_ind; intros i Hlen;
    try (simpl in Hlen; lia).
  destruct i as [|i]; [done|].
  replace (3 * S i)%nat with (S (S (S (3 * i)))) by lia.
  cbn [length] in Hlen. cbn [bgr2rgb Nat.add]. apply IH. lia.
Qed.

(** X7.  For a buffer of 720 * 1280 * 3 bytes the processor hands the pose
    detector and then the hand detector the 720 x 1280 x 3 array of the
    bytes in which the first and the third sample of every pixel are
    exchanged (BGR to RGB), and returns the JSON text of exactly what the
    two found, [None] read as the empty list; the detectors are left in the
    states the two calls leave. *)
Theorem processor_returns_detections_on_rgb (frame_data : list Byte.byte)
    (s : MediaPipeProcessor.state) pr p' hr h' :
  Z.of_nat (length frame_data) = 720 * 1280 * 3 →
  pose_process (MediaPipeProcessor.pose s) (rgb_frame frame_data) = (Return pr, p') →
  hands_process (MediaPipeProcessor.hands s) (rgb_frame frame_data) = (Return hr, h') →
  MediaPipeProcessor.process_frame frame_data s
  = (Return (json_dumps (assembled pr hr)),
     {| MediaPipeProcessor.pose := p'; MediaPipeProcessor.hands := h' |})
  ∧ shape (rgb_frame frame_data) = [720; 1280; 3]
  ∧ length (buffer (rgb_frame frame_data)) = length frame_data
  ∧ ∀ (pixel : nat) (b g r : Byte.byte),
      frame_data !! (3 * pixel)%nat = Some b →
      frame_data !! (3 * pixel + 1)%nat = Some g →
      frame_data !! (3 * pixel + 2)%nat = Some r →
      buffer (rgb_frame frame_data) !! (3 * pixel)%nat = Some (Z.of_N (Byte.to_N r))
      ∧ buffer (rgb_frame frame_data) !! (3 * pixel + 1)%nat = Some (Z.of_N (Byte.to_N g))
      ∧ buffer (rgb_frame frame_data) !! (3 * pixel + 2)%nat = Some (Z.of_N (Byte.to_N b)).
Proof.
  intros Hlen Hpose Hhands. split_and!.
  - unfold MediaPipeProcessor.process_frame.
    erewrite bind_Return; [|by apply processor_reshape_ok].
    fold (rgb_frame frame_data).
    erewrite bind_Return; cycle 1.
    { unfold MediaPipeProcessor.self_pose_process. rewrite Hpose. reflexivity. }
    erewrite bind_Return; cycle 1.
    { unfold MediaPipeProcessor.self_hands_process. simpl. rewrite Hhands. reflexivity. }
    erewrite bind_Return; [|apply assemble_assembled]. done.
  - done.
  - unfold rgb_frame, MediaPipeProcessor.cvtColor, MediaPipeProcessor.frombuffer.
    cbn [buffer]. by rewrite length_bgr2rgb, length_map.
  - intros pixel b g r Hb Hg Hr.
    unfold rgb_frame, MediaPipeProcessor.cvtColor, MediaPipeProcessor.frombuffer.
    cbn [buffer].
    destruct (bgr2rgb_pixel (map (λ b, Z.of_N (Byte.to_N b)) frame_data) pixel)
      as (H0 & H1 & H2).
    { rewrite length_map. by apply lookup_lt_Some in Hr. }
    rewrite H0, H1, H2. change (map ?f ?l) with (f <$> l).
    rewrite !list_lookup_fmap, Hb, Hg, Hr. done.
Qed.

(** X8.  The processor has no handler around the detectors: when the pose
    detector or the hand detector raises on a frame of the right size, the
    exception leaves [process_frame] as it is, no JSON text is returned, and
    after a failure of the pose detector the hand detector is not run. *)
Theorem processor_propagates_detector_failure (frame_data : list Byte.byte)
    (s : MediaPipeProcessor.state) :
  Z.of_nat (length frame_data) = 720 * 1280 * 3 →
  (∀ e p',
     pose_process (MediaPipeProcessor.pose s) (rgb_frame frame_data) = (Raise e, p') →
     MediaPipeProcessor.process_frame frame_data s
     = (Raise e, {| MediaPipeProcessor.pose := p';
                    MediaPipeProcessor.hands := MediaPipeProcessor.hands s |}))
  ∧ (∀ pr p' e h',
       pose_process (MediaPipeProcessor.pose s) (rgb_frame frame_data) = (Return pr, p') →
       hands_process (MediaPipeProcessor.hands s) (rgb_frame frame_data) = (Raise e, h') →
       MediaPipeProcessor.process_frame frame_data s
       = (Raise e, {| MediaPipeProcessor.pose := p'; MediaPipeProcessor.hands := h' |})).
Proof.
  intros Hlen. split.
  - intros e p' Hpose. unfold MediaPipeProcessor.process_frame.
    erewrite bind_Return; [|by apply processor_reshape_ok].
    fold (rgb_frame frame_data).
    erewrite bind_Raise; [done|].
    unfold MediaPipeProcessor.self_pose_process. by rewrite Hpose.
  - intros pr p' e h' Hpose Hhands. unfold MediaPipeProcessor.process_frame.
    erewrite bind_Return; [|by apply processor_reshape_ok].
    fold (rgb_frame frame_data).
    erewrite bind_Return; cycle 1.
    { unfold MediaPipeProcessor.self_pose_process. rewrite Hpose. reflexivity. }
    erewrite bind_Raise; [done|].
    unfold MediaPipeProcessor.self_hands_process. simpl. by rewrite Hhands.
Qed.

End processor_more.

(** ** The further properties of the relay at concrete inputs *)

Lemma samples_1x1 : Forall is_sample [0; 0; 0].
Proof. repeat constructor; unfold is_sample; lia. Qed.

Lemma line_1x1_nonempty : Stub.line_1x1 ≠ "".
Proof. by vm_compute. Qed.

(** X1 on the 1 x 1 frame, with the detectors that count frames. *)
Lemma valid_frame_line_prints_detections_witness :
  Stub.line_1x1 ≠ ""
  ∧ @json_loads Stub.ext Stub.line_1x1 = Return (frame_request 1 1 [0; 0; 0])
  ∧ MediaPipeService.run_step Stub.line_1x1 Stub.service0
    = (Return true,
       @MediaPipeService.Build_state Stub.ext 1%nat 1%nat
         [Readline Stub.line_1x1;
          Stdout (json_dumps (Ext:=Stub.ext) (assembled (Some [Stub.lm0]) None));
          Flush]).
Proof.
  split; [exact line_1x1_nonempty|]. split; [reflexivity|].
  exact (valid_frame_line_prints_detections (Ext:=Stub.ext) Stub.line_1x1 1 1 [0; 0; 0]
           Stub.service0 (Some [Stub.lm0]) 1%nat None 1%nat
           line_1x1_nonempty eq_refl samples_1x1
           (conj (Z.le_0_1) eq_refl) (conj (Z.le_0_1) eq_refl) eq_refl eq_refl eq_refl).
Defined.

(** X2 on the 1 x 1 frame, with detectors that find nothing. *)
Lemma no_detection_prints_the_empty_result_witness :
  Stub.line_1x1 ≠ ""
  ∧ @json_loads Stub.blind Stub.line_1x1 = Return (frame_request 1 1 [0; 0; 0])
  ∧ ∃ s',
      MediaPipeService.run_step (Ext:=Stub.blind) Stub.line_1x1
        (@MediaPipeService.Build_state Stub.blind O O []) = (Return true, s')
      ∧ stdout_of (MediaPipeService.trace s') = [] ++ [empty_line]
      ∧ MediaPipeService.pose s' = 1%nat ∧ MediaPipeService.hands s' = 1%nat.
Proof.
  split; [exact line_1x1_nonempty|]. split; [reflexivity|].
  exact (no_detection_prints_the_empty_result (Ext:=Stub.blind) Stub.line_1x1 1 1 [0; 0; 0]
           (@MediaPipeService.Build_state Stub.blind O O []) None 1%nat (Some []) 1%nat
           line_1x1_nonempty eq_refl samples_1x1
           (conj (Z.le_0_1) eq_refl) (conj (Z.le_0_1) eq_refl) eq_refl eq_refl eq_refl
           eq_refl eq_refl).
Defined.

(** X3 on the 1 x 1 frame, once with a pose detector and once with a hand
    detector that raises. *)
Lemma detector_failure_gives_the_empty_result_witness :
  MediaPipeService.process_frame (Ext:=Stub.pose_fails) (frame_request 1 1 [0; 0; 0])
    (@MediaPipeService.Build_state Stub.pose_fails O O [])
  = (Return empty_result,
     @MediaPipeService.Build_state Stub.pose_fails 1%nat O
       [Stderr "Error processing frame: graph has errors"; Traceback Stub.graph_error])
  ∧ MediaPipeService.process_frame (Ext:=Stub.hands_fail) (frame_request 1 1 [0; 0; 0])
      (@MediaPipeService.Build_state Stub.hands_fail O O [])
    = (Return empty_result,
       @MediaPipeService.Build_state Stub.hands_fail 1%nat 1%nat
         [Stderr "Error processing frame: graph has errors"; Traceback Stub.graph_error]).
Proof.
  split.
  - exact (proj1 (detector_failure_gives_the_empty_result (Ext:=Stub.pose_fails) 1 1 [0; 0; 0]
                    (@MediaPipeService.Build_state Stub.pose_fails O O []) samples_1x1
                    (conj (Z.le_0_1) eq_refl) (conj (Z.le_0_1) eq_refl) eq_refl)
             Stub.graph_error 1%nat eq_refl).
  - exact (proj2 (detector_failure_gives_the_empty_result (Ext:=Stub.hands_fail) 1 1 [0; 0; 0]
                    (@MediaPipeService.Build_state Stub.hands_fail O O []) samples_1x1
                    (conj (Z.le_0_1) eq_refl) (conj (Z.le_0_1) eq_refl) eq_refl)
             (Some [Stub.lm0]) 1%nat Stub.graph_error 1%nat eq_refl eq_refl).
Defined.

(** X4 on a request that has a width and samples, and no height. *)
Lemma missing_key_is_reported_witness :
  first_missing_key [("width", JInt 1); ("data", JArray [])]%string = Some "height"%string
  ∧ MediaPipeService.process_frame (JObject [("width", JInt 1); ("data", JArray [])]%string)
      Stub.service0
    = (Return empty_result,
       @MediaPipeService.Build_state Stub.ext O O
         [Stderr "Error processing frame: 'height'"; Traceback (KeyError "height")]).
Proof.
  split; [reflexivity|].
  exact (missing_key_is_reported (Ext:=Stub.ext) [("width", JInt 1); ("data", JArray [])]%string
           "height" Stub.service0 eq_refl).
Defined.

Lemma list_is_no_object (members : list (string * json)) : JArray [] ≠ JObject members.
Proof. done. Qed.

(** X5 on the request [[]]. *)
Lemma request_that_is_no_object_is_rejected_witness :
  (∀ members, JArray [] ≠ JObject members)
  ∧ ∃ msg,
      MediaPipeService.process_frame (JArray []) Stub.service0
      = (Return empty_result,
         @MediaPipeService.Build_state Stub.ext O O
           [Stderr ("Error processing frame: " +:+ msg); Traceback (TypeError msg)]).
Proof.
  split; [exact list_is_no_object|].
  exact (request_that_is_no_object_is_rejected (Ext:=Stub.ext) (JArray []) Stub.service0
           list_is_no_object).
Defined.

(** X7 on the black frame. *)
Lemma processor_returns_detections_on_rgb_witness :
  Z.of_nat (length Stub.black_frame) = 720 * 1280 * 3
  ∧ MediaPipeProcessor.process_frame Stub.black_frame Stub.processor0
    = (Return (json_dumps (Ext:=Stub.ext) (assembled (Some [Stub.lm0]) None)),
       @MediaPipeProcessor.Build_state Stub.ext 1%nat 1%nat).
Proof.
  split; [exact black_frame_length|].
  exact (proj1 (processor_returns_detections_on_rgb (Ext:=Stub.ext) Stub.black_frame
                  Stub.processor0 (Some [Stub.lm0]) 1%nat None 1%nat
                  black_frame_length eq_refl eq_refl)).
Defined.

(** What X7 says of the channels, on one pixel. *)
Example one_pixel_bgr2rgb : bgr2rgb [10; 20; 30] = [30; 20; 10].
Proof. reflexivity. Qed.

(** X8 on the black frame, once with a pose detector and once with a hand
    detector that raises. *)
Lemma processor_propagates_detector_failure_witness :
  Z.of_nat (length Stub.black_frame) = 720 * 1280 * 3
  ∧ MediaPipeProcessor.process_frame (Ext:=Stub.pose_fails) Stub.black_frame
      (@MediaPipeProcessor.Build_state Stub.pose_fails O O)
    = (Raise Stub.graph_error, @MediaPipeProcessor.Build_state Stub.pose_fails 1%nat O)
  ∧ MediaPipeProcessor.process_frame (Ext:=Stub.hands_fail) Stub.black_frame
      (@MediaPipeProcessor.Build_state Stub.hands_fail O O)
    = (Raise Stub.graph_error, @MediaPipeProcessor.Build_state Stub.hands_fail 1%nat 1%nat).
Proof.
  split; [exact black_frame_length|]. split.
  - exact (proj1 (processor_propagates_detector_failure (Ext:=Stub.pose_fails)
                    Stub.black_frame (@MediaPipeProcessor.Build_state Stub.pose_fails O O)
                    black_frame_length)
             Stub.graph_error 1%nat eq_refl).
  - exact (proj2 (processor_propagates_detector_failure (Ext:=Stub.hands_fail)
                    Stub.black_frame (@MediaPipeProcessor.Build_state Stub.hands_fail O O)
                    black_frame_length)
             (Some [Stub.lm0]) 1%nat Stub.graph_error 1%nat eq_refl eq_refl).
Defined.

(** * Further properties of the dump utility *)

Section dump_more.
Import Dump.
Context `{Hst : Host} `{!HostLaws Hst}.

Lemma sorted_nil : sorted [] = [].
Proof. reflexivity. Qed.

(** A run over an empty listing: the preamble, then the extras. *)
Lemma empty_listing_run (fs : node) (cwd : abspath)
    (src_dir exclude_dir out_file : Path) (extra_paths : option (list Path))
    (st : run_state) :
  iter_files fs (resolve cwd src_dir) (resolve cwd exclude_dir) = [] →
  open_output fs (resolve cwd out_file) = Return tt →
  encodable_run fs cwd src_dir exclude_dir out_file extra_paths = true →
  write_combined_output fs cwd src_dir exclude_dir out_file extra_paths st
  = (Return tt,
     {| out := out st ++ preamble (resolve cwd src_dir) (resolve cwd exclude_dir)
               ++ extras_block fs (resolve cwd out_file)
                    (map (resolve cwd) (default [] extra_paths))
                    (out st ++ preamble (resolve cwd src_dir) (resolve cwd exclude_dir));
        stdout := stdout st ++
                  [summary 0 (length (default [] extra_paths)) (resolve cwd out_file)] |}).
Proof.
  intros Hnone Hopen Henc.
  rewrite write_combined_output_run_below; [|by rewrite Hnone|done|done].
  rewrite Hnone, sorted_nil. unfold dump_layout. simpl. by rewrite app_nil_r.
Qed.

(** Inside the excluded subtree the walk yields nothing. *)
Lemma iter_files_from_excluded (exclude_dir : abspath) (n : node) :
  ∀ dirpath, exclude_dir `prefix_of` dirpath → iter_files_from exclude_dir dirpath n = [].
Proof.
  induction n as [f|entries IH] using node_entries_ind; intros dirpath Hpre; [done|].
  cbn [iter_files_from].
  assert (path_eqb dirpath exclude_dir || in_parents exclude_dir dirpath = true) as ->.
  { destruct (decide (dirpath = exclude_dir)) as [->|Hne].
    - rewrite (proj2 (path_eqb_true _ _)) by done. done.
    - rewrite (proj2 (in_parents_spec _ _)); [by rewrite orb_true_r|]. split; [done|congruence]. }
  simpl. induction IH as [|[d child] entries Hchild _ IHentries]; simpl; [done|].
  rewrite IHentries, app_nil_r. destruct child as [f|sub]; [done|].
  destruct (_ && _); [|done]. apply Hchild. by apply prefix_app_r.
Qed.

(** Every name on the way to something that exists is a directory. *)
Lemma lookup_prefix_is_dir (fs : node) (q p : list string) (n : node) :
  q `prefix_of` p → q ≠ p → lookup fs p = Some n → ∃ entries, lookup fs q = Some (Dir entries).
Proof.
  intros [r ->] Hne. rewrite lookup_app.
  destruct (lookup fs q) as [[f|entries]|]; simpl; [|by eauto|done].
  destruct r as [|c r]; [by rewrite app_nil_r in Hne|done].
Qed.

(** Opening an existing regular file for writing succeeds. *)
Lemma open_output_existing (out_file : list string) :
  ∀ (fs : node) (data : list Byte.byte),
    out_file ≠ [] →
    lookup fs out_file = Some (File (Regular data)) → open_output fs out_file = Return tt.
Proof.
  induction out_file as [|c rest IH]; intros fs data Hne; [done|]. simpl.
  destruct fs as [f|entries]; [done|].
  destruct (assoc c entries) as [child|] eqn:Hc; [|done].
  intros Hl. destruct child as [[d|err]|sub], rest as [|c' rest']; simpl in Hl; try done.
  by eapply IH.
Qed.

(** The section of the output file, when it is among the files of a
    dump. *)
Lemma output_file_section (fs : node) (src_dir exclude_dir out_file : abspath)
    (files extras : list abspath) (written : list string) :
  out_file ∈ files →
  ∃ before after,
    dump_layout fs src_dir exclude_dir out_file files extras written
    = before
      ++ section_head (file_title src_dir out_file)
      ++ [text_of (on_disk ((written ++ before)
                            ++ section_head (file_title src_dir out_file))); nl]
      ++ after.
Proof.
  intros Hp. unfold dump_layout.
  destruct (section_in_sections fs out_file (file_title src_dir) files out_file
              (written ++ preamble src_dir exclude_dir) Hp)
    as (before & after & ->).
  unfold section at 1. unfold file_text.
  rewrite (proj2 (path_eqb_true _ _)) by done.
  eexists (preamble src_dir exclude_dir ++ before), _.
  by rewrite <- !app_assoc.
Qed.

(** X9.  When the output file is itself one of the listed files (it lay in
    the source tree, outside the excluded subtree, before the run) and the
    names of the run are ones the output can encode, its
    section does not show what the file held before: the file is open for
    writing by then, and the section holds the text of what has reached the
    disk of all that the run wrote up to and including the header of this
    very section. *)
Theorem listed_output_file_is_dumped_into_itself (fs : node) (cwd : abspath)
    (src_dir exclude_dir out_file : Path) (extra_paths : option (list Path))
    (st : run_state) :
  wf fs = true →
  open_output fs (resolve cwd out_file) = Return tt →
  encodable_run fs cwd src_dir exclude_dir out_file extra_paths = true →
  resolve cwd out_file ∈ iter_files fs (resolve cwd src_dir) (resolve cwd exclude_dir) →
  ∃ st' before after,
    write_combined_output fs cwd src_dir exclude_dir out_file extra_paths st = (Return tt, st')
    ∧ out st'
      = before
        ++ section_head (file_title (resolve cwd src_dir) (resolve cwd out_file))
        ++ [text_of (on_disk (before ++ section_head
                                (file_title (resolve cwd src_dir) (resolve cwd out_file))));
            nl]
        ++ after.
Proof.
  intros Hwf Hopen Henc Hp.
  rewrite write_combined_output_run by done.
  apply (proj2 (elem_of_sorted _ _)) in Hp.
  destruct (output_file_section fs (resolve cwd src_dir) (resolve cwd exclude_dir)
              (resolve cwd out_file) _ (map (resolve cwd) (default [] extra_paths))
              (out st) Hp)
    as (before & after & Hlayout).
  eexists _, (out st ++ before), after. split; [reflexivity|].
  cbn [out]. rewrite Hlayout. by rewrite <- !app_assoc.
Qed.

(** X10.  When the directory of the output file cannot be created or the
    output file cannot be opened, the exception leaves
    [write_combined_output]: nothing has been written, and the summary line
    is not printed. *)
Theorem unopenable_output_aborts_the_run (fs : node) (cwd : abspath)
    (src_dir exclude_dir out_file : Path) (extra_paths : option (list Path))
    (st : run_state) (e : exception) :
  open_output fs (resolve cwd out_file) = Raise e →
  write_combined_output fs cwd src_dir exclude_dir out_file extra_paths st = (Raise e, st).
Proof.
  intros Hopen. unfold write_combined_output.
  erewrite bind_Raise; [done|]. unfold Py.lift. by rewrite Hopen.
Qed.

(** X11.  A source root that does not exist, or that is a file, is no
    error: when the paths of the run are ones the output can encode, the
    run completes, the output holds the preamble (and the extras) and no
    in-tree section, and the summary reports 0 in-tree files. *)
Theorem source_root_that_is_no_directory_gives_no_section (fs : node) (cwd : abspath)
    (src_dir exclude_dir out_file : Path) (extra_paths : option (list Path))
    (st : run_state) :
  (∀ entries, lookup fs (resolve cwd src_dir) ≠ Some (Dir entries)) →
  open_output fs (resolve cwd out_file) = Return tt →
  encodable_run fs cwd src_dir exclude_dir out_file extra_paths = true →
  write_combined_output fs cwd src_dir exclude_dir out_file extra_paths st
  = (Return tt,
     {| out := out st ++ preamble (resolve cwd src_dir) (resolve cwd exclude_dir)
               ++ extras_block fs (resolve cwd out_file)
                    (map (resolve cwd) (default [] extra_paths))
                    (out st ++ preamble (resolve cwd src_dir) (resolve cwd exclude_dir));
        stdout := stdout st ++
                  [summary 0 (length (default [] extra_paths)) (resolve cwd out_file)] |}).
Proof.
  intros Hroot Hopen Henc. apply empty_listing_run; [|done..].
  unfold iter_files. destruct (lookup fs (resolve cwd src_dir)) as [[f|entries]|]; try done.
  by destruct (Hroot entries).
Qed.

(** X12.  An excluded directory that is the source root or one of its
    ancestors excludes everything: no file is listed and, when the paths of
    the run are ones the output can encode, the output holds no in-tree
    section and the summary reports 0 in-tree files. *)
Theorem excluding_the_source_root_lists_nothing (fs : node) (cwd : abspath)
    (src_dir exclude_dir out_file : Path) (extra_paths : option (list Path))
    (st : run_state) :
  resolve cwd exclude_dir `prefix_of` resolve cwd src_dir →
  open_output fs (resolve cwd out_file) = Return tt →
  encodable_run fs cwd src_dir exclude_dir out_file extra_paths = true →
  iter_files fs (resolve cwd src_dir) (resolve cwd exclude_dir) = []
  ∧ write_combined_output fs cwd src_dir exclude_dir out_file extra_paths st
    = (Return tt,
       {| out := out st ++ preamble (resolve cwd src_dir) (resolve cwd exclude_dir)
                 ++ extras_block fs (resolve cwd out_file)
                      (map (resolve cwd) (default [] extra_paths))
                      (out st ++ preamble (resolve cwd src_dir) (resolve cwd exclude_dir));
          stdout := stdout st ++
                    [summary 0 (length (default [] extra_paths)) (resolve cwd out_file)] |}).
Proof.
  intros Hpre Hopen Henc.
  assert (iter_files fs (resolve cwd src_dir) (resolve cwd exclude_dir) = []) as Hnone.
  { unfold iter_files. destruct (lookup fs (resolve cwd src_dir)) as [[f|entries]|]; try done.
    by apply iter_files_from_excluded. }
  split; [done|]. by apply empty_listing_run.
Qed.

(** X13.  An excluded path that names no directory of the file system (a
    missing path, a file), or a directory that is neither below nor above
    the source root, excludes nothing: the files listed are all files below
    the root that are not named [.DS_Store] and have no directory whose name
    begins with [.git] on the way. *)
Theorem exclude_dir_elsewhere_excludes_nothing (fs : node) (root exclude_dir p : abspath) :
  wf fs = true →
  (∀ entries, lookup fs exclude_dir ≠ Some (Dir entries))
  ∨ (¬ root `prefix_of` exclude_dir ∧ ¬ exclude_dir `prefix_of` root) →
  p ∈ iter_files fs root exclude_dir ↔
  ∃ rel fn f,
    p = root ++ rel ++ [fn] ∧ lookup fs p = Some (File f)
    ∧ fn ≠ ".DS_Store"
    ∧ Forall (λ d, String.prefix ".git" d = false) rel.
Proof.
  intros Hwf Hex. rewrite elem_of_iter_files by done. unfold listed. split.
  - intros (rel & fn & f & -> & Hl & _ & Hfn & Hgit). by exists rel, fn, f.
  - intros (rel & fn & f & -> & Hl & Hfn & Hgit). exists rel, fn, f.
    split_and!; try done. intros Hpre.
    destruct Hex as [Hnodir|[Hbelow Habove]].
    + destruct (lookup_prefix_is_dir fs exclude_dir (root ++ rel ++ [fn]) (File f))
        as [entries Hdir]; [| |done|by destruct (Hnodir entries)].
      * rewrite app_assoc. by apply prefix_app_r.
      * intros ->. apply prefix_length in Hpre. rewrite !length_app in Hpre. simpl in Hpre. lia.
    + destruct (prefix_weak_total root exclude_dir (root ++ rel)); [by apply prefix_app_r|done|..];
        done.
Qed.

(** X14.  The extra paths are not filtered: in a run whose names the
    output can encode every path of the list, also
    one that is missing, a directory, named [.DS_Store] or inside the
    excluded subtree, gets its section under [EXTRA FILE:] and its resolved
    path.  An extra that cannot be read has the marker
    [<<ERROR READING FILE: ...>>] for text; the run completes and counts it
    among the extras. *)
Theorem every_extra_gets_a_section (fs : node) (cwd : abspath)
    (src_dir exclude_dir out_file : Path) (extras : list Path) (st : run_state) (xp : Path) :
  wf fs = true →
  open_output fs (resolve cwd out_file) = Return tt →
  encodable_run fs cwd src_dir exclude_dir out_file (Some extras) = true →
  xp ∈ extras →
  resolve cwd xp ≠ resolve cwd out_file →
  ∃ st' before after content,
    write_combined_output fs cwd src_dir exclude_dir out_file (Some extras) st
    = (Return tt, st')
    ∧ out st' = before ++ section_head ("EXTRA FILE: " +:+ str_abs (resolve cwd xp))
                  ++ [content; nl] ++ after
    ∧ (∀ data, lookup fs (resolve cwd xp) = Some (File (Regular data)) →
         content = text_of data)
    ∧ (∀ err, lookup fs (resolve cwd xp) = Some (File (Denied err)) →
         content = "<<ERROR READING FILE: " +:+ err +:+ ">>")
    ∧ ((∀ f, lookup fs (resolve cwd xp) ≠ Some (File f)) →
         ∃ msg, content = "<<ERROR READING FILE: " +:+ msg +:+ ">>")
    ∧ stdout st' = stdout st ++
        [summary (length (iter_files fs (resolve cwd src_dir) (resolve cwd exclude_dir)))
           (length extras) (resolve cwd out_file)].
Proof.
  intros Hwf Hopen Henc Hxp Hout.
  rewrite write_combined_output_run by done. simpl.
  assert (resolve cwd xp ∈ map (resolve cwd) extras) as Hin.
  { apply list_elem_of_fmap. by exists xp. }
  unfold dump_layout, extras_block.
  destruct extras as [|xp0 extras]; [by apply elem_of_nil in Hxp|].
  cbn [map] in *.
  match goal with
  | |- context [sections fs ?o extra_title ?paths ?written] =>
      destruct (section_in_sections fs o extra_title paths (resolve cwd xp) written Hin)
        as (before & after & ->)
  end.
  unfold section at 1.
  set (pre := preamble (resolve cwd src_dir) (resolve cwd exclude_dir)).
  set (tree := sections fs (resolve cwd out_file) (file_title (resolve cwd src_dir)) _ _).
  eexists _, (out st ++ pre ++ tree ++ extras_banner ++ before), after, _.
  split; [reflexivity|]. cbn [out stdout]. split.
  { unfold extra_title. by rewrite <- !app_assoc. }
  unfold file_text, error_marker.
  assert (path_eqb (resolve cwd xp) (resolve cwd out_file) = false) as ->
    by (by apply not_true_iff_false; rewrite path_eqb_true).
  split_and!; [intros data ->|intros err ->| |]; try done.
  intros Hnofile.
  destruct (lookup fs (resolve cwd xp)) as [[f|entries]|]; [by destruct (Hnofile f)|eauto..].
Qed.

End dump_more.

(** ** The entry point *)

Section main_facts.
Import Dump DumpMain.
Context `{Hst : Host} `{!HostLaws Hst}.
Variable fs : node.
Variable cwd : abspath.
Variable path_of_str : string → Path.

Lemma resolve_truediv (p : Path) (name : string) :
  name ≠ ".."%string → resolve cwd (truediv p name) = resolve cwd p ++ [name].
Proof.
  intros Hname%String.eqb_neq. unfold resolve, truediv, normpath. simpl.
  rewrite app_assoc, fold_left_app. simpl. by rewrite Hname.
Qed.

(** With one argument at most, everything but the source root is derived
    from it. *)
Lemma arguments_short (argv : list string) :
  (length argv ≤ 1)%nat →
  ∃ src_dir,
    arguments path_of_str argv
    = (src_dir, truediv src_dir "bin", truediv src_dir "_all_source.txt", DEFAULT_EXTRA_PATHS).
Proof.
  destruct argv as [|arg0 [|arg1 rest]]; simpl; [by eexists..|lia].
Qed.

Lemma arguments_extras (argv : list string) :
  (arguments path_of_str argv).2 ≠ []
  ∧ ((length argv ≤ 3)%nat → (arguments path_of_str argv).2 = DEFAULT_EXTRA_PATHS)
  ∧ ((4 ≤ length argv)%nat → (arguments path_of_str argv).2 = map path_of_str (drop 3 argv)).
Proof.
  destruct argv as [|a0 [|a1 [|a2 [|a3 rest]]]]; simpl; split_and!; try done; lia.
Qed.

(** X15.  Started from the command line the tool always appends extras:
    with three arguments or fewer the two built-in default paths, with more
    the arguments from the fourth on.  No command line whose run completes
    (its names being ones the output can encode) gives a dump without the
    banner of the extras and at least one [EXTRA FILE] section. *)
Theorem main_always_appends_extras (argv : list string) (st : run_state) :
  wf fs = true →
  open_output fs (resolve cwd (arguments path_of_str argv).1.2) = Return tt →
  encodable_run fs cwd (arguments path_of_str argv).1.1.1 (arguments path_of_str argv).1.1.2
    (arguments path_of_str argv).1.2 (Some (arguments path_of_str argv).2) = true →
  (arguments path_of_str argv).2 ≠ []
  ∧ ((length argv ≤ 3)%nat → (arguments path_of_str argv).2 = DEFAULT_EXTRA_PATHS)
  ∧ ((4 ≤ length argv)%nat → (arguments path_of_str argv).2 = map path_of_str (drop 3 argv))
  ∧ ∃ st' before,
      main fs cwd path_of_str argv st = (Return tt, st')
      ∧ out st'
        = before ++ extras_banner
          ++ sections fs (resolve cwd (arguments path_of_str argv).1.2) extra_title
               (map (resolve cwd) (arguments path_of_str argv).2) (before ++ extras_banner)
      ∧ stdout st'
        = stdout st
          ++ [summary
                (length (iter_files fs (resolve cwd (arguments path_of_str argv).1.1.1)
                           (resolve cwd (arguments path_of_str argv).1.1.2)))
                (length (arguments path_of_str argv).2)
                (resolve cwd (arguments path_of_str argv).1.2)].
Proof.
  intros Hwf Hopen Henc.
  destruct (arguments_extras argv) as (Hne & Hdefault & Hgiven).
  split_and!; [done..|].
  unfold main.
  destruct (arguments path_of_str argv) as [[[src_dir exclude_dir] out_file] extras].
  cbn [fst snd] in *.
  rewrite write_combined_output_run by done. cbn [default].
  destruct extras as [|xp extras]; [done|].
  eexists _, (out st ++ preamble (resolve cwd src_dir) (resolve cwd exclude_dir)
              ++ sections fs (resolve cwd out_file) (file_title (resolve cwd src_dir))
                   (sorted (iter_files fs (resolve cwd src_dir) (resolve cwd exclude_dir)))
                   (out st ++ preamble (resolve cwd src_dir) (resolve cwd exclude_dir))).
  split; [reflexivity|]. cbn [out stdout]. split; [|done].
  unfold dump_layout, extras_block. cbn [map]. by rewrite <- !app_assoc.
Qed.

(** X16.  Run with no argument, or with the source root alone, the tool
    puts its output into the source root, outside the excluded [bin].  When
    the file [_all_source.txt] of an earlier run is there (and the names of
    the run are ones the output can encode), the next run lists
    it among the source files and dumps it into itself, under
    [FILE: _all_source.txt]: not the earlier dump, but what has reached the
    disk of the present one. *)
Theorem default_output_file_is_dumped_on_the_next_run (argv : list string)
    (data : list Byte.byte) (st : run_state) :
  wf fs = true →
  (length argv ≤ 1)%nat →
  encodable_run fs cwd (arguments path_of_str argv).1.1.1 (arguments path_of_str argv).1.1.2
    (arguments path_of_str argv).1.2 (Some (arguments path_of_str argv).2) = true →
  lookup fs (resolve cwd (arguments path_of_str argv).1.1.1 ++ ["_all_source.txt"]%string)
  = Some (File (Regular data)) →
  ∃ st' before after,
    main fs cwd path_of_str argv st = (Return tt, st')
    ∧ out st'
      = before
        ++ section_head "FILE: _all_source.txt"
        ++ [text_of (on_disk (before ++ section_head "FILE: _all_source.txt")); nl]
        ++ after.
Proof.
  intros Hwf Hlen. destruct (arguments_short argv Hlen) as [src_dir Hargs].
  unfold main. rewrite Hargs. cbn [fst snd]. intros Henc Hl.
  assert (resolve cwd (truediv src_dir "_all_source.txt")
          = resolve cwd src_dir ++ ["_all_source.txt"]%string) as Hout
    by (by apply resolve_truediv).
  assert (resolve cwd (truediv src_dir "bin") = resolve cwd src_dir ++ ["bin"]%string) as Hbin
    by (by apply resolve_truediv).
  assert (resolve cwd (truediv src_dir "_all_source.txt")
            ∈ sorted (iter_files fs (resolve cwd src_dir)
                        (resolve cwd (truediv src_dir "bin")))) as Hlisted.
  { rewrite Hout, Hbin. apply elem_of_sorted, elem_of_iter_files; [done|].
    exists [], "_all_source.txt"%string, (Regular data). split_and!; try done.
    rewrite app_nil_r. intros Hpre%prefix_length. rewrite length_app in Hpre. simpl in Hpre. lia. }
  rewrite write_combined_output_run; [|done| |done]; cycle 1.
  { rewrite Hout. eapply open_output_existing; [|done]. by destruct (resolve cwd src_dir). }
  destruct (output_file_section fs (resolve cwd src_dir) (resolve cwd (truediv src_dir "bin"))
              (resolve cwd (truediv src_dir "_all_source.txt")) _
              (map (resolve cwd) (default [] (Some DEFAULT_EXTRA_PATHS))) (out st) Hlisted)
    as (before & after & Hlayout).
  assert (file_title (resolve cwd src_dir) (resolve cwd (truediv src_dir "_all_source.txt"))
          = "FILE: _all_source.txt"%string) as Htitle.
  { unfold file_title. by rewrite Hout, drop_app_length. }
  rewrite Htitle in Hlayout.
  eexists _, (out st ++ before), after. split; [reflexivity|].
  cbn [out]. rewrite Hlayout. by rewrite <- !app_assoc.
Qed.

End main_facts.

(** ** Output buffering *)

Section buffering.
Import Dump.

(** Two hosts that decode alike, whatever they do with output that has not
    been flushed. *)
Variables H1 H2 : Host.
Hypothesis same_text : ∀ data, @decode_text H1 data = @decode_text H2 data.
Hypothesis same_replace : ∀ data, @decode_replace H1 data = @decode_replace H2 data.

Lemma file_text_buffering (fs : node) (out_file path : abspath) (written : list string) :
  path ≠ out_file →
  file_text (Hst:=H1) fs out_file path written = file_text (Hst:=H2) fs out_file path written.
Proof.
  intros Hne. unfold file_text, text_of.
  assert (path_eqb path out_file = false) as ->
    by (by apply not_true_iff_false; rewrite path_eqb_true).
  destruct (lookup fs path) as [[[data|err]|entries]|]; try done.
  by rewrite same_text, same_replace.
Qed.

(** X17.  When the output file is neither one of the listed files nor one
    of the extras (a file that did not exist before the run never is), the
    dump does not depend on how much of the output has reached the disk while
    the run reads: two hosts that decode alike write the same chunks and
    print the same summary. *)
Theorem dump_does_not_depend_on_buffering (fs : node) (cwd : abspath)
    (src_dir exclude_dir out_file : Path) (extra_paths : option (list Path))
    (st : run_state) :
  wf fs = true →
  resolve cwd out_file ∉ iter_files fs (resolve cwd src_dir) (resolve cwd exclude_dir) →
  resolve cwd out_file ∉ map (resolve cwd) (default [] extra_paths) →
  write_combined_output (Hst:=H1) fs cwd src_dir exclude_dir out_file extra_paths st
  = write_combined_output (Hst:=H2) fs cwd src_dir exclude_dir out_file extra_paths st.
Proof.
  intros Hwf Hfiles Hextras.
  assert (∀ path st', path ≠ resolve cwd out_file →
            read_file_as_text (Hst:=H1) fs (resolve cwd out_file) path st'
            = read_file_as_text (Hst:=H2) fs (resolve cwd out_file) path st') as Hread.
  { intros path st' Hne. rewrite !read_file_as_text_run. by rewrite file_text_buffering. }
  unfold write_combined_output.
  do 3 (apply bind_ext; [done|intros]).
  apply bind_ext.
  { apply for_each_ext. intros p Hp count s0.
    do 5 (apply bind_ext; [done|intros]). apply bind_ext; [|done].
    apply Hread. intros ->. by apply Hfiles, elem_of_sorted. }
  intros count s0. apply bind_ext; [|done].
  destruct extra_paths as [[|xp extras]|]; try done.
  do 4 (apply bind_ext; [done|intros]).
  apply for_each_ext. intros xp' Hxp [] s1.
  do 4 (apply bind_ext; [done|intros]). apply bind_ext; [|done].
  apply Hread. intros Heq. apply Hextras. cbn [default].
  apply list_elem_of_fmap. by exists xp'.
Qed.

End buffering.

(** ** The further properties of the dump utility at concrete inputs *)

Section dump_more_samples.
Import Dump DumpMain Sample.

Ltac decide_by_compute := apply (bool_decide_unpack _); vm_compute; exact I.

Lemma tree_rerun_wf : wf tree_rerun = true.
Proof. reflexivity. Qed.

Lemma tree_rerun_encodable :
  encodable_run tree_rerun cwd src_dir exclude_dir out_in_tree None = true.
Proof. by vm_compute. Qed.

Lemma out_in_tree_listed :
  resolve cwd out_in_tree ∈ iter_files tree_rerun (resolve cwd src_dir) (resolve cwd exclude_dir).
Proof. decide_by_compute. Qed.

(** X9 on the example tree with the output of an earlier run in it. *)
Lemma listed_output_file_is_dumped_into_itself_witness :
  wf tree_rerun = true
  ∧ open_output tree_rerun (resolve cwd out_in_tree) = Return tt
  ∧ encodable_run tree_rerun cwd src_dir exclude_dir out_in_tree None = true
  ∧ resolve cwd out_in_tree
      ∈ iter_files tree_rerun (resolve cwd src_dir) (resolve cwd exclude_dir)
  ∧ ∃ st' before after,
      write_combined_output (Hst:=host) tree_rerun cwd src_dir exclude_dir out_in_tree None start
      = (Return tt, st')
      ∧ out st'
        = before
          ++ section_head (file_title (resolve cwd src_dir) (resolve cwd out_in_tree))
          ++ [text_of (Hst:=host)
                (on_disk (Host:=host)
                   (before ++ section_head
                      (file_title (resolve cwd src_dir) (resolve cwd out_in_tree))));
              nl]
          ++ after.
Proof.
  split; [exact tree_rerun_wf|]. split; [reflexivity|]. split; [exact tree_rerun_encodable|].
  split; [exact out_in_tree_listed|].
  exact (listed_output_file_is_dumped_into_itself (Hst:=host) tree_rerun cwd src_dir
           exclude_dir out_in_tree None start tree_rerun_wf eq_refl tree_rerun_encodable
           out_in_tree_listed).
Defined.

(** What X9 says, on that tree: under [FILE: _all_source.txt] stands the
    beginning of the present dump, not the line the file held. *)
Example dump_of_tree_rerun :
  write_combined_output (Hst:=host) tree_rerun cwd src_dir exclude_dir out_in_tree None start
  = (Return tt,
     {| out := ["# Combined dump of /src" +:+ nl;
                "# Excluding: /src/bin" +:+ nl +:+ nl;
                nl; rule "="; "FILE: _all_source.txt" +:+ nl; rule "=" +:+ nl;
                "# Combined dump of /src" +:+ nl +:+ "# Excluding: /src/bin" +:+ nl +:+ nl
                  +:+ nl +:+ rule "=" +:+ "FILE: _all_source.txt" +:+ nl +:+ rule "=" +:+ nl;
                nl;
                nl; rule "="; "FILE: a.txt" +:+ nl; rule "=" +:+ nl; "alpha"; nl;
                nl; rule "="; "FILE: sub/b.txt" +:+ nl; rule "=" +:+ nl; "beta"; nl];
        stdout := ["Wrote 3 in-tree files + 0 extras into: /src/_all_source.txt"] |}).
Proof. by vm_compute. Qed.

(** X10 with the source directory given as the output file. *)
Lemma unopenable_output_aborts_the_run_witness :
  open_output tree (resolve cwd src_dir) = Raise (OSError "Is a directory")
  ∧ write_combined_output (Hst:=host) tree cwd src_dir exclude_dir src_dir
      (Some extra_paths) start
    = (Raise (OSError "Is a directory"), start).
Proof.
  split; [reflexivity|].
  exact (unopenable_output_aborts_the_run (Hst:=host) tree cwd src_dir exclude_dir src_dir
           (Some extra_paths) start (OSError "Is a directory") eq_refl).
Defined.

Lemma nowhere_encodable : encodable_run tree cwd nowhere exclude_dir out_file None = true.
Proof. by vm_compute. Qed.

Lemma nowhere_is_no_directory (entries : list (string * node)) :
  lookup tree (resolve cwd nowhere) ≠ Some (Dir entries).
Proof. done. Qed.

(** X11 with a source root that does not exist. *)
Lemma source_root_that_is_no_directory_gives_no_section_witness :
  lookup tree (resolve cwd nowhere) = None
  ∧ encodable_run tree cwd nowhere exclude_dir out_file None = true
  ∧ write_combined_output (Hst:=host) tree cwd nowhere exclude_dir out_file None start
    = (Return tt,
       {| out := out start ++ preamble (resolve cwd nowhere) (resolve cwd exclude_dir)
                 ++ extras_block (Hst:=host) tree (resolve cwd out_file)
                      (map (resolve cwd) (default [] None))
                      (out start ++ preamble (resolve cwd nowhere) (resolve cwd exclude_dir));
          stdout := stdout start ++
                    [summary 0 (length (default [] (None : option (list Path))))
                       (resolve cwd out_file)] |}).
Proof.
  split; [reflexivity|]. split; [exact nowhere_encodable|].
  exact (source_root_that_is_no_directory_gives_no_section (Hst:=host) tree cwd nowhere
           exclude_dir out_file None start nowhere_is_no_directory eq_refl
           nowhere_encodable).
Defined.

Lemma src_excluded_encodable : encodable_run tree cwd src_dir src_dir out_file None = true.
Proof. by vm_compute. Qed.

Lemma src_prefix_of_src : resolve cwd src_dir `prefix_of` resolve cwd src_dir.
Proof. done. Qed.

(** X12 with the source root itself excluded. *)
Lemma excluding_the_source_root_lists_nothing_witness :
  resolve cwd src_dir `prefix_of` resolve cwd src_dir
  ∧ encodable_run tree cwd src_dir src_dir out_file None = true
  ∧ iter_files tree (resolve cwd src_dir) (resolve cwd src_dir) = []
  ∧ write_combined_output (Hst:=host) tree cwd src_dir src_dir out_file None start
    = (Return tt,
       {| out := out start ++ preamble (resolve cwd src_dir) (resolve cwd src_dir)
                 ++ extras_block (Hst:=host) tree (resolve cwd out_file)
                      (map (resolve cwd) (default [] None))
                      (out start ++ preamble (resolve cwd src_dir) (resolve cwd src_dir));
          stdout := stdout start ++
                    [summary 0 (length (default [] (None : option (list Path))))
                       (resolve cwd out_file)] |}).
Proof.
  split; [exact src_prefix_of_src|]. split; [exact src_excluded_encodable|].
  exact (excluding_the_source_root_lists_nothing (Hst:=host) tree cwd src_dir src_dir
           out_file None start src_prefix_of_src eq_refl src_excluded_encodable).
Defined.

Lemma etc_is_elsewhere :
  (∀ entries, lookup tree ["etc"]%string ≠ Some (Dir entries))
  ∨ (¬ ["src"]%string `prefix_of` ["etc"]%string ∧ ¬ ["etc"]%string `prefix_of` ["src"]%string).
Proof. right. split; decide_by_compute. Qed.

(** X13 with [/etc] excluded from a walk of [/src], for the file
    [bin/c.txt]. *)
Lemma exclude_dir_elsewhere_excludes_nothing_witness :
  wf tree = true
  ∧ (¬ ["src"]%string `prefix_of` ["etc"]%string ∧ ¬ ["etc"]%string `prefix_of` ["src"]%string)
  ∧ (["src"; "bin"; "c.txt"]%string ∈ iter_files tree ["src"]%string ["etc"]%string ↔
     ∃ rel fn f,
       ["src"; "bin"; "c.txt"]%string = ["src"]%string ++ rel ++ [fn]
       ∧ lookup tree ["src"; "bin"; "c.txt"]%string = Some (File f)
       ∧ fn ≠ ".DS_Store"%string
       ∧ Forall (λ d, String.prefix ".git" d = false) rel).
Proof.
  split; [exact tree_wf|]. split; [split; decide_by_compute|].
  exact (exclude_dir_elsewhere_excludes_nothing tree ["src"]%string ["etc"]%string
           ["src"; "bin"; "c.txt"]%string tree_wf etc_is_elsewhere).
Defined.

Lemma with_extras_encodable :
  encodable_run tree cwd src_dir exclude_dir out_file (Some extra_paths) = true.
Proof. by vm_compute. Qed.

Lemma build_sh_in_extras : build_sh ∈ extra_paths.
Proof. right. left. Qed.

Lemma build_sh_is_not_the_output : resolve cwd build_sh ≠ resolve cwd out_file.
Proof. by vm_compute. Qed.

(** X14 on the extra [/etc/build.sh], which does not exist. *)
Lemma every_extra_gets_a_section_witness :
  wf tree = true
  ∧ open_output tree (resolve cwd out_file) = Return tt
  ∧ encodable_run tree cwd src_dir exclude_dir out_file (Some extra_paths) = true
  ∧ build_sh ∈ extra_paths
  ∧ resolve cwd build_sh ≠ resolve cwd out_file
  ∧ ∃ st' before after content,
      write_combined_output (Hst:=host) tree cwd src_dir exclude_dir out_file
        (Some extra_paths) start = (Return tt, st')
      ∧ out st' = before ++ section_head ("EXTRA FILE: " +:+ str_abs (resolve cwd build_sh))
                    ++ [content; nl] ++ after
      ∧ (∀ data, lookup tree (resolve cwd build_sh) = Some (File (Regular data)) →
           content = text_of (Hst:=host) data)
      ∧ (∀ err, lookup tree (resolve cwd build_sh) = Some (File (Denied err)) →
           content = "<<ERROR READING FILE: " +:+ err +:+ ">>")
      ∧ ((∀ f, lookup tree (resolve cwd build_sh) ≠ Some (File f)) →
           ∃ msg, content = "<<ERROR READING FILE: " +:+ msg +:+ ">>")
      ∧ stdout st' = stdout start ++
          [summary (length (iter_files tree (resolve cwd src_dir) (resolve cwd exclude_dir)))
             (length extra_paths) (resolve cwd out_file)].
Proof.
  split; [exact tree_wf|]. split; [reflexivity|]. split; [exact with_extras_encodable|].
  split; [exact build_sh_in_extras|]. split; [exact build_sh_is_not_the_output|].
  exact (every_extra_gets_a_section (Hst:=host) tree cwd src_dir exclude_dir out_file
           extra_paths start build_sh tree_wf eq_refl with_extras_encodable
           build_sh_in_extras build_sh_is_not_the_output).
Defined.

Lemma command_line_encodable :
  encodable_run tree cwd (arguments path_of_str ["/src"]%string).1.1.1
    (arguments path_of_str ["/src"]%string).1.1.2
    (arguments path_of_str ["/src"]%string).1.2
    (Some (arguments path_of_str ["/src"]%string).2) = true.
Proof. by vm_compute. Qed.

Lemma command_line_encodable_rerun :
  encodable_run tree_rerun cwd (arguments path_of_str ["/src"]%string).1.1.1
    (arguments path_of_str ["/src"]%string).1.1.2
    (arguments path_of_str ["/src"]%string).1.2
    (Some (arguments path_of_str ["/src"]%string).2) = true.
Proof. by vm_compute. Qed.

(** X15 on the command line [combine.py /src]. *)
Lemma main_always_appends_extras_witness :
  wf tree = true
  ∧ open_output tree (resolve cwd (arguments path_of_str ["/src"]%string).1.2) = Return tt
  ∧ encodable_run tree cwd (arguments path_of_str ["/src"]%string).1.1.1
      (arguments path_of_str ["/src"]%string).1.1.2
      (arguments path_of_str ["/src"]%string).1.2
      (Some (arguments path_of_str ["/src"]%string).2) = true
  ∧ (arguments path_of_str ["/src"]%string).2 ≠ []
  ∧ ((length ["/src"%string] ≤ 3)%nat →
       (arguments path_of_str ["/src"]%string).2 = DEFAULT_EXTRA_PATHS)
  ∧ ((4 ≤ length ["/src"%string])%nat →
       (arguments path_of_str ["/src"]%string).2 = map path_of_str (drop 3 ["/src"]%string))
  ∧ ∃ st' before,
      main (Hst:=host) tree cwd path_of_str ["/src"]%string start = (Return tt, st')
      ∧ out st'
        = before ++ extras_banner
          ++ sections (Hst:=host) tree
               (resolve cwd (arguments path_of_str ["/src"]%string).1.2) extra_title
               (map (resolve cwd) (arguments path_of_str ["/src"]%string).2)
               (before ++ extras_banner)
      ∧ stdout st'
        = stdout start
          ++ [summary
                (length (iter_files tree
                           (resolve cwd (arguments path_of_str ["/src"]%string).1.1.1)
                           (resolve cwd (arguments path_of_str ["/src"]%string).1.1.2)))
                (length (arguments path_of_str ["/src"]%string).2)
                (resolve cwd (arguments path_of_str ["/src"]%string).1.2)].
Proof.
  split; [exact tree_wf|]. split; [reflexivity|]. split; [exact command_line_encodable|].
  exact (main_always_appends_extras (Hst:=host) tree cwd path_of_str ["/src"]%string start
           tree_wf eq_refl command_line_encodable).
Defined.

(** X16 on the command line [combine.py /src], the output of an earlier
    run being there. *)
Lemma default_output_file_is_dumped_on_the_next_run_witness :
  wf tree_rerun = true
  ∧ (length ["/src"%string] ≤ 1)%nat
  ∧ encodable_run tree_rerun cwd (arguments path_of_str ["/src"]%string).1.1.1
      (arguments path_of_str ["/src"]%string).1.1.2
      (arguments path_of_str ["/src"]%string).1.2
      (Some (arguments path_of_str ["/src"]%string).2) = true
  ∧ ∃ st' before after,
      main (Hst:=host) tree_rerun cwd path_of_str ["/src"]%string start = (Return tt, st')
      ∧ out st'
        = before
          ++ section_head "FILE: _all_source.txt"
          ++ [text_of (Hst:=host)
                (on_disk (Host:=host) (before ++ section_head "FILE: _all_source.txt"));
              nl]
          ++ after.
Proof.
  split; [exact tree_rerun_wf|]. split; [exact (le_n 1)|].
  split; [exact command_line_encodable_rerun|].
  exact (default_output_file_is_dumped_on_the_next_run (Hst:=host) tree_rerun cwd path_of_str
           ["/src"]%string (list_byte_of_string "# Combined dump of /src") start
           tree_rerun_wf (le_n 1) command_line_encodable_rerun eq_refl).
Defined.

Lemma dump_txt_is_not_listed :
  resolve cwd out_file ∉ iter_files tree (resolve cwd src_dir) (resolve cwd exclude_dir).
Proof. decide_by_compute. Qed.

Lemma dump_txt_is_no_extra :
  resolve cwd out_file ∉ map (resolve cwd) (default [] (Some extra_paths)).
Proof. decide_by_compute. Qed.

(** X17 on the example tree, with unbuffered and with fully buffered
    output. *)
Lemma dump_does_not_depend_on_buffering_witness :
  wf tree = true
  ∧ (resolve cwd out_file ∉ iter_files tree (resolve cwd src_dir) (resolve cwd exclude_dir))
  ∧ (resolve cwd out_file ∉ map (resolve cwd) (default [] (Some extra_paths)))
  ∧ write_combined_output (Hst:=host) tree cwd src_dir exclude_dir out_file
      (Some extra_paths) start
    = write_combined_output (Hst:=buffered) tree cwd src_dir exclude_dir out_file
        (Some extra_paths) start.
Proof.
  split; [exact tree_wf|]. split; [exact dump_txt_is_not_listed|].
  split; [exact dump_txt_is_no_extra|].
  exact (dump_does_not_depend_on_buffering host buffered (λ _, eq_refl) (λ _, eq_refl)
           tree cwd src_dir exclude_dir out_file (Some extra_paths) start
           tree_wf dump_txt_is_not_listed dump_txt_is_no_extra).
Defined.

(** Where the output file is listed the two hosts differ: with the earlier
    output in the tree the buffered host dumps an empty text under
    [FILE: _all_source.txt]. *)
Example buffering_shows_in_tree_rerun :
  write_combined_output (Hst:=host) tree_rerun cwd src_dir exclude_dir out_in_tree None start
  ≠ write_combined_output (Hst:=buffered) tree_rerun cwd src_dir exclude_dir out_in_tree None
      start.
Proof. by vm_compute. Qed.

(** A listed file whose name is not valid UTF-8 stops the run at its
    header: the sections before it are written, the header is not, and no
    summary is printed. *)
Example dump_of_tree_latin1 :
  encodable_run tree_latin1 cwd src_dir exclude_dir out_file None = false
  ∧ write_combined_output (Hst:=host) tree_latin1 cwd src_dir exclude_dir out_file None start
    = (Raise not_encodable,
       {| out := ["# Combined dump of /src" +:+ nl;
                  "# Excluding: /src/bin" +:+ nl +:+ nl;
                  nl; rule "="; "FILE: a.txt" +:+ nl; rule "=" +:+ nl; "alpha"; nl;
                  nl; rule "="];
          stdout := [] |}).
Proof. split; by vm_compute. Qed.

End dump_more_samples.
